(** * Shopify extraction pipeline: a model of [dlt/shopify_simple_pipeline.py]
      and [dlt/test_shopify_connection.py]

    The two Python modules are embedded as Rocq functions over a small
    model of the Python values they manipulate (decoded JSON, strings,
    dictionaries), an exception type, and a monad [prog] that threads the
    outside world (HTTP server, wall clock, process environment) and records
    the observable events of a run (requests, yielded rows, pauses, printed
    lines).

    Conventions.
    - A Python [str] is a Rocq [string]; a character outside ASCII is held as
      its UTF-8 bytes.  Substring tests and the regular expression of the
      pagination code only look for ASCII characters, so on this
      representation they return what Python returns.  What Python does
      character by character (slicing, iterating, [repr], encoding for
      [print]) is done on the characters [utf8_chars] reads off the bytes.
    - A Python [int] is a [Z].  A Python [float] is held as its [repr], the
      shortest decimal text that reads back as the same binary64 number; the
      program only ever tests a float for truth, compares it with [0] and
      prints it.
    - A [dict] is the list of its items in insertion order; keys are unique
      in every dictionary the program builds or receives from [json].
    - [print] raises [UnicodeEncodeError] when [sys.stdout] cannot encode the
      text, and prints nothing of it then; the encoding of [sys.stdout] and
      the Unicode database behind [repr] belong to the world the program runs
      in and do not change during a run.  No other failure of the output is
      modelled, and no exception arrives from outside the program (no
      interrupt, no [GeneratorExit]): the exceptions of a run are those the
      statements of the program raise.
    - A bound on the number of turns ([fuel]) stands for [while True]; a run
      cut by the bound ends in [OutOfFuel]. *)

From Stdlib Require Import List String Ascii ZArith Lia Bool DecimalString.
Import ListNotations.
Set Warnings "-register-all".
Open Scope string_scope.
Open Scope Z_scope.

(** ** Characters and strings *)

Definition dquote : string := String "034"%char EmptyString.
Definition squote : string := String "039"%char EmptyString.
Definition newline : string := String "010"%char EmptyString.
(** UTF-8 encodings of U+2713 (check mark) and U+2717 (ballot x). *)
Definition check_mark : string :=
  String "226"%char (String "156"%char (String "147"%char EmptyString)).
Definition cross_mark : string :=
  String "226"%char (String "156"%char (String "151"%char EmptyString)).

Definition is_empty (s : string) : bool :=
  match s with EmptyString => true | String _ _ => false end.

(** [drop_prefix p s] is [Some rest] when [s = p ++ rest]. *)
Fixpoint drop_prefix (p s : string) : option string :=
  match p, s with
  | EmptyString, _ => Some s
  | String a p', String b s' => if Ascii.eqb a b then drop_prefix p' s' else None
  | String _ _, EmptyString => None
  end.

(** Python's [sub in s] on strings. *)
Fixpoint py_in (sub s : string) : bool :=
  match drop_prefix sub s with
  | Some _ => true
  | None => match s with
            | EmptyString => false
            | String _ s' => py_in sub s'
            end
  end.

(** The character class [[^&>]] of the pagination pattern. *)
Definition cursor_char (c : ascii) : bool :=
  negb (Ascii.eqb c "&"%char || Ascii.eqb c ">"%char).

(** Greedy [[^&>]*]: the longest run of class characters at the head. *)
Fixpoint take_cursor (s : string) : string :=
  match s with
  | String c s' => if cursor_char c then String c (take_cursor s') else EmptyString
  | EmptyString => EmptyString
  end.

(** [re.search(r'page_info=([^&>]+)', s)], reduced to group 1 of the match:
    the leftmost position where the literal is followed by at least one
    class character; the group is greedy. *)
Fixpoint re_search_page_info (s : string) : option string :=
  let here :=
    match drop_prefix "page_info=" s with
    | Some rest => let g := take_cursor rest in
                   if is_empty g then None else Some g
    | None => None
    end in
  match here with
  | Some g => Some g
  | None => match s with
            | EmptyString => None
            | String _ s' => re_search_page_info s'
            end
  end.

(** The bytes [10xxxxxx] that continue a character of several bytes. *)
Definition is_continuation (c : ascii) : bool :=
  let n := N_of_ascii c in (128 <=? n)%N && (n <? 192)%N.

(** The number of bytes the character opened by the byte [c] takes. *)
Definition utf8_width (c : ascii) : nat :=
  let n := N_of_ascii c in
  if (n <? 192)%N then 1 else if (n <? 224)%N then 2 else if (n <? 240)%N then 3 else 4.

(** The characters of a text, each as its bytes.  [pending] bytes are still
    to come for the character [cur]; a byte that does not continue it opens
    the next character. *)
Fixpoint utf8_chars_from (pending : nat) (cur : string) (s : string) : list string :=
  match s with
  | EmptyString => match cur with EmptyString => [] | _ => [cur] end
  | String c s' =>
      let opened :=
        match utf8_width c with
        | S (S p) => utf8_chars_from (S p) (String c EmptyString) s'
        | _ => String c EmptyString :: utf8_chars_from 0 EmptyString s'
        end in
      match pending with
      | O => opened
      | S p =>
          if is_continuation c then
            match p with
            | O => (cur ++ String c EmptyString) :: utf8_chars_from 0 EmptyString s'
            | S _ => utf8_chars_from p (cur ++ String c EmptyString) s'
            end
          else cur :: opened
      end
  end.

Definition utf8_chars (s : string) : list string := utf8_chars_from 0 EmptyString s.

(** The code point of a character given as its bytes. *)
Definition code_point (ch : string) : N :=
  match ch with
  | EmptyString => 0
  | String c rest =>
      let n := N_of_ascii c in
      let lead := if (n <? 192)%N then n
                  else if (n <? 224)%N then (n mod 32)%N
                  else if (n <? 240)%N then (n mod 16)%N
                  else (n mod 8)%N in
      fold_left (fun acc b => (acc * 64 + N_of_ascii b mod 64)%N)
        (list_ascii_of_string rest) lead
  end.

(** [s[:n]] and [s[-n:]] for a non-negative literal [n]. *)
Definition slice_to (n : nat) (s : string) : string :=
  concat EmptyString (firstn n (utf8_chars s)).

Definition slice_last (n : nat) (s : string) : string :=
  let chars := utf8_chars s in
  concat EmptyString (skipn (List.length chars - n) chars).

Definition join (sep : string) (parts : list string) : string :=
  match parts with
  | [] => EmptyString
  | p :: ps => fold_left (fun acc q => acc ++ sep ++ q) ps p
  end.

Definition decimal (z : Z) : string := NilZero.string_of_int (Z.to_int z).

Definition hex_digit (n : N) : ascii :=
  if (n <? 10)%N then ascii_of_N (48 + n) else ascii_of_N (87 + n).

(** [n] in hexadecimal, on [digits] digits. *)
Fixpoint hex (digits : nat) (n : N) : string :=
  match digits with
  | O => EmptyString
  | S d => hex d (n / 16) ++ String (hex_digit (n mod 16)) EmptyString
  end.

(** The escape of a character in [repr] and in the message of a
    [UnicodeEncodeError]: [\xNN], [\uNNNN] or [\UNNNNNNNN]. *)
Definition escape_code_point (n : N) : string :=
  if (n <? 256)%N then "\x" ++ hex 2 n
  else if (n <? 65536)%N then "\u" ++ hex 4 n
  else "\U" ++ hex 8 n.

(** ** Python values *)

Inductive value : Type :=
| VNone
| VBool (b : bool)
| VInt (z : Z)
| VFloat (r : string)
| VStr (s : string)
| VList (l : list value)
| VDict (d : list (string * value)).

Definition dict : Type := list (string * value).

Fixpoint lookup (k : string) (d : dict) : option value :=
  match d with
  | [] => None
  | (k', v) :: d' => if String.eqb k k' then Some v else lookup k d'
  end.

(** [d[k] = v]: an existing key keeps its position, a new one goes last. *)
Fixpoint dict_set (k : string) (v : value) (d : dict) : dict :=
  match d with
  | [] => [(k, v)]
  | (k', v') :: d' =>
      if String.eqb k k' then (k, v) :: d' else (k', v') :: dict_set k v d'
  end.

Definition keys (d : dict) : list string := map fst d.

Definition of_option (o : option string) : value :=
  match o with Some s => VStr s | None => VNone end.

(** [bool(v)]. *)
Definition truthy (v : value) : bool :=
  match v with
  | VNone => false
  | VBool b => b
  | VInt z => negb (z =? 0)
  | VFloat r => negb (String.eqb r "0.0" || String.eqb r "-0.0")
  | VStr s => negb (is_empty s)
  | VList l => match l with [] => false | _ => true end
  | VDict d => match d with [] => false | _ => true end
  end.

Definition type_name (v : value) : string :=
  match v with
  | VNone => "NoneType"
  | VBool _ => "bool"
  | VInt _ => "int"
  | VFloat _ => "float"
  | VStr _ => "str"
  | VList _ => "list"
  | VDict _ => "dict"
  end.

(** ** Exceptions *)

(** The exception classes the two modules can meet.  [RequestException]
    stands for the transport failures of [requests] (connection, timeout,
    invalid URL, ...); [HTTPError] is raised by [raise_for_status] and
    carries the status of its response;
    [JSONDecodeError] is [requests.exceptions.JSONDecodeError], raised by
    [response.json()] (a [RequestException] since requests 2.27);
    [UnicodeEncodeError] is raised by [print] and carries its message;
    [OtherError] is any exception of another class. *)
Inductive exn : Type :=
| RequestException (msg : string)
| HTTPError (status_code : Z) (msg : string)
| JSONDecodeError (msg : string)
| KeyError (key : value)
| TypeError (msg : string)
| AttributeError (msg : string)
| NameError (msg : string)
| UnicodeEncodeError (msg : string)
| OtherError (cls msg : string).

(** [isinstance(e, requests.exceptions.RequestException)]. *)
Definition is_request_exception (e : exn) : bool :=
  match e with
  | RequestException _ | HTTPError _ _ | JSONDecodeError _ => true
  | _ => false
  end.

Inductive result (A : Type) : Type :=
| Ok (a : A)
| Raise (e : exn).
Arguments Ok {A} a.
Arguments Raise {A} e.

(** [v.get(k, default)]: only a [dict] has the method. *)
Definition py_get (v : value) (k : string) (default : value) : result value :=
  match v with
  | VDict d => Ok (match lookup k d with Some x => x | None => default end)
  | _ => Raise (AttributeError
                  (squote ++ type_name v ++ squote ++ " object has no attribute 'get'"))
  end.

(** The items a [for] loop draws from [v]. *)
Definition py_iter (v : value) : result (list value) :=
  match v with
  | VList l => Ok l
  | VDict d => Ok (map (fun kv => VStr (fst kv)) d)
  | VStr s => Ok (map VStr (utf8_chars s))
  | _ => Raise (TypeError (squote ++ type_name v ++ squote ++ " object is not iterable"))
  end.

(** [v > 0]. *)
Definition py_gt_zero (v : value) : result bool :=
  match v with
  | VBool b => Ok b
  | VInt z => Ok (0 <? z)
  | VFloat r =>
      Ok (negb (String.eqb r "0.0" || String.eqb r "nan"
                || match r with String "-"%char _ => true | _ => false end))
  | _ => Raise (TypeError ("'>' not supported between instances of " ++ squote
                             ++ type_name v ++ squote ++ " and 'int'"))
  end.

(** [v[0]] on a value already known to be truthy. *)
Definition py_first (v : value) : result value :=
  match v with
  | VList (x :: _) => Ok x
  | VList [] => Raise (OtherError "IndexError" "list index out of range")
  | VStr s => match utf8_chars s with
              | c :: _ => Ok (VStr c)
              | [] => Raise (OtherError "IndexError" "string index out of range")
              end
  | VDict _ => Raise (KeyError (VInt 0))
  | _ => Raise (TypeError (squote ++ type_name v ++ squote ++ " object is not subscriptable"))
  end.

(** [d[k]] on a value that has the method [get]. *)
Definition py_item (v : value) (k : string) : result value :=
  match v with
  | VDict d => match lookup k d with
               | Some x => Ok x
               | None => Raise (KeyError (VStr k))
               end
  | _ => Raise (TypeError (squote ++ type_name v ++ squote ++ " object is not subscriptable"))
  end.

(** [s[:10]] and [s[-4:]] on the value of an environment variable. *)
Definition py_slice_to (n : nat) (v : value) : result string :=
  match v with
  | VStr s => Ok (slice_to n s)
  | _ => Raise (TypeError (squote ++ type_name v ++ squote ++ " object is not subscriptable"))
  end.

Definition py_slice_last (n : nat) (v : value) : result string :=
  match v with
  | VStr s => Ok (slice_last n s)
  | _ => Raise (TypeError (squote ++ type_name v ++ squote ++ " object is not subscriptable"))
  end.

(** ** The outside world and the events of a run *)

Record request : Type := {
  req_url : string;
  req_headers : dict;
  req_params : dict
}.

(** What [response.json()] finds in the body. *)
Inductive payload : Type :=
| Json (v : value)
| NotJson (msg : string).

(** The parts of a [requests.Response] the program reads.  [link] is the
    value of the [Link] header, when the response has one. *)
Record response : Type := {
  status_code : Z;
  reason : string;
  url : string;
  link : option string;
  body : payload
}.

(** The world the program runs in: the HTTP server behind [requests.get]
    (it answers or the call raises), the wall clock behind
    [datetime.now().isoformat()], the passing of time in [time.sleep], the
    process environment behind [os.getenv], the encoding of [sys.stdout]
    ([stdout_error text] is the message of the [UnicodeEncodeError] that
    writing [text] raises, [None] when the text can be encoded), and the
    Unicode database of the interpreter ([isprintable n] is
    [chr(n).isprintable()], asked for characters outside ASCII). *)
Class World (W : Type) : Type := {
  send : request -> W -> (exn + response) * W;
  clock : W -> string * W;
  sleep_for : Z -> W -> W;
  environ : W -> string -> option string;
  stdout_error : string -> option string;
  isprintable : N -> bool
}.

Inductive event : Type :=
| EvGet (req : request)
| EvYield (row : dict)
| EvSleep (ms : Z)
| EvPrint (line : string).

(** ** The text of values *)

Section Text.
Context {W : Type} {HW : World W}.

(** [repr] of a [str]: single quotes unless the text has a single quote and
    no double quote; backslash, the chosen quote, control characters and the
    characters that are not printable are escaped. *)
Definition repr_char (quote : ascii) (ch : string) : string :=
  let n := code_point ch in
  if (n =? N_of_ascii quote)%N || (n =? 92)%N then String "\"%char ch
  else if (n =? 9)%N then "\t"
  else if (n =? 10)%N then "\n"
  else if (n =? 13)%N then "\r"
  else if (n <? 32)%N || (n =? 127)%N then escape_code_point n
  else if (n <? 127)%N then ch
  else if isprintable n then ch
  else escape_code_point n.

Definition repr_str (s : string) : string :=
  let quote := if py_in squote s && negb (py_in dquote s) then "034"%char else "039"%char in
  String quote (concat EmptyString (map (repr_char quote) (utf8_chars s)))
    ++ String quote EmptyString.

Fixpoint py_repr (v : value) : string :=
  match v with
  | VNone => "None"
  | VBool true => "True"
  | VBool false => "False"
  | VInt z => decimal z
  | VFloat r => r
  | VStr s => repr_str s
  | VList l => "[" ++ join ", " (map py_repr l) ++ "]"
  | VDict d =>
      "{" ++ join ", " (map (fun kv : string * value => let (k, x) := kv in repr_str k ++ ": " ++ py_repr x) d)
          ++ "}"
  end.

(** [str(v)]: a string is itself, everything else prints as its [repr]. *)
Definition py_str (v : value) : string :=
  match v with
  | VStr s => s
  | _ => py_repr v
  end.

(** [str(e)], as interpolated by the f-strings of the handlers. *)
Definition exn_str (e : exn) : string :=
  match e with
  | RequestException m | HTTPError _ m | JSONDecodeError m
  | TypeError m | AttributeError m | NameError m | UnicodeEncodeError m
  | OtherError _ m => m
  | KeyError k => py_repr k
  end.

End Text.

(** ** The monad of programs: world, trace of events, exceptions *)

Definition prog (W A : Type) : Type := W -> list event * W * result A.

Definition ret {W A} (a : A) : prog W A := fun w => ([], w, Ok a).

Definition bind {W A B} (m : prog W A) (f : A -> prog W B) : prog W B :=
  fun w =>
    let '(t, w1, r) := m w in
    match r with
    | Ok a => let '(t', w2, r') := f a w1 in ((t ++ t')%list, w2, r')
    | Raise e => (t, w1, Raise e)
    end.

Definition raise {W A} (e : exn) : prog W A := fun w => ([], w, Raise e).

Definition lift {W A} (r : result A) : prog W A := fun w => ([], w, r).

Definition emit {W} (ev : event) : prog W unit := fun w => ([ev], w, Ok tt).

(** [try: body  except ... as e: handler e]; a handler re-raises what its
    [except] clauses do not name. *)
Definition try_except {W A} (body : prog W A) (handler : exn -> prog W A) : prog W A :=
  fun w =>
    let '(t, w1, r) := body w in
    match r with
    | Ok a => (t, w1, Ok a)
    | Raise e => let '(t', w2, r') := handler e w1 in ((t ++ t')%list, w2, r')
    end.

Declare Scope prog_scope.
Delimit Scope prog_scope with prog.
Notation "x <- m ;; k" := (bind m (fun x => k))
  (at level 100, m at next level, right associativity) : prog_scope.
Notation "m ;; k" := (bind m (fun _ => k))
  (at level 100, right associativity) : prog_scope.
Open Scope prog_scope.

Fixpoint for_each {W A} (items : list A) (body : A -> prog W unit) : prog W unit :=
  match items with
  | [] => ret tt
  | x :: rest => body x ;; for_each rest body
  end.

Definition trace_of {W A} (out : list event * W * result A) : list event := fst (fst out).
Definition world_of {W A} (out : list event * W * result A) : W := snd (fst out).
Definition result_of {W A} (out : list event * W * result A) : result A := snd out.
Arguments trace_of {W A} out /.
Arguments world_of {W A} out /.
Arguments result_of {W A} out /.

(** Projections of a trace. *)
Definition yields (t : list event) : list dict :=
  flat_map (fun ev => match ev with EvYield row => [row] | _ => [] end) t.
Definition gets (t : list event) : list request :=
  flat_map (fun ev => match ev with EvGet req => [req] | _ => [] end) t.
Definition prints (t : list event) : list string :=
  flat_map (fun ev => match ev with EvPrint line => [line] | _ => [] end) t.

(** ** Library calls *)

Definition requests_get {W} `{World W} (u : string) (headers params : dict)
  : prog W response :=
  fun w =>
    let req := {| req_url := u; req_headers := headers; req_params := params |} in
    let (answer, w') := send req w in
    ([EvGet req], w', match answer with inl e => Raise e | inr r => Ok r end).

(** [response.raise_for_status()]. *)
Definition raise_for_status (r : response) : result unit :=
  if (400 <=? status_code r) && (status_code r <? 500) then
    Raise (HTTPError (status_code r)
             (decimal (status_code r) ++ " Client Error: " ++ reason r
                ++ " for url: " ++ url r))
  else if (500 <=? status_code r) && (status_code r <? 600) then
    Raise (HTTPError (status_code r)
             (decimal (status_code r) ++ " Server Error: " ++ reason r
                ++ " for url: " ++ url r))
  else Ok tt.

(** [response.json()]. *)
Definition response_json (r : response) : result value :=
  match body r with
  | Json v => Ok v
  | NotJson msg => Raise (JSONDecodeError msg)
  end.

(** [response.headers.get('Link', '')]. *)
Definition link_header_of (r : response) : string :=
  match link r with Some h => h | None => EmptyString end.

Definition datetime_now_isoformat {W} `{World W} : prog W string :=
  fun w => let (t, w') := clock w in ([], w', Ok t).

(** [time.sleep], the duration in milliseconds. *)
Definition time_sleep {W} `{World W} (ms : Z) : prog W unit :=
  fun w => ([EvSleep ms], sleep_for ms w, Ok tt).

Definition os_getenv {W} `{World W} (name : string) : prog W value :=
  fun w => ([], w, Ok (of_option (environ w name))).

(** [print(line)]: the text is encoded when it is written, and a text that
    [sys.stdout] cannot encode raises before anything of it is printed. *)
Definition print {W} `{World W} (line : string) : prog W unit :=
  match stdout_error line with
  | None => emit (EvPrint line)
  | Some msg => raise (UnicodeEncodeError msg)
  end.

Definition yield {W} (row : dict) : prog W unit := emit (EvYield row).

(** ** Flattening (shopify_simple_pipeline.py, the three dict displays) *)

(** One [key: expression] item of a dict display, the expression read as a
    function of the record being flattened. *)
Definition item (W : Type) : Type := string * (value -> prog W value).

(** [{k1: e1, ..., kn: en}] with distinct literal keys: the expressions are
    evaluated left to right and the first exception aborts the display. *)
Fixpoint dict_display {W} (items : list (item W)) (record : value) : prog W dict :=
  match items with
  | [] => ret []
  | (k, e) :: rest =>
      v <- e record ;;
      d <- dict_display rest record ;;
      ret ((k, v) :: d)
  end.

(** [record.get(k)]. *)
Definition field {W} (k : string) : value -> prog W value :=
  fun record => lift (py_get record k VNone).

(** [record.get(p, {}).get(k) if record.get(p) else None]. *)
Definition nested {W} (p k : string) : value -> prog W value :=
  fun record =>
    test <- lift (py_get record p VNone) ;;
    if truthy test then
      parent <- lift (py_get record p (VDict [])) ;;
      lift (py_get parent k VNone)
    else ret VNone.

(** [str(record.get(k, default))]. *)
Definition text {W} `{World W} (k : string) (default : value) : value -> prog W value :=
  fun record =>
    v <- lift (py_get record k default) ;;
    ret (VStr (py_str v)).

(** [datetime.now().isoformat()]. *)
Definition now_stamp {W} `{World W} : value -> prog W value :=
  fun _ => t <- datetime_now_isoformat ;; ret (VStr t).

Section Flatten.
Context {W : Type} {HW : World W}.

(** Lines 69-108. *)
Definition order_flat_items : list (item W) :=
  [ ("id", field "id");
    ("order_number", field "order_number");
    ("name", field "name");
    ("email", field "email");
    ("phone", field "phone");
    ("created_at", field "created_at");
    ("updated_at", field "updated_at");
    ("processed_at", field "processed_at");
    ("cancelled_at", field "cancelled_at");
    ("cancel_reason", field "cancel_reason");
    ("currency", field "currency");
    ("financial_status", field "financial_status");
    ("fulfillment_status", field "fulfillment_status");
    ("total_price", field "total_price");
    ("subtotal_price", field "subtotal_price");
    ("total_tax", field "total_tax");
    ("total_discounts", field "total_discounts");
    ("total_weight", field "total_weight");
    ("total_tip_received", field "total_tip_received");
    ("customer_id", nested "customer" "id");
    ("customer_email", nested "customer" "email");
    ("billing_address_name", nested "billing_address" "name");
    ("billing_address_company", nested "billing_address" "company");
    ("billing_address_address1", nested "billing_address" "address1");
    ("billing_address_city", nested "billing_address" "city");
    ("billing_address_province", nested "billing_address" "province");
    ("billing_address_country", nested "billing_address" "country");
    ("billing_address_zip", nested "billing_address" "zip");
    ("shipping_address_name", nested "shipping_address" "name");
    ("shipping_address_company", nested "shipping_address" "company");
    ("shipping_address_address1", nested "shipping_address" "address1");
    ("shipping_address_city", nested "shipping_address" "city");
    ("shipping_address_province", nested "shipping_address" "province");
    ("shipping_address_country", nested "shipping_address" "country");
    ("shipping_address_zip", nested "shipping_address" "zip");
    ("note", field "note");
    ("tags", field "tags");
    ("extracted_at", now_stamp) ].

Definition order_flat : value -> prog W dict := dict_display order_flat_items.

(** Lines 179-195. *)
Definition product_flat_items : list (item W) :=
  [ ("id", field "id");
    ("title", field "title");
    ("body_html", field "body_html");
    ("vendor", field "vendor");
    ("product_type", field "product_type");
    ("created_at", field "created_at");
    ("updated_at", field "updated_at");
    ("published_at", field "published_at");
    ("template_suffix", field "template_suffix");
    ("status", field "status");
    ("published_scope", field "published_scope");
    ("tags", field "tags");
    ("admin_graphql_api_id", field "admin_graphql_api_id");
    ("handle", field "handle");
    ("extracted_at", now_stamp) ].

Definition product_flat : value -> prog W dict := dict_display product_flat_items.

(** Lines 265-292. *)
Definition customer_flat_items : list (item W) :=
  [ ("id", field "id");
    ("email", field "email");
    ("accepts_marketing", field "accepts_marketing");
    ("created_at", field "created_at");
    ("updated_at", field "updated_at");
    ("first_name", field "first_name");
    ("last_name", field "last_name");
    ("orders_count", field "orders_count");
    ("state", field "state");
    ("total_spent", field "total_spent");
    ("last_order_id", field "last_order_id");
    ("note", field "note");
    ("verified_email", field "verified_email");
    ("multipass_identifier", field "multipass_identifier");
    ("tax_exempt", field "tax_exempt");
    ("tags", field "tags");
    ("last_order_name", field "last_order_name");
    ("currency", field "currency");
    ("phone", field "phone");
    ("addresses", text "addresses" (VList []));
    ("accepts_marketing_updated_at", field "accepts_marketing_updated_at");
    ("marketing_opt_in_level", field "marketing_opt_in_level");
    ("tax_exemptions", text "tax_exemptions" (VList []));
    ("admin_graphql_api_id", field "admin_graphql_api_id");
    ("default_address", text "default_address" (VDict []));
    ("extracted_at", now_stamp) ].

Definition customer_flat : value -> prog W dict := dict_display customer_flat_items.

End Flatten.

(** ** Pagination (shopify_simple_pipeline.py, the three [while True] loops) *)

(** The literal ['rel="next"']. *)
Definition rel_next : string := "rel=" ++ dquote ++ "next" ++ dquote.

(** How one turn of the loop ends: [break], or on to the next turn with
    [page_info] set. *)
Inductive step : Type :=
| Break
| Again (page_info : string).

(** A run of the generator to exhaustion, or one cut by the bound on the
    number of loop turns. *)
Inductive completion : Type :=
| Finished
| OutOfFuel.

Section Resource.
Context {W : Type} {HW : World W}.
(** What differs between the three generators: the resource name (in the
    endpoint, in the key of the body and in the message) and the display. *)
Variable resource : string.
Variable flat : value -> prog W dict.
Variable base_url : string.
Variable headers : dict.

(** The [for] loop over the records of a page: flatten, then [yield]. *)
Definition yield_rows (rows : list value) : prog W unit :=
  for_each rows (fun record => row <- flat record ;; yield row).

(** The body of the [try] (lines 54-125, 164-211, 250-308). *)
Definition fetch_page (params : dict) : prog W step :=
  response <- requests_get (base_url ++ "/" ++ resource ++ ".json") headers params ;;
  lift (raise_for_status response) ;;
  data <- lift (response_json response) ;;
  records <- lift (py_get data resource (VList [])) ;;
  if negb (truthy records) then ret Break
  else
    rows <- lift (py_iter records) ;;
    yield_rows rows ;;
    let link_header := link_header_of response in
    if py_in rel_next link_header then
      match re_search_page_info link_header with
      | Some next_match => time_sleep 500 ;; ret (Again next_match)
      | None => ret Break
      end
    else ret Break.

(** [except requests.exceptions.RequestException as e: print(...); break]. *)
Definition on_request_exception (e : exn) : prog W step :=
  if is_request_exception e then
    print ("Error fetching " ++ resource ++ ": " ++ exn_str e) ;; ret Break
  else raise e.

(** [while True], at most [fuel] turns. *)
Fixpoint paginate (fuel : nat) (params : dict) (page_info : value) : prog W completion :=
  match fuel with
  | O => ret OutOfFuel
  | S fuel' =>
      let params :=
        if truthy page_info then dict_set "page_info" page_info params else params in
      next <- try_except (fetch_page params) on_request_exception ;;
      match next with
      | Break => ret Finished
      | Again cursor => paginate fuel' params (VStr cursor)
      end
  end.

End Resource.

Section Source.
Context {W : Type} {HW : World W}.

Definition shop_headers (api_token : value) : dict :=
  [ ("X-Shopify-Access-Token", api_token);
    ("Content-Type", VStr "application/json") ].

Definition shop_base_url (store_id : value) : string :=
  "https://" ++ (py_str store_id ++ ".myshopify.com") ++ "/admin/api/2024-01".

(** [orders(limit=250, status="any")], drained with at most [fuel] pages. *)
Definition orders (limit : Z) (status : string) (fuel : nat) : prog W completion :=
  api_token <- os_getenv "API_TOKEN" ;;
  store_id <- os_getenv "STORE_ID" ;;
  let params := [("limit", VInt limit); ("status", VStr status)] in
  paginate "orders" order_flat (shop_base_url store_id) (shop_headers api_token)
    fuel params VNone.

(** [products(limit=250)]. *)
Definition products (limit : Z) (fuel : nat) : prog W completion :=
  api_token <- os_getenv "API_TOKEN" ;;
  store_id <- os_getenv "STORE_ID" ;;
  let params := [("limit", VInt limit)] in
  paginate "products" product_flat (shop_base_url store_id) (shop_headers api_token)
    fuel params VNone.

(** [customers(limit=250)]. *)
Definition customers (limit : Z) (fuel : nat) : prog W completion :=
  api_token <- os_getenv "API_TOKEN" ;;
  store_id <- os_getenv "STORE_ID" ;;
  let params := [("limit", VInt limit)] in
  paginate "customers" customer_flat (shop_base_url store_id) (shop_headers api_token)
    fuel params VNone.

Definition shopify_source :=
  (orders, products, customers).

(** The three resource kinds, to state what the generators share. *)
Inductive kind : Type := Orders | Products | Customers.

Definition kind_name (k : kind) : string :=
  match k with
  | Orders => "orders"
  | Products => "products"
  | Customers => "customers"
  end.

Definition flat_items (k : kind) : list (item W) :=
  match k with
  | Orders => order_flat_items
  | Products => product_flat_items
  | Customers => customer_flat_items
  end.

Definition flatten (k : kind) : value -> prog W dict := dict_display (flat_items k).

(** The generator of a kind with the defaults [__main__] passes. *)
Definition extract (k : kind) (fuel : nat) : prog W completion :=
  match k with
  | Orders => orders 250 "any" fuel
  | Products => products 250 fuel
  | Customers => customers 250 fuel
  end.

(** Draining generators one after the other, each to exhaustion: a
    generator that finishes leaves the next to run, one that raises ends the
    whole run. *)
Fixpoint drain (kinds : list kind) (fuel : nat) : prog W unit :=
  match kinds with
  | [] => ret tt
  | k :: later => extract k fuel ;; drain later fuel
  end.

(** The order in which [__main__] drains the generators (lines 330-349),
    the loader and the progress lines left out. *)
Definition extract_all (fuel : nat) : prog W unit :=
  drain [Orders; Products; Customers] fuel.

End Source.

(** ** The connectivity probe (test_shopify_connection.py) *)

(** The names the module binds at top level: its three imports and the
    function itself.  The module has no [import os]. *)
Definition probe_globals : list string :=
  ["dlt"; "requests"; "datetime"; "test_shopify_connection"].

(** Evaluating a global name. *)
Definition global_name {W} (globals : list string) (name : string) : prog W unit :=
  if existsb (String.eqb name) globals then ret tt
  else raise (NameError ("name " ++ squote ++ name ++ squote ++ " is not defined")).

Section Probe.
Context {W : Type} {HW : World W}.

(** [requests.get(url, headers=headers)] followed by [raise_for_status()]. *)
Definition checked_get (u : string) (headers : dict) : prog W response :=
  response <- requests_get u headers [] ;;
  lift (raise_for_status response) ;;
  ret response.

(** Test 5, the body of [if orders_data.get('orders'):] (lines 76-79). *)
Definition sample_order (orders_data : value) : prog W unit :=
  listed <- lift (py_item orders_data "orders") ;;
  order <- lift (py_first listed) ;;
  id <- lift (py_get order "id" VNone) ;;
  print (check_mark ++ " Sample order ID: " ++ py_str id) ;;
  number <- lift (py_get order "order_number" VNone) ;;
  print (check_mark ++ " Sample order number: " ++ py_str number) ;;
  total <- lift (py_get order "total_price" VNone) ;;
  print (check_mark ++ " Sample order total: " ++ py_str total).

(** The body of the [try] (lines 19-84), in a module whose top level binds
    the names [globals]. *)
Definition connection_checks (globals : list string) : prog W bool :=
  global_name globals "os" ;;
  api_token <- os_getenv "API_TOKEN" ;;
  global_name globals "os" ;;
  store_id <- os_getenv "STORE_ID" ;;
  let shop_url := py_str store_id ++ ".myshopify.com" in
  print ("Testing connection to: " ++ shop_url) ;;
  first10 <- lift (py_slice_to 10 api_token) ;;
  last4 <- lift (py_slice_last 4 api_token) ;;
  print ("API Token: " ++ first10 ++ "..." ++ last4 ++ " (truncated for security)") ;;
  let headers := shop_headers api_token in
  let base_url := "https://" ++ shop_url ++ "/admin/api/2024-01" in
  print (newline ++ "1. Testing shop information...") ;;
  response <- checked_get (base_url ++ "/shop.json") headers ;;
  shop_data <- lift (response_json response) ;;
  shop <- lift (py_get shop_data "shop" (VDict [])) ;;
  name <- lift (py_get shop "name" (VStr "N/A")) ;;
  print (check_mark ++ " Shop name: " ++ py_str name) ;;
  domain <- lift (py_get shop "domain" (VStr "N/A")) ;;
  print (check_mark ++ " Shop domain: " ++ py_str domain) ;;
  email <- lift (py_get shop "email" (VStr "N/A")) ;;
  print (check_mark ++ " Shop email: " ++ py_str email) ;;
  print (newline ++ "2. Testing orders access...") ;;
  response <- checked_get (base_url ++ "/orders/count.json") headers ;;
  counted <- lift (response_json response) ;;
  orders_count <- lift (py_get counted "count" (VInt 0)) ;;
  print (check_mark ++ " Total orders: " ++ py_str orders_count) ;;
  print (newline ++ "3. Testing products access...") ;;
  response <- checked_get (base_url ++ "/products/count.json") headers ;;
  counted <- lift (response_json response) ;;
  products_count <- lift (py_get counted "count" (VInt 0)) ;;
  print (check_mark ++ " Total products: " ++ py_str products_count) ;;
  print (newline ++ "4. Testing customers access...") ;;
  response <- checked_get (base_url ++ "/customers/count.json") headers ;;
  counted <- lift (response_json response) ;;
  customers_count <- lift (py_get counted "count" (VInt 0)) ;;
  print (check_mark ++ " Total customers: " ++ py_str customers_count) ;;
  some_orders <- lift (py_gt_zero orders_count) ;;
  (if some_orders then
     print (newline ++ "5. Testing sample order retrieval...") ;;
     response <- checked_get (base_url ++ "/orders.json?limit=1") headers ;;
     orders_data <- lift (response_json response) ;;
     listed <- lift (py_get orders_data "orders" VNone) ;;
     if truthy listed then sample_order orders_data else ret tt
   else ret tt) ;;
  print (newline ++ check_mark
           ++ " All tests passed! Your Shopify API connection is working correctly.") ;;
  print (check_mark
           ++ " You can now run the full pipeline with: python shopify_pipeline_pipeline.py") ;;
  ret true.

(** The four [except] clauses (lines 86-112), tried in order. *)
Definition on_probe_exception (e : exn) : prog W bool :=
  match e with
  | KeyError _ =>
      print (cross_mark ++ " Configuration error: " ++ exn_str e) ;;
      print ("Please check your .dlt/secrets.toml file and ensure all required "
               ++ "credentials are set.") ;;
      ret false
  | HTTPError status _ =>
      (if status =? 401 then
         print (cross_mark
                  ++ " Authentication error (401): Invalid API token or insufficient permissions") ;;
         print "Please check your API token and ensure it has the required scopes:" ;;
         print "- read_orders" ;;
         print "- read_products" ;;
         print "- read_customers"
       else if status =? 404 then
         print (cross_mark ++ " Not found error (404): Invalid shop URL") ;;
         print "Please check your shop URL in .dlt/secrets.toml"
       else
         print (cross_mark ++ " HTTP error: " ++ exn_str e)) ;;
      ret false
  | RequestException _ | JSONDecodeError _ =>
      print (cross_mark ++ " Network error: " ++ exn_str e) ;;
      print "Please check your internet connection and try again." ;;
      ret false
  | _ =>
      print (cross_mark ++ " Unexpected error: " ++ exn_str e) ;;
      ret false
  end.

Definition test_shopify_connection_in (globals : list string) : prog W bool :=
  try_except (connection_checks globals) on_probe_exception.

(** The function as the module defines it. *)
Definition test_shopify_connection : prog W bool :=
  test_shopify_connection_in probe_globals.

End Probe.

(** The classes of failure the probe tells apart, by the first line of its
    report. *)
Inductive failure_class : Type :=
| ConfigurationError
| AuthenticationError
| NotFoundError
| OtherHTTPError
| NetworkError
| UnexpectedError.

Definition report_heading (c : failure_class) : string :=
  match c with
  | ConfigurationError => " Configuration error: "
  | AuthenticationError => " Authentication error (401): "
  | NotFoundError => " Not found error (404): "
  | OtherHTTPError => " HTTP error: "
  | NetworkError => " Network error: "
  | UnexpectedError => " Unexpected error: "
  end.

(** The class a printed report announces: the heading of the first printed
    line that opens with the ballot x. *)
Definition has_prefix (p s : string) : bool :=
  match drop_prefix p s with Some _ => true | None => false end.

Definition reported_class (lines : list string) : option failure_class :=
  match find (has_prefix cross_mark) lines with
  | None => None
  | Some line =>
      find (fun c => has_prefix (cross_mark ++ report_heading c) line)
        [ ConfigurationError; AuthenticationError; NotFoundError;
          OtherHTTPError; NetworkError; UnexpectedError ]
  end.

(** ** The load stage *)

Fixpoint value_eq_dec (a b : value) {struct a} : {a = b} + {a <> b}.
Proof.
  decide equality.
  - apply bool_dec.
  - apply Z.eq_dec.
  - apply string_dec.
  - apply string_dec.
  - apply (list_eq_dec value_eq_dec).
  - apply list_eq_dec. decide equality. apply string_dec.
Defined.

(** The primary key of a row, [primary_key="id"] (lines 19-22, 131-134,
    217-220). *)
Definition row_id (row : dict) : option value := lookup "id" row.

Definition same_id (a b : dict) : bool :=
  match row_id a, row_id b with
  | Some x, Some y => if value_eq_dec x y then true else false
  | None, None => true
  | _, _ => false
  end.

(** Modelled from the spec: the external load stage, which is the [dlt]
    runtime and not part of the repository.  The spec's glossary gives its
    write discipline, selected by [write_disposition="merge"]: it inserts
    new rows and updates existing rows matched by primary key, rather than
    appending duplicates.  A table is the list of its rows. *)
Fixpoint upsert (row : dict) (table : list dict) : list dict :=
  match table with
  | [] => [row]
  | old :: rest =>
      if same_id old row then row :: rest else old :: upsert row rest
  end.

(** Modelled from the spec: one load of the rows a generator yielded, in
    the order it yielded them. *)
Definition merge_load (rows : list dict) (table : list dict) : list dict :=
  fold_left (fun t row => upsert row t) rows table.

(** ** Paginated servers *)

(** A page of a paginated listing: its records and its [Link] header. *)
Record page : Type := {
  page_records : list value;
  page_link : option string
}.

Definition page_link_text (p : page) : string :=
  match page_link p with Some h => h | None => EmptyString end.

Definition page_response (resource u : string) (p : page) : response :=
  {| status_code := 200;
     reason := "OK";
     url := u;
     link := page_link p;
     body := Json (VDict [(resource, VList (page_records p))]) |}.

Definition error_response (status : Z) (why u : string) : response :=
  {| status_code := status;
     reason := why;
     url := u;
     link := None;
     body := Json (VDict [("errors", VStr why)]) |}.

(** The cursor a request carries, if any. *)
Definition cursor_of (req : request) : option value := lookup "page_info" (req_params req).

(** The spec's reading of the [Link] header: the links are separated by
    commas, the next link is the one whose parameters hold the relation
    [next], and the cursor is the [page_info] parameter of that link. *)
Fixpoint split_links_from (current : string) (s : string) : list string :=
  match s with
  | EmptyString => [current]
  | String c s' =>
      if Ascii.eqb c ","%char then current :: split_links_from EmptyString s'
      else split_links_from (current ++ String c EmptyString) s'
  end.

Definition split_links (header : string) : list string :=
  split_links_from EmptyString header.

Definition next_link_page_info (header : string) : option string :=
  match find (py_in rel_next) (split_links header) with
  | Some next_link => re_search_page_info next_link
  | None => None
  end.

(** A header that lists its next link first: up to the first comma it reads
    [<target>params], with a [page_info] parameter in the target and the
    relation [next] in the parameters; other links may follow. *)
Definition next_link_first (header : string) : Prop :=
  exists target params others,
    header = "<" ++ target ++ ">" ++ params ++ others /\
    py_in "," (target ++ params) = false /\
    (others = EmptyString \/ exists more, others = "," ++ more) /\
    py_in rel_next params = true /\
    re_search_page_info target <> None.

Section Served.
Context {W : Type} {HW : World W}.

(** In every state of the world, a request to [u] carrying [cursor] is
    answered with a successful response that holds page [p] of [resource]. *)
Definition delivers (resource u : string) (cursor : option string) (p : page) : Prop :=
  forall req w,
    req_url req = u ->
    cursor_of req = option_map VStr cursor ->
    exists r,
      fst (send req w) = inr r /\
      raise_for_status r = Ok tt /\
      (exists data, body r = Json data /\
                    py_get data resource (VList []) = Ok (VList (page_records p))) /\
      link r = page_link p.


(** [pages] are consecutive pages that each announce a successor: page [i]
    is served at the cursor the loop holds when it asks for it, is not
    empty, and its header has the next relation and a cursor the pattern
    finds; [last] is the cursor found on the final page of [pages]. *)
Fixpoint linked (resource u : string) (cursor : option string) (pages : list page)
    (last : option string) : Prop :=
  match pages with
  | [] => last = cursor
  | p :: rest =>
      delivers resource u cursor p /\
      page_records p <> [] /\
      py_in rel_next (page_link_text p) = true /\
      exists next,
        re_search_page_info (page_link_text p) = Some next /\
        linked resource u (Some next) rest last
  end.

(** The hypothesis of the pagination property, in the spec's words: [N]
    pages (the list [pages ++ [final]]), the first served without cursor and
    each later one at the [page_info] of the next link of the page before
    it; the header has a next link with a parseable [page_info] on pages
    [1..N-1] and no next relation on page [N]. *)
Fixpoint paginated (resource u : string) (cursor : option string) (pages : list page)
    (final : page) : Prop :=
  match pages with
  | [] =>
      delivers resource u cursor final /\
      py_in rel_next (page_link_text final) = false
  | p :: rest =>
      delivers resource u cursor p /\
      exists next,
        next_link_page_info (page_link_text p) = Some next /\
        paginated resource u (Some next) rest final
  end.

(** The URL a generator of [resource] asks, in a world state. *)
Definition endpoint (resource : string) (w : W) : string :=
  shop_base_url (of_option (environ w "STORE_ID")) ++ "/" ++ resource ++ ".json".

End Served.

(** A pause of at least 0.5 s (500 ms) lies between any two consecutive
    requests of a trace; [slept] tells whether one was seen since the last
    request. *)
Fixpoint paced_from (slept : bool) (t : list event) : bool :=
  match t with
  | [] => true
  | EvGet _ :: t' => slept && paced_from false t'
  | EvSleep ms :: t' => paced_from (slept || (500 <=? ms)) t'
  | _ :: t' => paced_from slept t'
  end.

Definition paced (t : list event) : bool := paced_from true t.

(** A record every display of its kind evaluates without exception: a JSON
    object whose nested parents, for an order, are objects or falsy. *)
Definition parent_ok (d : dict) (p : string) : bool :=
  match lookup p d with
  | Some (VDict _) | None => true
  | Some v => negb (truthy v)
  end.

Definition record_ok (k : kind) (record : value) : bool :=
  match record with
  | VDict d =>
      match k with
      | Orders => parent_ok d "customer" && parent_ok d "billing_address"
                  && parent_ok d "shipping_address"
      | _ => true
      end
  | _ => false
  end.

(** ** A scripted world, to run the programs on concrete inputs *)

(** The text of the [n]-th reading of the scripted clock. *)
Definition fake_stamp (n : nat) : string :=
  "2024-01-01T00:00:00." ++ decimal (100000 + Z.of_nat n).

(** The ranges of the characters above ASCII for which [str.isprintable] is
    false (the categories Cc, Cf, Cs, Co, Cn, Zl, Zp and Zs), in the Unicode
    database 14.0.0, that of CPython 3.11. *)
Definition not_printable : list (N * N) :=
  [
    (128, 160); (173, 173); (888, 889); (896, 899); (907, 907); (909, 909); (930, 930);
    (1328, 1328); (1367, 1368); (1419, 1420); (1424, 1424); (1480, 1487); (1515, 1518);
    (1525, 1541); (1564, 1564); (1757, 1757); (1806, 1807); (1867, 1868); (1970, 1983);
    (2043, 2044); (2094, 2095); (2111, 2111); (2140, 2141); (2143, 2143); (2155, 2159);
    (2191, 2199); (2274, 2274); (2436, 2436); (2445, 2446); (2449, 2450); (2473, 2473);
    (2481, 2481); (2483, 2485); (2490, 2491); (2501, 2502); (2505, 2506); (2511, 2518);
    (2520, 2523); (2526, 2526); (2532, 2533); (2559, 2560); (2564, 2564); (2571, 2574);
    (2577, 2578); (2601, 2601); (2609, 2609); (2612, 2612); (2615, 2615); (2618, 2619);
    (2621, 2621); (2627, 2630); (2633, 2634); (2638, 2640); (2642, 2648); (2653, 2653);
    (2655, 2661); (2679, 2688); (2692, 2692); (2702, 2702); (2706, 2706); (2729, 2729);
    (2737, 2737); (2740, 2740); (2746, 2747); (2758, 2758); (2762, 2762); (2766, 2767);
    (2769, 2783); (2788, 2789); (2802, 2808); (2816, 2816); (2820, 2820); (2829, 2830);
    (2833, 2834); (2857, 2857); (2865, 2865); (2868, 2868); (2874, 2875); (2885, 2886);
    (2889, 2890); (2894, 2900); (2904, 2907); (2910, 2910); (2916, 2917); (2936, 2945);
    (2948, 2948); (2955, 2957); (2961, 2961); (2966, 2968); (2971, 2971); (2973, 2973);
    (2976, 2978); (2981, 2983); (2987, 2989); (3002, 3005); (3011, 3013); (3017, 3017);
    (3022, 3023); (3025, 3030); (3032, 3045); (3067, 3071); (3085, 3085); (3089, 3089);
    (3113, 3113); (3130, 3131); (3141, 3141); (3145, 3145); (3150, 3156); (3159, 3159);
    (3163, 3164); (3166, 3167); (3172, 3173); (3184, 3190); (3213, 3213); (3217, 3217);
    (3241, 3241); (3252, 3252); (3258, 3259); (3269, 3269); (3273, 3273); (3278, 3284);
    (3287, 3292); (3295, 3295); (3300, 3301); (3312, 3312); (3315, 3327); (3341, 3341);
    (3345, 3345); (3397, 3397); (3401, 3401); (3408, 3411); (3428, 3429); (3456, 3456);
    (3460, 3460); (3479, 3481); (3506, 3506); (3516, 3516); (3518, 3519); (3527, 3529);
    (3531, 3534); (3541, 3541); (3543, 3543); (3552, 3557); (3568, 3569); (3573, 3584);
    (3643, 3646); (3676, 3712); (3715, 3715); (3717, 3717); (3723, 3723); (3748, 3748);
    (3750, 3750); (3774, 3775); (3781, 3781); (3783, 3783); (3790, 3791); (3802, 3803);
    (3808, 3839); (3912, 3912); (3949, 3952); (3992, 3992); (4029, 4029); (4045, 4045);
    (4059, 4095); (4294, 4294); (4296, 4300); (4302, 4303); (4681, 4681); (4686, 4687);
    (4695, 4695); (4697, 4697); (4702, 4703); (4745, 4745); (4750, 4751); (4785, 4785);
    (4790, 4791); (4799, 4799); (4801, 4801); (4806, 4807); (4823, 4823); (4881, 4881);
    (4886, 4887); (4955, 4956); (4989, 4991); (5018, 5023); (5110, 5111); (5118, 5119);
    (5760, 5760); (5789, 5791); (5881, 5887); (5910, 5918); (5943, 5951); (5972, 5983);
    (5997, 5997); (6001, 6001); (6004, 6015); (6110, 6111); (6122, 6127); (6138, 6143);
    (6158, 6158); (6170, 6175); (6265, 6271); (6315, 6319); (6390, 6399); (6431, 6431);
    (6444, 6447); (6460, 6463); (6465, 6467); (6510, 6511); (6517, 6527); (6572, 6575);
    (6602, 6607); (6619, 6621); (6684, 6685); (6751, 6751); (6781, 6782); (6794, 6799);
    (6810, 6815); (6830, 6831); (6863, 6911); (6989, 6991); (7039, 7039); (7156, 7163);
    (7224, 7226); (7242, 7244); (7305, 7311); (7355, 7356); (7368, 7375); (7419, 7423);
    (7958, 7959); (7966, 7967); (8006, 8007); (8014, 8015); (8024, 8024); (8026, 8026);
    (8028, 8028); (8030, 8030); (8062, 8063); (8117, 8117); (8133, 8133); (8148, 8149);
    (8156, 8156); (8176, 8177); (8181, 8181); (8191, 8207); (8232, 8239); (8287, 8303);
    (8306, 8307); (8335, 8335); (8349, 8351); (8385, 8399); (8433, 8447); (8588, 8591);
    (9255, 9279); (9291, 9311); (11124, 11125); (11158, 11158); (11508, 11512); (11558, 11558);
    (11560, 11564); (11566, 11567); (11624, 11630); (11633, 11646); (11671, 11679);
    (11687, 11687); (11695, 11695); (11703, 11703); (11711, 11711); (11719, 11719);
    (11727, 11727); (11735, 11735); (11743, 11743); (11870, 11903); (11930, 11930);
    (12020, 12031); (12246, 12271); (12284, 12288); (12352, 12352); (12439, 12440);
    (12544, 12548); (12592, 12592); (12687, 12687); (12772, 12783); (12831, 12831);
    (42125, 42127); (42183, 42191); (42540, 42559); (42744, 42751); (42955, 42959);
    (42962, 42962); (42964, 42964); (42970, 42993); (43053, 43055); (43066, 43071);
    (43128, 43135); (43206, 43213); (43226, 43231); (43348, 43358); (43389, 43391);
    (43470, 43470); (43482, 43485); (43519, 43519); (43575, 43583); (43598, 43599);
    (43610, 43611); (43715, 43738); (43767, 43776); (43783, 43784); (43791, 43792);
    (43799, 43807); (43815, 43815); (43823, 43823); (43884, 43887); (44014, 44015);
    (44026, 44031); (55204, 55215); (55239, 55242); (55292, 63743); (64110, 64111);
    (64218, 64255); (64263, 64274); (64280, 64284); (64311, 64311); (64317, 64317);
    (64319, 64319); (64322, 64322); (64325, 64325); (64451, 64466); (64912, 64913);
    (64968, 64974); (64976, 65007); (65050, 65055); (65107, 65107); (65127, 65127);
    (65132, 65135); (65141, 65141); (65277, 65280); (65471, 65473); (65480, 65481);
    (65488, 65489); (65496, 65497); (65501, 65503); (65511, 65511); (65519, 65531);
    (65534, 65535); (65548, 65548); (65575, 65575); (65595, 65595); (65598, 65598);
    (65614, 65615); (65630, 65663); (65787, 65791); (65795, 65798); (65844, 65846);
    (65935, 65935); (65949, 65951); (65953, 65999); (66046, 66175); (66205, 66207);
    (66257, 66271); (66300, 66303); (66340, 66348); (66379, 66383); (66427, 66431);
    (66462, 66462); (66500, 66503); (66518, 66559); (66718, 66719); (66730, 66735);
    (66772, 66775); (66812, 66815); (66856, 66863); (66916, 66926); (66939, 66939);
    (66955, 66955); (66963, 66963); (66966, 66966); (66978, 66978); (66994, 66994);
    (67002, 67002); (67005, 67071); (67383, 67391); (67414, 67423); (67432, 67455);
    (67462, 67462); (67505, 67505); (67515, 67583); (67590, 67591); (67593, 67593);
    (67638, 67638); (67641, 67643); (67645, 67646); (67670, 67670); (67743, 67750);
    (67760, 67807); (67827, 67827); (67830, 67834); (67868, 67870); (67898, 67902);
    (67904, 67967); (68024, 68027); (68048, 68049); (68100, 68100); (68103, 68107);
    (68116, 68116); (68120, 68120); (68150, 68151); (68155, 68158); (68169, 68175);
    (68185, 68191); (68256, 68287); (68327, 68330); (68343, 68351); (68406, 68408);
    (68438, 68439); (68467, 68471); (68498, 68504); (68509, 68520); (68528, 68607);
    (68681, 68735); (68787, 68799); (68851, 68857); (68904, 68911); (68922, 69215);
    (69247, 69247); (69290, 69290); (69294, 69295); (69298, 69375); (69416, 69423);
    (69466, 69487); (69514, 69551); (69580, 69599); (69623, 69631); (69710, 69713);
    (69750, 69758); (69821, 69821); (69827, 69839); (69865, 69871); (69882, 69887);
    (69941, 69941); (69960, 69967); (70007, 70015); (70112, 70112); (70133, 70143);
    (70162, 70162); (70207, 70271); (70279, 70279); (70281, 70281); (70286, 70286);
    (70302, 70302); (70314, 70319); (70379, 70383); (70394, 70399); (70404, 70404);
    (70413, 70414); (70417, 70418); (70441, 70441); (70449, 70449); (70452, 70452);
    (70458, 70458); (70469, 70470); (70473, 70474); (70478, 70479); (70481, 70486);
    (70488, 70492); (70500, 70501); (70509, 70511); (70517, 70655); (70748, 70748);
    (70754, 70783); (70856, 70863); (70874, 71039); (71094, 71095); (71134, 71167);
    (71237, 71247); (71258, 71263); (71277, 71295); (71354, 71359); (71370, 71423);
    (71451, 71452); (71468, 71471); (71495, 71679); (71740, 71839); (71923, 71934);
    (71943, 71944); (71946, 71947); (71956, 71956); (71959, 71959); (71990, 71990);
    (71993, 71994); (72007, 72015); (72026, 72095); (72104, 72105); (72152, 72153);
    (72165, 72191); (72264, 72271); (72355, 72367); (72441, 72703); (72713, 72713);
    (72759, 72759); (72774, 72783); (72813, 72815); (72848, 72849); (72872, 72872);
    (72887, 72959); (72967, 72967); (72970, 72970); (73015, 73017); (73019, 73019);
    (73022, 73022); (73032, 73039); (73050, 73055); (73062, 73062); (73065, 73065);
    (73103, 73103); (73106, 73106); (73113, 73119); (73130, 73439); (73465, 73647);
    (73649, 73663); (73714, 73726); (74650, 74751); (74863, 74863); (74869, 74879);
    (75076, 77711); (77811, 77823); (78895, 82943); (83527, 92159); (92729, 92735);
    (92767, 92767); (92778, 92781); (92863, 92863); (92874, 92879); (92910, 92911);
    (92918, 92927); (92998, 93007); (93018, 93018); (93026, 93026); (93048, 93052);
    (93072, 93759); (93851, 93951); (94027, 94030); (94088, 94094); (94112, 94175);
    (94181, 94191); (94194, 94207); (100344, 100351); (101590, 101631); (101641, 110575);
    (110580, 110580); (110588, 110588); (110591, 110591); (110883, 110927); (110931, 110947);
    (110952, 110959); (111356, 113663); (113771, 113775); (113789, 113791); (113801, 113807);
    (113818, 113819); (113824, 118527); (118574, 118575); (118599, 118607); (118724, 118783);
    (119030, 119039); (119079, 119080); (119155, 119162); (119275, 119295); (119366, 119519);
    (119540, 119551); (119639, 119647); (119673, 119807); (119893, 119893); (119965, 119965);
    (119968, 119969); (119971, 119972); (119975, 119976); (119981, 119981); (119994, 119994);
    (119996, 119996); (120004, 120004); (120070, 120070); (120075, 120076); (120085, 120085);
    (120093, 120093); (120122, 120122); (120127, 120127); (120133, 120133); (120135, 120137);
    (120145, 120145); (120486, 120487); (120780, 120781); (121484, 121498); (121504, 121504);
    (121520, 122623); (122655, 122879); (122887, 122887); (122905, 122906); (122914, 122914);
    (122917, 122917); (122923, 123135); (123181, 123183); (123198, 123199); (123210, 123213);
    (123216, 123535); (123567, 123583); (123642, 123646); (123648, 124895); (124903, 124903);
    (124908, 124908); (124911, 124911); (124927, 124927); (125125, 125126); (125143, 125183);
    (125260, 125263); (125274, 125277); (125280, 126064); (126133, 126208); (126270, 126463);
    (126468, 126468); (126496, 126496); (126499, 126499); (126501, 126502); (126504, 126504);
    (126515, 126515); (126520, 126520); (126522, 126522); (126524, 126529); (126531, 126534);
    (126536, 126536); (126538, 126538); (126540, 126540); (126544, 126544); (126547, 126547);
    (126549, 126550); (126552, 126552); (126554, 126554); (126556, 126556); (126558, 126558);
    (126560, 126560); (126563, 126563); (126565, 126566); (126571, 126571); (126579, 126579);
    (126584, 126584); (126589, 126589); (126591, 126591); (126602, 126602); (126620, 126624);
    (126628, 126628); (126634, 126634); (126652, 126703); (126706, 126975); (127020, 127023);
    (127124, 127135); (127151, 127152); (127168, 127168); (127184, 127184); (127222, 127231);
    (127406, 127461); (127491, 127503); (127548, 127551); (127561, 127567); (127570, 127583);
    (127590, 127743); (128728, 128732); (128749, 128751); (128765, 128767); (128884, 128895);
    (128985, 128991); (129004, 129007); (129009, 129023); (129036, 129039); (129096, 129103);
    (129114, 129119); (129160, 129167); (129198, 129199); (129202, 129279); (129620, 129631);
    (129646, 129647); (129653, 129655); (129661, 129663); (129671, 129679); (129709, 129711);
    (129723, 129727); (129734, 129743); (129754, 129759); (129768, 129775); (129783, 129791);
    (129939, 129939); (129995, 130031); (130042, 131071); (173792, 173823); (177977, 177983);
    (178206, 178207); (183970, 183983); (191457, 194559); (195102, 196607); (201547, 917759);
    (918000, 1114111)
  ]%N.

Definition unicode_isprintable (n : N) : bool :=
  negb (existsb (fun r : N * N => (fst r <=? n)%N && (n <=? snd r)%N) not_printable).

(** An encoding of [sys.stdout]: its name and its reason in the messages of
    [UnicodeEncodeError], and the characters it can encode. *)
Record codec : Type := {
  codec_name : string;
  codec_reason : string;
  codec_encodes : N -> bool
}.

Definition ascii_codec : codec :=
  {| codec_name := "ascii";
     codec_reason := "ordinal not in range(128)";
     codec_encodes := fun n => (n <? 128)%N |}.

(** Code page 1252, the encoding of a redirected [sys.stdout] on Windows. *)
Definition cp1252_codec : codec :=
  {| codec_name := "charmap";
     codec_reason := "character maps to <undefined>";
     codec_encodes := fun n =>
       (n <? 128)%N || ((160 <=? n)%N && (n <? 256)%N)
       || existsb (N.eqb n)
            [ 338; 339; 352; 353; 376; 381; 382; 402; 710; 732; 8211; 8212; 8216; 8217;
              8218; 8220; 8221; 8222; 8224; 8225; 8226; 8230; 8240; 8249; 8250; 8364;
              8482 ]%N |}.

(** The first run of characters the encoding lacks: where it starts, and its
    characters. *)
Fixpoint first_unencodable (encodes : N -> bool) (start : nat) (chars : list N)
  : option (nat * list N) :=
  match chars with
  | [] => None
  | n :: rest =>
      if encodes n then first_unencodable encodes (S start) rest
      else
        let fix run (l : list N) : list N :=
          match l with
          | m :: l' => if encodes m then [] else m :: run l'
          | [] => []
          end in
        Some (start, n :: run rest)
  end.

(** [str(e)] for the [UnicodeEncodeError] that encoding [text] raises. *)
Definition encode_error (c : codec) (text : string) : option string :=
  match first_unencodable (codec_encodes c) 0 (map code_point (utf8_chars text)) with
  | None => None
  | Some (start, [n]) =>
      Some (squote ++ codec_name c ++ squote ++ " codec can't encode character " ++ squote
              ++ escape_code_point n ++ squote ++ " in position "
              ++ decimal (Z.of_nat start) ++ ": " ++ codec_reason c)
  | Some (start, chars) =>
      Some (squote ++ codec_name c ++ squote ++ " codec can't encode characters in position "
              ++ decimal (Z.of_nat start) ++ "-"
              ++ decimal (Z.of_nat (start + List.length chars - 1)) ++ ": "
              ++ codec_reason c)
  end.

(** A world whose server answers by a fixed table, whose environment is
    fixed and whose [sys.stdout] fails as [out] tells; its state is the
    number of clock readings made so far. *)
Definition scripted_on (out : string -> option string)
    (server : request -> exn + response) (env : string -> option string)
  : World nat :=
  {| send := fun req n => (server req, n);
     clock := fun n => (fake_stamp n, S n);
     sleep_for := fun _ n => n;
     environ := fun _ => env;
     stdout_error := out;
     isprintable := unicode_isprintable |}.

(** The same with a [sys.stdout] in UTF-8, which encodes every text. *)
Definition scripted (server : request -> exn + response) (env : string -> option string)
  : World nat :=
  scripted_on (fun _ => None) server env.

(** A server that holds a first page and later pages filed under their
    cursors; [otherwise] answers a request with an unknown cursor. *)
Definition paged_server (resource : string) (first : page) (later : list (string * page))
    (otherwise : request -> exn + response) : request -> exn + response :=
  fun req =>
    match cursor_of req with
    | None => inr (page_response resource (req_url req) first)
    | Some (VStr c) =>
        match find (fun cp => String.eqb c (fst cp)) later with
        | Some (_, p) => inr (page_response resource (req_url req) p)
        | None => otherwise req
        end
    | Some _ => otherwise req
    end.

Definition bad_request (req : request) : exn + response :=
  inr (error_response 400 "Bad Request" (req_url req)).

Definition unauthorized (req : request) : exn + response :=
  inr (error_response 401 "Unauthorized" (req_url req)).

Definition unreachable (req : request) : exn + response :=
  inl (RequestException "Connection refused").

Definition demo_env (name : string) : option string :=
  if String.eqb name "API_TOKEN" then Some "shpat_0123456789abcdef"
  else if String.eqb name "STORE_ID" then Some "demo"
  else None.

(** An environment that lacks [API_TOKEN]. *)
Definition env_without_token (name : string) : option string :=
  if String.eqb name "STORE_ID" then Some "demo" else None.

(** A [Link] header value with one link of relation [rel] to [cursor]. *)
Definition link_to (resource cursor rel : string) : string :=
  "<https://demo.myshopify.com/admin/api/2024-01/" ++ resource
    ++ ".json?limit=250&page_info=" ++ cursor ++ ">; rel=" ++ dquote ++ rel ++ dquote.

Definition order_1001 : value :=
  VDict [ ("id", VInt 1001); ("name", VStr "#1001");
          ("customer", VDict [("id", VInt 7); ("email", VStr "a@example.com")]) ].
Definition order_1002 : value := VDict [ ("id", VInt 1002); ("customer", VNone) ].
Definition order_1003 : value := VDict [ ("id", VInt 1003) ].

(** The example of the spec: two orders and a next link, then one order and
    no [Link] header. *)
Definition first_of_two : page :=
  {| page_records := [order_1001; order_1002];
     page_link := Some (link_to "orders" "abc" "next") |}.
Definition second_of_two : page :=
  {| page_records := [order_1003]; page_link := None |}.
Definition two_pages : World nat :=
  scripted (paged_server "orders" first_of_two [("abc", second_of_two)] bad_request)
    demo_env.

(** An empty first page that announces a successor, then a page with one
    order. *)
Definition empty_first : page :=
  {| page_records := []; page_link := Some (link_to "orders" "abc" "next") |}.
Definition empty_then_one : World nat :=
  scripted (paged_server "orders" empty_first [("abc", second_of_two)] bad_request)
    demo_env.

(** A page, then an authentication failure at its cursor. *)
Definition page_then_401 : World nat :=
  scripted (paged_server "orders" first_of_two [] unauthorized) demo_env.

(** A page whose header has the next relation and no [page_info]. *)
Definition no_cursor_link : string :=
  "<https://demo.myshopify.com/admin/api/2024-01/orders.json?limit=250>; rel="
    ++ dquote ++ "next" ++ dquote.
Definition page_without_cursor : page :=
  {| page_records := [order_1003]; page_link := Some no_cursor_link |}.
Definition one_page_no_cursor : World nat :=
  scripted (paged_server "orders" page_without_cursor [] bad_request) demo_env.

(** The header of a middle page as Shopify sends it: the link to the
    previous page first, then the link to the next. *)
Definition middle_link : string :=
  link_to "orders" "PREV" "previous" ++ ", " ++ link_to "orders" "NEXT" "next".

(** Three pages; the cursor [PREV] leads back to the first, [abc] to the
    second and [NEXT] to the third. *)
Definition middle_of_three : page :=
  {| page_records := [order_1003]; page_link := Some middle_link |}.
Definition third_of_three : page :=
  {| page_records := [VDict [("id", VInt 1004)]];
     page_link := Some (link_to "orders" "abc" "previous") |}.
Definition three_pages : World nat :=
  scripted (paged_server "orders" first_of_two
              [ ("abc", middle_of_three); ("NEXT", third_of_three);
                ("PREV", first_of_two) ] bad_request)
    demo_env.

(** A world without [API_TOKEN] whose server refuses every connection. *)
Definition no_token : World nat := scripted unreachable env_without_token.

(** A world whose [sys.stdout] is in code page 1252 and whose server answers
    every request with 401. *)
Definition narrow_stdout : World nat :=
  scripted_on (encode_error cp1252_codec) unauthorized demo_env.


(** ** Notions used to state the properties *)

(** [row] is a flat record of [record]: the display of the kind evaluates to
    it in some state of the world (the state fixes the stamp). *)
Definition flat_of {W} {HW : World W} (k : kind) (record : value) (row : dict) : Prop :=
  exists w, result_of (flatten k record w) = Ok row.

(** The parameters a turn of the loop sends, from those of the turn before
    and the cursor variable (lines 50-51). *)
Definition turn_params (params : dict) (page_info : value) : dict :=
  if truthy page_info then dict_set "page_info" page_info params else params.

(** Two rows with the same keys in the same order and the same values,
    the stamp apart. *)
Definition rows_agree (a b : dict) : Prop :=
  Forall2 (fun x y => fst x = fst y /\ (fst x <> "extracted_at" -> snd x = snd y)) a b.

(** An item whose expression reads nothing but the record. *)
Definition pure_item {W} (e : value -> prog W value) : Prop :=
  exists f, forall record w, e record w = ([], w, f record).

(** A display whose items read only the record, except items named
    [extracted_at], which read the clock. *)
Definition regular {W} {HW : World W} (items : list (item W)) : Prop :=
  Forall (fun it => pure_item (snd it) \/ (fst it = "extracted_at" /\ snd it = now_stamp))
    items.

Fixpoint distinct (l : list string) : bool :=
  match l with
  | [] => true
  | x :: rest => negb (existsb (String.eqb x) rest) && distinct rest
  end.

(** The row a display gives in a state of the world ([[]] if it raises). *)
Definition row_of {W} {HW : World W} (k : kind) (record : value) (w : W) : dict :=
  match result_of (flatten k record w) with
  | Ok row => row
  | Raise _ => []
  end.

(** An item evaluates on [record] without exception and without events. *)
Definition item_total {W} (record : value) (it : item W) : Prop :=
  forall w, exists v w', snd it record w = ([], w', Ok v).

(** [flat] evaluates on [record] without exception and without events. *)
Definition flat_total {W} (flat : value -> prog W dict) (record : value) : Prop :=
  forall w, exists row w', flat record w = ([], w', Ok row).

Definition flat_result {W} (flat : value -> prog W dict) (record : value) (row : dict)
  : Prop :=
  exists w, result_of (flat record w) = Ok row.

(** How the turn that received page [p] ends (lines 64-65 and 112-122). *)
Definition page_step (p : page) : step :=
  match page_records p with
  | [] => Break
  | _ :: _ =>
      if py_in rel_next (page_link_text p) then
        match re_search_page_info (page_link_text p) with
        | Some next => Again next
        | None => Break
        end
      else Break
  end.

Definition page_pause (p : page) : list event :=
  match page_step p with
  | Again _ => [EvSleep 500]
  | Break => []
  end.

(** The query parameters a generator starts with. *)
Definition initial_params (k : kind) : dict :=
  match k with
  | Orders => [("limit", VInt 250); ("status", VStr "any")]
  | _ => [("limit", VInt 250)]
  end.

(** Two events that are the same, the stamps of yielded rows apart. *)
Definition ev_agree (a b : event) : Prop :=
  match a, b with
  | EvYield x, EvYield y => rows_agree x y
  | _, _ => a = b
  end.

(** Two outcomes with agreeing traces and the same result. *)
Definition outs_agree {W A} (o1 o2 : list event * W * result A) : Prop :=
  Forall2 ev_agree (trace_of o1) (trace_of o2) /\ result_of o1 = result_of o2.

(** A program whose outcome depends on the state of the world at most
    through the stamps. *)
Definition steady {W A} (m : prog W A) : Prop :=
  forall w1 w2, outs_agree (m w1) (m w2).

(** Some row of the table has primary key [i]. *)
Definition has_id (i : option value) (table : list dict) : Prop :=
  exists row, In row table /\ row_id row = i.

(** The [except] clause that takes an exception, as a class of failure. *)
Definition classify (e : exn) : failure_class :=
  match e with
  | KeyError _ => ConfigurationError
  | HTTPError status _ =>
      if status =? 401 then AuthenticationError
      else if status =? 404 then NotFoundError
      else OtherHTTPError
  | RequestException _ | JSONDecodeError _ => NetworkError
  | _ => UnexpectedError
  end.

(** The three permission scopes the report of an authentication failure
    lists. *)
Definition scope_lines : list string :=
  ["- read_orders"; "- read_products"; "- read_customers"].

Definition name_error_os : exn := NameError "name 'os' is not defined".

(** The four endpoints the probe always asks, in order. *)
Definition check_urls (base_url : string) : list string :=
  [ base_url ++ "/shop.json";
    base_url ++ "/orders/count.json";
    base_url ++ "/products/count.json";
    base_url ++ "/customers/count.json" ].


(** ** Notions used to state further properties *)

(** Every character of [s] is in the class of the cursor pattern. *)
Definition cursor_text (s : string) : bool :=
  forallb cursor_char (list_ascii_of_string s).

(** [s] is empty or opens with a character outside the class. *)
Definition stops_cursor (s : string) : Prop :=
  s = EmptyString \/ exists c rest, s = String c rest /\ cursor_char c = false.

(** An item that reads nothing but the record and raises nothing but
    [AttributeError]. *)
Definition attr_item {W} (e : value -> prog W value) : Prop :=
  exists f,
    (forall record w, e record w = ([], w, f record)) /\
    (forall record ex, f record = Raise ex -> exists msg, ex = AttributeError msg).

(** The items of a display before its stamp. *)
Definition front_items {W} {HW : World W} (k : kind) : list (item W) :=
  removelast (flat_items k).

(** A flattener that makes no request, yields and prints nothing. *)
Definition silent {W} (flat : value -> prog W dict) : Prop :=
  forall record w, trace_of (flat record w) = [].

(** The pauses of a trace, in milliseconds. *)
Definition pauses (t : list event) : list Z :=
  flat_map (fun ev => match ev with EvSleep ms => [ms] | _ => [] end) t.

(** The parameters of a request that follows a page: those the generator
    started with, then a non-empty [page_info]. *)
Definition follows (params0 : dict) (req : request) : Prop :=
  exists cursor,
    is_empty cursor = false /\
    req_params req = (params0 ++ [("page_info", VStr cursor)])%list.

(** A run whose requests are paced: a pause of 0.5 s lies between any two
    consecutive requests, every pause is of 0.5 s, and there is one pause
    less than requests, unless the bound on the turns cut the run after a
    pause. *)
Definition paced_run {W} (fuel : nat) (out : list event * W * result completion) : Prop :=
  paced (trace_of out) = true /\
  Forall (fun ms => ms = 500) (pauses (trace_of out)) /\
  match result_of out with
  | Ok OutOfFuel =>
      List.length (gets (trace_of out)) = fuel /\
      List.length (pauses (trace_of out)) = fuel
  | _ =>
      List.length (gets (trace_of out)) = S (List.length (pauses (trace_of out))) /\
      (List.length (gets (trace_of out)) <= fuel)%nat
  end.

(** A run that lets no [requests] exception out and prints at most one
    line, the last event of a run that finishes. *)
Definition guarded_run {W} (out : list event * W * result completion) : Prop :=
  match result_of out with
  | Raise e => is_request_exception e = false /\ prints (trace_of out) = []
  | Ok OutOfFuel => prints (trace_of out) = []
  | Ok Finished =>
      prints (trace_of out) = [] \/
      exists t0 line, trace_of out = (t0 ++ [EvPrint line])%list /\ prints t0 = []
  end.

(** A run whose requests all go to [u] with [headers]: the first with the
    parameters [params0], the later ones with [params0] and a non-empty
    [page_info]; a run of no turn makes none. *)
Definition addressed_run {W} (u : string) (headers params0 : dict) (fuel : nat)
    (out : list event * W * result completion) : Prop :=
  match fuel with
  | O => gets (trace_of out) = []
  | S _ =>
      exists rest,
        gets (trace_of out)
        = {| req_url := u; req_headers := headers; req_params := params0 |} :: rest /\
        Forall (fun req => req_url req = u /\ req_headers req = headers /\
                           follows params0 req) rest
  end.

(** In every state of the world, a request to [u] carrying [cursor] is
    answered with the response [r]. *)
Definition answers {W} {HW : World W} (u : string) (cursor : option string) (r : response)
  : Prop :=
  forall req w,
    req_url req = u ->
    cursor_of req = option_map VStr cursor ->
    fst (send req w) = inr r.

(** Every cursor of [held] is answered with a non-empty page of well-formed
    records whose header announces a successor, again in [held]. *)
Definition never_ending {W} {HW : World W} (k : kind) (u : string)
    (held : option string -> Prop) : Prop :=
  forall cursor,
    held cursor ->
    exists p next,
      delivers (kind_name k) u cursor p /\
      page_records p <> [] /\
      Forall (fun r => record_ok k r = true) (page_records p) /\
      py_in rel_next (page_link_text p) = true /\
      re_search_page_info (page_link_text p) = Some next /\
      held (Some next).

(** The cursors of the three-page server, whose middle page leads back. *)
Definition looping_cursors (cursor : option string) : Prop :=
  cursor = None \/ cursor = Some "abc" \/ cursor = Some "PREV".

(** A server whose body is a JSON array. *)
Definition array_body : World nat :=
  scripted (fun req => inr {| status_code := 200; reason := "OK"; url := req_url req;
                              link := None; body := Json (VList []) |})
    demo_env.

(** [s * n] on a text. *)
Fixpoint py_mul (s : string) (n : nat) : string :=
  match n with
  | O => EmptyString
  | S n' => s ++ py_mul s n'
  end.

Section ProbeScript.
Context {W : Type} {HW : World W}.

(** The script of test_shopify_connection.py (lines 114-123), in a module
    whose top level binds the names [globals]. *)
Definition probe_main_in (globals : list string) : prog W unit :=
  print "Testing Shopify API Connection..." ;;
  print (py_mul "=" 50) ;;
  success <- test_shopify_connection_in globals ;;
  print (py_mul "=" 50) ;;
  if success then
    print (check_mark ++ " Connection test passed! You're ready to run the DLT pipeline.")
  else
    print (cross_mark
             ++ " Connection test failed. Please fix the issues above and try again.").

(** The script as the module defines it. *)
Definition probe_main : prog W unit := probe_main_in probe_globals.

End ProbeScript.

(** The last line of the script, for each answer of the probe. *)
Definition verdict (success : bool) : string :=
  if success then
    check_mark ++ " Connection test passed! You're ready to run the DLT pipeline."
  else
    cross_mark ++ " Connection test failed. Please fix the issues above and try again.".

(** The printed lines hold each of the three scope lines. *)
Definition lists_scopes (lines : list string) : bool :=
  forallb (fun scope => existsb (String.eqb scope) lines) scope_lines.

(** [row] is what [flat] gave for some record in some state of the world. *)
Definition made_by {W} (flat : value -> prog W dict) (row : dict) : Prop :=
  exists record w, result_of (flat record w) = Ok row.

(** The columns of the rows of each kind: the keys of its display, in
    order. *)
Definition order_columns : list string :=
  Eval lazy in map fst (flat_items (HW := two_pages) Orders).

Definition product_columns : list string :=
  Eval lazy in map fst (flat_items (HW := two_pages) Products).

Definition customer_columns : list string :=
  Eval lazy in map fst (flat_items (HW := two_pages) Customers).

Definition columns (k : kind) : list string :=
  match k with
  | Orders => order_columns
  | Products => product_columns
  | Customers => customer_columns
  end.

(** A world with an empty environment whose server refuses every
    connection. *)
Definition no_credentials : World nat := scripted unreachable (fun _ => None).

(** The request of a check of the probe: the URL, the two headers, no
    parameter. *)
Definition check_request (token : value) (u : string) : request :=
  {| req_url := u; req_headers := shop_headers token; req_params := [] |}.

(** The paths of the four checks, in order (lines 35, 46, 54, 62), and
    the path of the sample order (line 71). *)
Definition check_paths : list string :=
  ["/shop.json"; "/orders/count.json"; "/products/count.json"; "/customers/count.json"].

Definition sample_path : string := "/orders.json?limit=1".

(** A response that lets a check go on: no error status, and a JSON object
    as body. *)
Definition passes (r : response) : Prop :=
  raise_for_status r = Ok tt /\ exists d, body r = Json (VDict d).

(** Sent one after the other from the state [w], the requests [reqs] are
    each answered with a response that passes. *)
Fixpoint all_pass {W} {HW : World W} (reqs : list request) (w : W) : Prop :=
  match reqs with
  | [] => True
  | req :: rest =>
      (exists r, fst (send req w) = inr r /\ passes r) /\ all_pass rest (snd (send req w))
  end.

(** A server that answers every request with a shop, a count of two and one
    order. *)
Definition counting_shop : World nat :=
  scripted
    (fun req => inr {| status_code := 200; reason := "OK"; url := req_url req;
                       link := None;
                       body := Json (VDict [ ("shop", VDict [("name", VStr "Demo")]);
                                             ("count", VInt 2);
                                             ("orders", VList [order_1001]) ]) |})
    demo_env.

(** * Properties *)

(** ** Strings and dictionaries *)

Lemma re_search_page_info_eq (s : string) :
  re_search_page_info s =
  match match drop_prefix "page_info=" s with
        | Some rest => if is_empty (take_cursor rest) then None else Some (take_cursor rest)
        | None => None
        end with
  | Some g => Some g
  | None => match s with
            | EmptyString => None
            | String _ s' => re_search_page_info s'
            end
  end.
Proof. destruct s; reflexivity. Qed.

Lemma take_cursor_found (s g : string) :
  re_search_page_info s = Some g -> is_empty g = false.
Proof.
  induction s as [|c s IH]; rewrite re_search_page_info_eq.
  - discriminate.
  - destruct (drop_prefix "page_info=" (String c s)) as [rest|].
    + destruct (is_empty (take_cursor rest)) eqn:G.
      * exact IH.
      * intros H. injection H as <-. exact G.
    + exact IH.
Qed.

Lemma drop_prefix_sound (p : string) :
  forall s rest, drop_prefix p s = Some rest -> s = p ++ rest.
Proof.
  induction p as [|a p IH]; intros s rest H; simpl in *.
  - now injection H as ->.
  - destruct s as [|b s]; [discriminate|].
    destruct (Ascii.eqb a b) eqn:E; [|discriminate].
    apply Ascii.eqb_eq in E. subst b. f_equal. now apply IH.
Qed.

Lemma drop_prefix_app (p rest : string) : drop_prefix p (p ++ rest) = Some rest.
Proof.
  induction p as [|a p IH]; simpl; [reflexivity|]. now rewrite Ascii.eqb_refl.
Qed.

Lemma append_nil_r (s : string) : s ++ EmptyString = s.
Proof. induction s as [|c s IH]; simpl; [reflexivity|now rewrite IH]. Qed.

Lemma append_assoc (a b c : string) : (a ++ b) ++ c = a ++ b ++ c.
Proof. induction a as [|x a IH]; simpl; [reflexivity|now rewrite IH]. Qed.

Lemma drop_prefix_more (p : string) :
  forall s rest x, drop_prefix p s = Some rest -> drop_prefix p (s ++ x) = Some (rest ++ x).
Proof.
  intros s rest x H. apply drop_prefix_sound in H. subst s.
  rewrite append_assoc. apply drop_prefix_app.
Qed.

Lemma drop_prefix_length (p : string) :
  forall s rest,
    drop_prefix p s = Some rest ->
    String.length s = (String.length p + String.length rest)%nat.
Proof.
  intros s rest H. apply drop_prefix_sound in H. subst s.
  induction p as [|a p IH]; simpl; [reflexivity|]. now rewrite IH.
Qed.

(** A prefix that a text is long enough to hold and does not open with is
    not gained by what follows the text. *)
Lemma drop_prefix_none_more (p : string) :
  forall s x,
    drop_prefix p s = None -> (String.length p <= String.length s)%nat ->
    drop_prefix p (s ++ x) = None.
Proof.
  induction p as [|a p IH]; intros s x H Hlen; simpl in *; [discriminate|].
  destruct s as [|b s]; simpl in *; [lia|].
  destruct (Ascii.eqb a b); [|reflexivity]. apply IH; [exact H|lia].
Qed.

Lemma py_in_eq (sub s : string) :
  py_in sub s =
  match drop_prefix sub s with
  | Some _ => true
  | None => match s with
            | EmptyString => false
            | String _ s' => py_in sub s'
            end
  end.
Proof. destruct s; reflexivity. Qed.

Lemma py_in_more (sub s x : string) : py_in sub s = true -> py_in sub (s ++ x) = true.
Proof.
  induction s as [|c s IH]; rewrite py_in_eq.
  - destruct (drop_prefix sub EmptyString) as [rest|] eqn:D; [|discriminate].
    intros _. rewrite py_in_eq. now rewrite (drop_prefix_more _ _ _ x D).
  - destruct (drop_prefix sub (String c s)) as [rest|] eqn:D.
    + intros _. rewrite py_in_eq. now rewrite (drop_prefix_more _ _ _ x D).
    + intros H. rewrite py_in_eq. simpl append.
      destruct (drop_prefix sub (String c (s ++ x))); [reflexivity|]. now apply IH.
Qed.

Lemma py_in_after (sub x s : string) : py_in sub s = true -> py_in sub (x ++ s) = true.
Proof.
  intros H. induction x as [|c x IH]; simpl append; [exact H|].
  rewrite py_in_eq. destruct (drop_prefix sub (String c (x ++ s))); [reflexivity|exact IH].
Qed.

(** A text holds a comma when one of its characters is a comma. *)
Lemma py_in_comma (c : ascii) (s : string) :
  py_in "," (String c s) = Ascii.eqb ","%char c || py_in "," s.
Proof.
  rewrite py_in_eq. cbn [drop_prefix]. destruct (Ascii.eqb ","%char c); [|reflexivity].
  now destruct s.
Qed.

Lemma py_in_comma_app (a b : string) :
  py_in "," (a ++ b) = py_in "," a || py_in "," b.
Proof.
  induction a as [|c a IH]; simpl append.
  - reflexivity.
  - rewrite !py_in_comma, IH. now rewrite orb_assoc.
Qed.

(** The greedy group stops at [>] wherever the text goes on from there. *)
Lemma take_cursor_closed (r y : string) :
  take_cursor (r ++ String ">"%char y) = take_cursor r.
Proof.
  induction r as [|c r IH]; simpl; [reflexivity|].
  destruct (cursor_char c); [now rewrite IH|reflexivity].
Qed.

Lemma re_search_page_info_length (s g : string) :
  re_search_page_info s = Some g -> (10 < String.length s)%nat.
Proof.
  induction s as [|c s IH]; rewrite re_search_page_info_eq.
  - discriminate.
  - destruct (drop_prefix "page_info=" (String c s)) as [rest|] eqn:D.
    + destruct (is_empty (take_cursor rest)) eqn:G.
      * intros H. apply IH in H. simpl. lia.
      * intros _. apply drop_prefix_length in D. rewrite D.
        destruct rest; [discriminate|]. simpl. lia.
    + intros H. apply IH in H. simpl. lia.
Qed.

(** What the pattern finds in a text it finds in the text closed by [>],
    whatever follows. *)
Lemma re_search_page_info_closed (s g y : string) :
  re_search_page_info s = Some g ->
  re_search_page_info (s ++ String ">"%char y) = Some g.
Proof.
  induction s as [|c s IH]; rewrite re_search_page_info_eq.
  - discriminate.
  - intros H. rewrite re_search_page_info_eq.
    destruct (drop_prefix "page_info=" (String c s)) as [rest|] eqn:D.
    + rewrite (drop_prefix_more _ _ _ (String ">"%char y) D), take_cursor_closed.
      destruct (is_empty (take_cursor rest)); [|exact H].
      simpl append. now apply IH.
    + assert (10 < String.length s)%nat as Hlen by exact (re_search_page_info_length _ _ H).
      rewrite (drop_prefix_none_more _ _ _ D) by (simpl; lia).
      simpl append. now apply IH.
Qed.

(** The first link of a header, up to its first comma. *)
Lemma split_links_first (s others : string) :
  py_in "," s = false ->
  others = EmptyString \/ (exists more, others = "," ++ more) ->
  forall acc, exists rest, split_links_from acc (s ++ others) = (acc ++ s) :: rest.
Proof.
  intros Hs Ho. induction s as [|c s IH]; intros acc; simpl append.
  - rewrite append_nil_r. destruct Ho as [->|(more & ->)]; simpl; eauto.
  - rewrite py_in_comma in Hs. apply orb_false_elim in Hs as [Hc Hs].
    cbn [split_links_from]. rewrite Ascii.eqb_sym, Hc.
    destruct (IH Hs (acc ++ String c EmptyString)) as (rest & E).
    exists rest. rewrite E. now rewrite append_assoc.
Qed.

Lemma re_search_page_info_target (target g rest : string) :
  re_search_page_info target = Some g ->
  re_search_page_info ("<" ++ target ++ ">" ++ rest) = Some g.
Proof.
  intros G. rewrite re_search_page_info_eq.
  change (drop_prefix "page_info=" ("<" ++ target ++ ">" ++ rest)) with (@None string).
  exact (re_search_page_info_closed _ _ rest G).
Qed.

(** On a header that lists its next link first, the header has the next
    relation, and the pattern of the loop finds in it the [page_info] of
    the next link. *)
Lemma next_link_first_cursor (header : string) :
  next_link_first header ->
  py_in rel_next header = true /\
  re_search_page_info header = next_link_page_info header.
Proof.
  intros (target & params & others & -> & Hcomma & Ho & Hrel & Hcur).
  destruct (re_search_page_info target) as [g|] eqn:G; [clear Hcur|now elim Hcur].
  rewrite py_in_comma_app in Hcomma. apply orb_false_elim in Hcomma as [Ht Hp].
  assert ("<" ++ target ++ ">" ++ params ++ others
          = ("<" ++ target ++ ">" ++ params) ++ others) as E.
  { simpl. f_equal. now rewrite append_assoc. }
  assert (py_in rel_next ("<" ++ target ++ ">" ++ params) = true) as Hl.
  { change ("<" ++ target ++ ">" ++ params) with ("<" ++ (target ++ ">" ++ params)).
    apply py_in_after, py_in_after. change (">" ++ params) with (String ">"%char params).
    change (String ">"%char params) with (">" ++ params). now apply py_in_after. }
  assert (py_in "," ("<" ++ target ++ ">" ++ params) = false) as Hc.
  { change ("<" ++ target ++ ">" ++ params)
      with (String "<"%char (target ++ String ">"%char params)).
    rewrite py_in_comma, py_in_comma_app, py_in_comma, Ht, Hp. reflexivity. }
  split.
  - rewrite E. now apply py_in_more.
  - rewrite (re_search_page_info_target _ _ (params ++ others) G).
    unfold next_link_page_info, split_links. rewrite E.
    destruct (split_links_first _ _ Hc Ho EmptyString) as (rest & Es).
    change (EmptyString ++ ("<" ++ target ++ ">" ++ params))
      with ("<" ++ target ++ ">" ++ params) in Es.
    rewrite Es. cbn [find]. rewrite Hl.
    symmetry. exact (re_search_page_info_target _ _ params G).
Qed.

Lemma lookup_dict_set (k : string) (v : value) (d : dict) :
  lookup k (dict_set k v d) = Some v.
Proof.
  induction d as [|[k' v'] d IH]; simpl.
  - now rewrite String.eqb_refl.
  - destruct (String.eqb k k') eqn:E; simpl.
    + now rewrite String.eqb_refl.
    + now rewrite E.
Qed.

Lemma distinct_NoDup (l : list string) : distinct l = true -> NoDup l.
Proof.
  induction l as [|x l IH]; simpl; intros H.
  - constructor.
  - apply andb_prop in H as [H1 H2]. constructor; [|now apply IH].
    intros Hin. apply negb_true_iff in H1.
    assert (existsb (String.eqb x) l = true) as E.
    { apply existsb_exists. exists x. split; [exact Hin|apply String.eqb_refl]. }
    congruence.
Qed.

Lemma lookup_in_distinct (k : string) (v : value) (d : dict) :
  NoDup (keys d) -> In (k, v) d -> lookup k d = Some v.
Proof.
  induction d as [|[k' v'] d IH]; simpl; intros Hnd Hin.
  - contradiction.
  - inversion Hnd as [|? ? Hn Hd]; subst.
    destruct Hin as [E|Hin].
    + injection E as -> ->. now rewrite String.eqb_refl.
    + destruct (String.eqb k k') eqn:E.
      * apply String.eqb_eq in E. subst k'. exfalso. apply Hn.
        change k with (fst (k, v)). now apply in_map.
      * now apply IH.
Qed.

(** ** The monad *)

Section MonadFacts.
Context {W : Type}.

Lemma bind_ok {A B} (m : prog W A) (f : A -> prog W B) w t w1 a :
  m w = (t, w1, Ok a) ->
  bind m f w = ((t ++ trace_of (f a w1))%list, world_of (f a w1), result_of (f a w1)).
Proof.
  intros E. unfold bind. rewrite E.
  destruct (f a w1) as [[t' w2] r']. reflexivity.
Qed.

Lemma bind_raise {A B} (m : prog W A) (f : A -> prog W B) w t w1 e :
  m w = (t, w1, Raise e) -> bind m f w = (t, w1, Raise e).
Proof. intros E. unfold bind. now rewrite E. Qed.

Lemma bind_ok_inv {A B} (m : prog W A) (f : A -> prog W B) w t w' b :
  bind m f w = (t, w', Ok b) ->
  exists t1 w1 a t2,
    m w = (t1, w1, Ok a) /\ f a w1 = (t2, w', Ok b) /\ t = (t1 ++ t2)%list.
Proof.
  unfold bind. destruct (m w) as [[t1 w1] [a|e]].
  - destruct (f a w1) as [[t2 w2] r] eqn:E. intros H. injection H as <- <- ->.
    now exists t1, w1, a, t2.
  - discriminate.
Qed.

Lemma out_eta {A} (out : list event * W * result A) :
  out = (trace_of out, world_of out, result_of out).
Proof. now destruct out as [[t w] r]. Qed.

End MonadFacts.

(** ** Displays *)

Section DisplayFacts.
Context {W : Type} {HW : World W}.

Lemma dict_display_keys (items : list (item W)) (record : value) :
  forall w t w' d,
    dict_display items record w = (t, w', Ok d) -> keys d = map fst items.
Proof.
  induction items as [|[k e] items IH]; simpl; intros w t w' d H.
  - injection H as <- <- <-. reflexivity.
  - apply bind_ok_inv in H as (t1 & w1 & v & t2 & _ & H & _).
    apply bind_ok_inv in H as (t3 & w3 & d' & t4 & Hd & H & _).
    injection H as <- <- <-. simpl. f_equal. exact (IH _ _ _ _ Hd).
Qed.

Lemma field_pure (k : string) : pure_item (W := W) (field k).
Proof. now exists (fun record => py_get record k VNone). Qed.

Lemma nested_pure (p k : string) : pure_item (W := W) (nested p k).
Proof.
  exists (fun record =>
            match py_get record p VNone with
            | Ok test =>
                if truthy test then
                  match py_get record p (VDict []) with
                  | Ok parent => py_get parent k VNone
                  | Raise e => Raise e
                  end
                else Ok VNone
            | Raise e => Raise e
            end).
  intros record w. unfold nested, bind, lift, ret.
  destruct (py_get record p VNone) as [test|e]; [|reflexivity].
  destruct (truthy test); [|reflexivity].
  destruct (py_get record p (VDict [])) as [parent|e]; [|reflexivity].
  destruct (py_get parent k VNone); reflexivity.
Qed.

Lemma text_pure (k : string) (default : value) : pure_item (W := W) (text k default).
Proof.
  exists (fun record =>
            match py_get record k default with
            | Ok v => Ok (VStr (py_str v))
            | Raise e => Raise e
            end).
  intros record w. unfold text, bind, lift, ret.
  destruct (py_get record k default); reflexivity.
Qed.

Lemma flat_items_regular (k : kind) : regular (flat_items k).
Proof.
  destruct k; unfold regular; simpl;
    repeat (apply Forall_cons;
            [ first [ left; simpl; first [apply field_pure | apply nested_pure | apply text_pure]
                    | right; split; reflexivity ] | ]);
    apply Forall_nil.
Qed.

Lemma flat_items_distinct (k : kind) : NoDup (map fst (flat_items k)).
Proof. apply distinct_NoDup. destruct k; vm_compute; reflexivity. Qed.

(** A display makes no request, yields nothing and prints nothing. *)
Lemma dict_display_silent (items : list (item W)) (record : value) :
  regular items -> forall w, trace_of (dict_display items record w) = [].
Proof.
  intros Hreg. induction Hreg as [|[k e] items Hit _ IH]; intros w.
  - reflexivity.
  - simpl. unfold bind, ret.
    assert (exists w1 r, e record w = ([], w1, r)) as (w1 & r & E).
    { destruct Hit as [[f Hf]|[_ Hs]]; simpl in *.
      - exists w, (f record). apply Hf.
      - subst e. unfold now_stamp, bind, datetime_now_isoformat, ret.
        destruct (clock w) as [s w1]. now exists w1, (Ok (VStr s)). }
    rewrite E. destruct r as [v|ex]; [|reflexivity].
    specialize (IH w1).
    destruct (dict_display items record w1) as [[t2 w2] [d|ex]]; simpl in *; now subst.
Qed.

(** Two evaluations of a display on the same record, in any two states of
    the world, fail alike or give rows that agree up to the stamp. *)
Lemma dict_display_agree (items : list (item W)) (record : value) :
  regular items ->
  forall w1 w2,
    match result_of (dict_display items record w1),
          result_of (dict_display items record w2) with
    | Ok d1, Ok d2 => rows_agree d1 d2
    | Raise e1, Raise e2 => e1 = e2
    | _, _ => False
    end.
Proof.
  intros Hreg. induction Hreg as [|[k e] items Hit _ IH]; intros w1 w2.
  - simpl. constructor.
  - simpl. unfold bind, ret.
    destruct Hit as [[f Hf]|[Hk Hs]]; simpl in *.
    + rewrite !Hf. destruct (f record) as [v|ex]; [|reflexivity].
      specialize (IH w1 w2).
      destruct (dict_display items record w1) as [[ta wa] [da|ea]];
        destruct (dict_display items record w2) as [[tb wb] [db|eb]]; simpl in *;
        try contradiction; try assumption.
      constructor; [|exact IH]. split; reflexivity.
    + subst e. unfold now_stamp, bind, datetime_now_isoformat, ret.
      destruct (clock w1) as [s1 w1']. destruct (clock w2) as [s2 w2'].
      specialize (IH w1' w2').
      destruct (dict_display items record w1') as [[ta wa] [da|ea]];
        destruct (dict_display items record w2') as [[tb wb] [db|eb]]; simpl in *;
        try contradiction; try assumption.
      constructor; [|exact IH]. split; [reflexivity|]. simpl. intros Hne. now elim Hne.
Qed.

Lemma rows_agree_lookup (a b : dict) (key : string) :
  rows_agree a b -> key <> "extracted_at" -> lookup key a = lookup key b.
Proof.
  intros H Hne. induction H as [|[k1 v1] [k2 v2] a b [Hk Hv] _ IH]; simpl in *.
  - reflexivity.
  - subst k2. destruct (String.eqb key k1) eqn:E.
    + apply String.eqb_eq in E. subst k1. f_equal. now apply Hv.
    + exact IH.
Qed.

Lemma rows_agree_keys (a b : dict) : rows_agree a b -> keys a = keys b.
Proof.
  intros H. induction H as [|x y a b [Hk _] _ IH]; simpl; [reflexivity|].
  now rewrite Hk, IH.
Qed.

(** The value a display gives to one of its keys is the value of the item
    of that key, evaluated in some state of the world. *)
Lemma dict_display_item (items : list (item W)) (record : value) :
  NoDup (map fst items) ->
  forall w t w' d k e,
    dict_display items record w = (t, w', Ok d) ->
    In (k, e) items ->
    exists v w0, lookup k d = Some v /\ result_of (e record w0) = Ok v.
Proof.
  induction items as [|[k0 e0] items IH]; simpl; intros Hnd w t w' d k e H Hin.
  - contradiction.
  - inversion Hnd as [|? ? Hn Hd]; subst.
    apply bind_ok_inv in H as (t1 & w1 & v & t2 & He & H & _).
    apply bind_ok_inv in H as (t3 & w3 & d' & t4 & Hrest & H & _).
    injection H as <- <- <-. simpl.
    destruct Hin as [E|Hin].
    + injection E as -> ->. rewrite String.eqb_refl. exists v, w.
      split; [reflexivity|]. now rewrite He.
    + destruct (String.eqb k k0) eqn:E.
      * apply String.eqb_eq in E. subst k0. exfalso. apply Hn.
        change k with (fst (k, e)). now apply in_map.
      * exact (IH Hd _ _ _ _ _ _ Hrest Hin).
Qed.

End DisplayFacts.

(** ** Flattening *)

Section FlattenFacts.
Context {W : Type} {HW : World W}.

Lemma dict_display_total (items : list (item W)) (record : value) :
  Forall (item_total record) items ->
  forall w, exists row w', dict_display items record w = ([], w', Ok row).
Proof.
  intros Hall. induction Hall as [|[k e] items Hit _ IH]; intros w.
  - now exists [], w.
  - destruct (Hit w) as (v & w1 & E). destruct (IH w1) as (row & w2 & E2).
    exists ((k, v) :: row), w2. simpl in *. unfold bind, ret. now rewrite E, E2.
Qed.

Lemma field_total (k key : string) (d : dict) : item_total (W := W) (VDict d) (k, field key).
Proof. intros w. simpl. unfold field, lift. simpl. eauto. Qed.

Lemma text_total (k key : string) (default : value) (d : dict) :
  item_total (W := W) (VDict d) (k, text key default).
Proof. intros w. simpl. unfold text, lift, bind, ret. simpl. eauto. Qed.

Lemma now_stamp_total (k : string) (record : value) : item_total record (k, now_stamp).
Proof.
  intros w. simpl. unfold now_stamp, datetime_now_isoformat, bind, ret.
  destruct (clock w) as [s w1]. eauto.
Qed.

Lemma nested_total (k parent key : string) (d : dict) :
  parent_ok d parent = true -> item_total (W := W) (VDict d) (k, nested parent key).
Proof.
  intros Hok w. simpl. unfold nested, lift, bind, ret, parent_ok in *. simpl.
  destruct (lookup parent d) as [v|]; simpl; [|eauto].
  destruct (truthy v) eqn:T; [|eauto].
  destruct v; simpl in *; try discriminate; eauto.
Qed.

Lemma flat_items_total (k : kind) (record : value) :
  record_ok k record = true -> Forall (item_total record) (flat_items k).
Proof.
  destruct record as [| | | | | |d]; try discriminate. intros Hok.
  destruct k; simpl in *.
  - apply andb_prop in Hok as [Hok Hs]. apply andb_prop in Hok as [Hc Hb].
    repeat (apply Forall_cons;
            [ first [ apply field_total | apply now_stamp_total
                    | apply nested_total; assumption ] | ]);
      apply Forall_nil.
  - repeat (apply Forall_cons; [ first [apply field_total | apply now_stamp_total] | ]);
      apply Forall_nil.
  - repeat (apply Forall_cons;
            [ first [apply field_total | apply text_total | apply now_stamp_total] | ]);
      apply Forall_nil.
Qed.

(** Flattening a well-formed record never raises. *)
Lemma flatten_total (k : kind) (record : value) :
  record_ok k record = true ->
  forall w, exists row w', flatten k record w = ([], w', Ok row).
Proof. intros Hok. apply dict_display_total. now apply flat_items_total. Qed.

Lemma flatten_fails_alike (k : kind) (record : value) (w1 w2 : W) (e : exn) :
  result_of (flatten k record w1) = Raise e -> result_of (flatten k record w2) = Raise e.
Proof.
  intros H. pose proof (dict_display_agree _ record (flat_items_regular k) w1 w2) as A.
  unfold flatten in *. rewrite H in A.
  destruct (result_of (dict_display (flat_items k) record w2)); [contradiction|now subst].
Qed.

(** C3. Whatever fields or nested objects two raw records of a kind have or
    lack, their flat records have the same keys, in the same order: the
    keys of the display of that kind. *)
Theorem flat_record_keys_fixed (k : kind) (r1 r2 : value) (w1 w2 : W) (d1 d2 : dict) :
  result_of (flatten k r1 w1) = Ok d1 ->
  result_of (flatten k r2 w2) = Ok d2 ->
  keys d1 = map fst (flat_items k) /\ keys d2 = keys d1.
Proof.
  intros H1 H2. unfold flatten in *.
  assert (forall r w d, result_of (dict_display (flat_items k) r w) = Ok d ->
                        keys d = map fst (flat_items k)) as K.
  { intros r w d H.
    destruct (dict_display (flat_items k) r w) as [[t w'] res] eqn:E. simpl in H. subst res.
    exact (dict_display_keys _ _ _ _ _ _ E). }
  split; [exact (K _ _ _ H1)|]. now rewrite (K _ _ _ H1), (K _ _ _ H2).
Qed.

(** C7. Flattening the same raw record twice, in whatever states of the
    world, gives flat records with the same keys and the same value under
    every key but [extracted_at]. *)
Theorem flatten_twice_agrees (k : kind) (record : value) (w1 w2 : W) (d1 d2 : dict) :
  result_of (flatten k record w1) = Ok d1 ->
  result_of (flatten k record w2) = Ok d2 ->
  keys d1 = keys d2 /\
  forall key, key <> "extracted_at" -> lookup key d1 = lookup key d2.
Proof.
  intros H1 H2.
  pose proof (dict_display_agree _ record (flat_items_regular k) w1 w2) as A.
  unfold flatten in *. rewrite H1, H2 in A. split.
  - now apply rows_agree_keys.
  - intros key Hne. now apply rows_agree_lookup.
Qed.

(** C4 (amended). A record that is a JSON object whose nested parents, where
    present, are objects or falsy flattens without exception, and in its flat
    record: a field read by [record.get(src)] is null when [src] is missing;
    a field read under a parent is null when the parent is missing, falsy,
    or an object without the key; a field read by
    [str(record.get(src, default))] is the text of the default when [src] is
    missing. *)
Theorem missing_values_flatten_to_defaults (k : kind) (d : dict) (w : W) :
  record_ok k (VDict d) = true ->
  exists row w',
    flatten k (VDict d) w = ([], w', Ok row) /\
    (forall key src,
        In (key, field src) (flat_items k) ->
        lookup src d = None -> lookup key row = Some VNone) /\
    (forall key parent src,
        In (key, nested parent src) (flat_items k) ->
        lookup parent d = None \/
        (exists v, lookup parent d = Some v /\ truthy v = false) \/
        (exists d', lookup parent d = Some (VDict d') /\ lookup src d' = None) ->
        lookup key row = Some VNone) /\
    (forall key src default,
        In (key, text src default) (flat_items k) ->
        lookup src d = None -> lookup key row = Some (VStr (py_str default))).
Proof.
  intros Hok. destruct (flatten_total k _ Hok w) as (row & w' & E).
  exists row, w'. split; [exact E|].
  unfold flatten in E.
  pose proof (fun key e => dict_display_item _ (VDict d) (flat_items_distinct k)
                             _ _ _ _ key e E) as Item.
  repeat split.
  - intros key src Hin Hmiss.
    destruct (Item _ _ Hin) as (v & w0 & Hl & Hv). rewrite Hl. f_equal.
    unfold field, lift in Hv. simpl in Hv. rewrite Hmiss in Hv. congruence.
  - intros key parent src Hin Hmiss.
    destruct (Item _ _ Hin) as (v & w0 & Hl & Hv). rewrite Hl. f_equal.
    unfold nested, lift, bind, ret in Hv. simpl in Hv.
    destruct Hmiss as [Hm|[(x & Hm & Hx)|(d' & Hm & Hs)]]; rewrite Hm in Hv; simpl in Hv.
    + congruence.
    + rewrite Hx in Hv. simpl in Hv. congruence.
    + destruct d' as [|kv d']; simpl in *; [congruence|].
      destruct kv as [k0 v0]. simpl in *.
      destruct (String.eqb src k0); [discriminate|]. rewrite Hs in Hv. congruence.
  - intros key src default Hin Hmiss.
    destruct (Item _ _ Hin) as (v & w0 & Hl & Hv). rewrite Hl. f_equal.
    unfold text, lift, bind, ret in Hv. simpl in Hv. rewrite Hmiss in Hv.
    simpl in Hv. congruence.
Qed.

End FlattenFacts.

Lemma flat_record_keys_fixed_witness :
  keys (row_of (HW := two_pages) Orders order_1001 0%nat)
    = map fst (flat_items (HW := two_pages) Orders) /\
  keys (row_of (HW := two_pages) Orders order_1003 5%nat)
    = keys (row_of (HW := two_pages) Orders order_1001 0%nat).
Proof.
  apply (flat_record_keys_fixed (HW := two_pages) Orders order_1001 order_1003 0%nat 5%nat);
    reflexivity.
Defined.

Lemma flatten_twice_agrees_witness :
  keys (row_of (HW := two_pages) Customers (VDict [("id", VInt 4)]) 0%nat)
    = keys (row_of (HW := two_pages) Customers (VDict [("id", VInt 4)]) 1%nat) /\
  forall key, key <> "extracted_at" ->
    lookup key (row_of (HW := two_pages) Customers (VDict [("id", VInt 4)]) 0%nat)
      = lookup key (row_of (HW := two_pages) Customers (VDict [("id", VInt 4)]) 1%nat).
Proof.
  apply (flatten_twice_agrees (HW := two_pages) Customers (VDict [("id", VInt 4)])
           0%nat 1%nat);
    reflexivity.
Defined.

(** C4, as stated, fails on the customer [{}]: its [addresses] are missing,
    and the flat record holds the text of an empty list under that key, not
    null. *)
Lemma missing_addresses_not_null :
  lookup "addresses" [] = None /\
  exists row,
    result_of (customer_flat (HW := two_pages) (VDict []) 0%nat) = Ok row /\
    lookup "addresses" row = Some (VStr "[]") /\
    lookup "tax_exemptions" row = Some (VStr "[]") /\
    lookup "default_address" row = Some (VStr "{}") /\
    lookup "addresses" row <> Some VNone.
Proof.
  split; [reflexivity|]. eexists. split; [reflexivity|].
  repeat split; try reflexivity. discriminate.
Qed.

Lemma missing_values_flatten_to_defaults_witness :
  exists row w',
    flatten (HW := two_pages) Customers (VDict []) 0%nat = ([], w', Ok row) /\
    lookup "email" row = Some VNone /\
    lookup "addresses" row = Some (VStr "[]").
Proof.
  destruct (missing_values_flatten_to_defaults (HW := two_pages) Customers [] 0%nat
              eq_refl) as (row & w' & E & Hfield & _ & Htext).
  exists row, w'. split; [exact E|]. split.
  - apply (Hfield "email" "email"); [simpl; tauto|reflexivity].
  - apply (Htext "addresses" "addresses" (VList [])); [simpl; tauto|reflexivity].
Defined.

(** ** Traces *)

Lemma yields_app (a b : list event) : yields (a ++ b) = (yields a ++ yields b)%list.
Proof. apply flat_map_app. Qed.

Lemma gets_app (a b : list event) : gets (a ++ b) = (gets a ++ gets b)%list.
Proof. apply flat_map_app. Qed.

Lemma prints_app (a b : list event) : prints (a ++ b) = (prints a ++ prints b)%list.
Proof. apply flat_map_app. Qed.

Lemma yields_rows (rows : list dict) : yields (map EvYield rows) = rows.
Proof. induction rows as [|r rows IH]; simpl; [reflexivity|]. now f_equal. Qed.

Lemma gets_rows (rows : list dict) : gets (map EvYield rows) = [].
Proof. induction rows as [|r rows IH]; simpl; [reflexivity|exact IH]. Qed.

Lemma prints_rows (rows : list dict) : prints (map EvYield rows) = [].
Proof. induction rows as [|r rows IH]; simpl; [reflexivity|exact IH]. Qed.

Lemma paced_rows (slept : bool) (rows : list dict) (t : list event) :
  paced_from slept (map EvYield rows ++ t) = paced_from slept t.
Proof. induction rows as [|r rows IH]; simpl; [reflexivity|exact IH]. Qed.

(** ** One turn of the loop *)

Section LoopFacts.
Context {W : Type} {HW : World W}.
Variable resource : string.
Variable flat : value -> prog W dict.
Variable base_url : string.
Variable headers : dict.

Let u : string := base_url ++ "/" ++ resource ++ ".json".
Let ask (params : dict) : request :=
  {| req_url := u; req_headers := headers; req_params := params |}.

Lemma bind_silent {A B} (m : prog W A) (f : A -> prog W B) w w1 a :
  m w = ([], w1, Ok a) -> bind m f w = f a w1.
Proof.
  intros E. unfold bind. rewrite E. now destruct (f a w1) as [[t' w2] r'].
Qed.

Lemma yield_rows_total (rows : list value) :
  Forall (flat_total flat) rows ->
  forall w, exists out w',
    yield_rows flat rows w = (map EvYield out, w', Ok tt) /\
    Forall2 (flat_result flat) rows out.
Proof.
  intros Hall. induction Hall as [|r rows Hr _ IH]; intros w.
  - exists [], w. split; [reflexivity|constructor].
  - destruct (Hr w) as (row & w1 & E). destruct (IH w1) as (out & w2 & E2 & F).
    exists (row :: out), w2. split.
    + unfold yield_rows in *. cbn [for_each].
      assert ((row <- flat r ;; yield row) w = ([EvYield row], w1, Ok tt)) as E1.
      { unfold bind, yield, emit. now rewrite E. }
      rewrite (bind_ok _ _ _ _ _ _ E1), E2. reflexivity.
    + constructor; [|exact F]. exists w. now rewrite E.
Qed.

Lemma bind_then {A B} (m : prog W A) (f : A -> prog W B) w t w1 a t2 w2 r t' :
  m w = (t, w1, Ok a) -> f a w1 = (t2, w2, r) -> t' = (t ++ t2)%list ->
  bind m f w = (t', w2, r).
Proof. intros E1 E2 ->. unfold bind. now rewrite E1, E2. Qed.

Lemma bind_lift_ok {A B} (a : A) (f : A -> prog W B) w : bind (lift (Ok a)) f w = f a w.
Proof. unfold bind, lift. now destruct (f a w) as [[t' w2] r']. Qed.

Lemma bind_lift_raise {A B} (e : exn) (f : A -> prog W B) w :
  bind (lift (Raise e)) f w = ([], w, Raise e).
Proof. reflexivity. Qed.

Lemma requests_get_answer (params : dict) (w : W) (r : response) :
  fst (send (ask params) w) = inr r ->
  requests_get (base_url ++ "/" ++ resource ++ ".json") headers params w
    = ([EvGet (ask params)], snd (send (ask params) w), Ok r).
Proof.
  intros Hs. unfold requests_get. fold u. fold (ask params).
  destruct (send (ask params) w) as [ans w1]. simpl in *. now subst ans.
Qed.

Lemma requests_get_raises (params : dict) (w : W) (e : exn) :
  fst (send (ask params) w) = inl e ->
  requests_get (base_url ++ "/" ++ resource ++ ".json") headers params w
    = ([EvGet (ask params)], snd (send (ask params) w), Raise e).
Proof.
  intros Hs. unfold requests_get. fold u. fold (ask params).
  destruct (send (ask params) w) as [ans w1]. simpl in *. now subst ans.
Qed.

Lemma fetch_page_delivered (cursor : option string) (p : page) (params : dict) :
  delivers resource u cursor p ->
  lookup "page_info" params = option_map VStr cursor ->
  Forall (flat_total flat) (page_records p) ->
  forall w, exists out w',
    fetch_page resource flat base_url headers params w
      = ((EvGet (ask params) :: map EvYield out ++ page_pause p)%list, w', Ok (page_step p)) /\
    Forall2 (flat_result flat) (page_records p) out.
Proof.
  intros Hdel Hcur Htot w.
  destruct (Hdel (ask params) w eq_refl Hcur) as (r & Hs & Hst & (data & Hb & Hg) & Hl).
  pose proof (requests_get_answer _ _ _ Hs) as E1.
  set (w1 := snd (send (ask params) w)) in *.
  unfold page_pause, page_step, page_link_text.
  rewrite <- Hl.
  destruct (page_records p) as [|r0 rows] eqn:Hrec.
  - exists [], w1. split; [|constructor]. unfold fetch_page.
    eapply bind_then; [exact E1| |reflexivity].
    rewrite Hst, bind_lift_ok. unfold response_json. rewrite Hb, bind_lift_ok.
    rewrite Hg, bind_lift_ok. reflexivity.
  - destruct (yield_rows_total _ Htot w1) as (out & w2 & E2 & F).
    exists out.
    assert (forall tail w3 st,
               (let link_header := match link r with Some h => h | None => EmptyString end in
                if py_in rel_next link_header then
                  match re_search_page_info link_header with
                  | Some next_match => time_sleep 500 ;; ret (Again next_match)
                  | None => ret Break
                  end
                else ret Break) w2 = (tail, w3, Ok st) ->
               fetch_page resource flat base_url headers params w
               = ((EvGet (ask params) :: map EvYield out ++ tail)%list, w3, Ok st)) as K.
    { intros tail w3 st E3. unfold fetch_page.
      eapply bind_then; [exact E1| |reflexivity].
      rewrite Hst, bind_lift_ok. unfold response_json. rewrite Hb, bind_lift_ok.
      rewrite Hg, bind_lift_ok. cbn [truthy negb py_iter]. rewrite bind_lift_ok.
      eapply bind_then; [exact E2| |reflexivity].
      unfold link_header_of. exact E3. }
    cbv zeta in K.
    destruct (py_in rel_next match link r with Some h => h | None => EmptyString end).
    + destruct (re_search_page_info
                  match link r with Some h => h | None => EmptyString end).
      * exists (sleep_for 500 w2). split; [|exact F]. apply K. reflexivity.
      * exists w2. split; [|exact F]. apply K. reflexivity.
    + exists w2. split; [|exact F]. apply K. reflexivity.
Qed.

Lemma try_except_ok {A} (body : prog W A) (handler : exn -> prog W A) w t w1 a :
  body w = (t, w1, Ok a) -> try_except body handler w = (t, w1, Ok a).
Proof. intros E. unfold try_except. now rewrite E. Qed.


(** A turn that receives a page. *)
Lemma paginate_delivered (cursor : option string) (p : page) (params : dict)
    (page_info : value) :
  delivers resource u cursor p ->
  lookup "page_info" (turn_params params page_info) = option_map VStr cursor ->
  Forall (flat_total flat) (page_records p) ->
  forall fuel w, exists out w',
    Forall2 (flat_result flat) (page_records p) out /\
    paginate resource flat base_url headers (S fuel) params page_info w =
    match page_step p with
    | Break =>
        ((EvGet (ask (turn_params params page_info)) :: map EvYield out)%list, w',
         Ok Finished)
    | Again next =>
        let rest := paginate resource flat base_url headers fuel
                      (turn_params params page_info) (VStr next) w' in
        ((EvGet (ask (turn_params params page_info)) :: map EvYield out
            ++ EvSleep 500 :: trace_of rest)%list,
         world_of rest, result_of rest)
    end.
Proof.
  intros Hdel Hcur Htot fuel w.
  destruct (fetch_page_delivered _ _ _ Hdel Hcur Htot w) as (out & w' & E & F).
  exists out, w'. split; [exact F|].
  cbn [paginate]. fold (turn_params params page_info).
  pose proof (try_except_ok _ (on_request_exception resource) _ _ _ _ E) as T.
  unfold page_pause in T.
  destruct (page_step p) as [|next].
  - eapply bind_then; [exact T|reflexivity|]. now rewrite !app_nil_r.
  - rewrite (bind_ok _ _ _ _ _ _ T). cbv zeta. f_equal. f_equal.
    simpl. f_equal. now rewrite <- app_assoc.
Qed.

(** A print that [sys.stdout] takes. *)
Lemma print_taken (line : string) (w : W) :
  stdout_error line = None -> print line w = ([EvPrint line], w, Ok tt).
Proof. intros H. unfold print. now rewrite H. Qed.


(** The turns over pages that each announce a successor. *)
Lemma paginate_linked (pages : list page) :
  forall cursor last params page_info,
    linked resource u cursor pages last ->
    Forall (fun p => Forall (flat_total flat) (page_records p)) pages ->
    lookup "page_info" (turn_params params page_info) = option_map VStr cursor ->
    forall fuel w, exists t w' params' page_info',
      paginate resource flat base_url headers (List.length pages + fuel)%nat params page_info w
      = (let rest := paginate resource flat base_url headers fuel params' page_info' w' in
         ((t ++ trace_of rest)%list, world_of rest, result_of rest)) /\
      lookup "page_info" (turn_params params' page_info') = option_map VStr last /\
      Forall2 (flat_result flat) (List.concat (map page_records pages)) (yields t) /\
      List.length (gets t) = List.length pages /\
      prints t = [] /\
      (forall t', paced_from true (t ++ t') = paced_from true t').
Proof.
  induction pages as [|p pages IH];
    intros cursor last params page_info Hlink Htot Hcur fuel w.
  - simpl in Hlink. subst last. exists [], w, params, page_info.
    split; [|repeat split; auto; constructor].
    simpl. now destruct (paginate resource flat base_url headers fuel params page_info w)
      as [[t' w'] r'].
  - simpl in Hlink. destruct Hlink as (Hdel & Hne & Hrel & next & Hnext & Hlink).
    inversion Htot as [|? ? Hp Hrest]; subst.
    destruct (paginate_delivered _ _ _ _ Hdel Hcur Hp (List.length pages + fuel)%nat w)
      as (out & w1 & F & E).
    assert (page_step p = Again next) as Hstep.
    { unfold page_step. destruct (page_records p); [contradiction|].
      now rewrite Hrel, Hnext. }
    rewrite Hstep in E. cbv zeta in E.
    assert (lookup "page_info"
              (turn_params (turn_params params page_info) (VStr next))
            = option_map VStr (Some next)) as Hcur'.
    { unfold turn_params at 1. simpl truthy.
      rewrite (take_cursor_found _ _ Hnext). simpl. apply lookup_dict_set. }
    destruct (IH _ _ _ _ Hlink Hrest Hcur' fuel w1)
      as (t & w2 & params' & page_info' & E' & Hlast & Hy & Hg & Hp' & Hpace).
    exists (EvGet (ask (turn_params params page_info)) :: map EvYield out
              ++ EvSleep 500 :: t)%list, w2, params', page_info'.
    split; [|split; [exact Hlast|]].
    + change (List.length (p :: pages) + fuel)%nat with (S (List.length pages + fuel)).
      rewrite E, E'. cbv zeta. simpl. f_equal. f_equal. f_equal.
      rewrite <- app_assoc. simpl. reflexivity.
    + repeat split.
      * simpl. rewrite yields_app, yields_rows. apply Forall2_app; [exact F|].
        simpl. exact Hy.
      * simpl. rewrite gets_app, gets_rows. simpl. now rewrite Hg.
      * simpl. rewrite prints_app, prints_rows. simpl. exact Hp'.
      * intros t'. simpl. rewrite <- app_assoc, paced_rows. simpl. apply Hpace.
Qed.

End LoopFacts.

(** ** The generators *)

Section StreamFacts.
Context {W : Type} {HW : World W}.

Lemma extract_paginate (k : kind) (fuel : nat) (w : W) :
  extract k fuel w
  = paginate (kind_name k) (flatten k)
      (shop_base_url (of_option (environ w "STORE_ID")))
      (shop_headers (of_option (environ w "API_TOKEN")))
      fuel (initial_params k) VNone w.
Proof.
  destruct k; unfold extract, orders, products, customers;
    (rewrite (bind_silent (os_getenv "API_TOKEN") _ w w
                (of_option (environ w "API_TOKEN")) eq_refl);
     rewrite (bind_silent (os_getenv "STORE_ID") _ w w
                (of_option (environ w "STORE_ID")) eq_refl);
     reflexivity).
Qed.

Lemma records_flat_total (k : kind) (rows : list value) :
  Forall (fun r => record_ok k r = true) rows -> Forall (flat_total (flatten k)) rows.
Proof.
  intros H. induction H as [|r rows Hr _ IH]; constructor; [|exact IH].
  intros w. now apply flatten_total.
Qed.

Lemma pages_flat_total (k : kind) (pages : list page) :
  Forall (fun p => Forall (fun r => record_ok k r = true) (page_records p)) pages ->
  Forall (fun p => Forall (flat_total (flatten k)) (page_records p)) pages.
Proof.
  intros H. induction H as [|p pages Hp _ IH]; constructor; [|exact IH].
  now apply records_flat_total.
Qed.

Lemma initial_cursor (k : kind) :
  lookup "page_info" (turn_params (initial_params k) VNone) = option_map VStr None.
Proof. now destruct k. Qed.

(** Pages served along their next links are, when each header lists its
    next link first, the pages the loop comes to ask for. *)
Lemma paginated_linked (resource u : string) (pages : list page) (final : page) :
  forall cursor,
    paginated resource u cursor pages final ->
    Forall (fun p => page_records p <> []) pages ->
    Forall (fun p => next_link_first (page_link_text p)) pages ->
    exists last,
      linked resource u cursor pages last /\
      delivers resource u last final /\
      py_in rel_next (page_link_text final) = false.
Proof.
  induction pages as [|p pages IH]; simpl; intros cursor H Hne Hfirst.
  - destruct H as [Hd Hn]. now exists cursor.
  - destruct H as (Hd & next & Hnext & H).
    inversion Hne as [|? ? Hp Hrest]; subst.
    inversion Hfirst as [|? ? Hf Hfrest]; subst.
    destruct (next_link_first_cursor _ Hf) as [Hrel Hsame].
    destruct (IH _ H Hrest Hfrest) as (last & Hl & Hd' & Hn).
    exists last. repeat split; auto. exists next. split; [|exact Hl]. congruence.
Qed.

(** The run of a generator over pages that each announce a successor,
    followed by whatever the loop does at the cursor they lead to. *)
Lemma extract_linked (k : kind) (pages : list page) (last : option string) (fuel : nat)
    (w : W) :
  linked (kind_name k) (endpoint (kind_name k) w) None pages last ->
  Forall (fun p => Forall (fun r => record_ok k r = true) (page_records p)) pages ->
  exists t w' params page_info,
    extract k (List.length pages + fuel) w
    = (let rest := paginate (kind_name k) (flatten k)
                     (shop_base_url (of_option (environ w "STORE_ID")))
                     (shop_headers (of_option (environ w "API_TOKEN")))
                     fuel params page_info w' in
       ((t ++ trace_of rest)%list, world_of rest, result_of rest)) /\
    lookup "page_info" (turn_params params page_info) = option_map VStr last /\
    Forall2 (flat_of k) (List.concat (map page_records pages)) (yields t) /\
    List.length (gets t) = List.length pages /\
    prints t = [] /\
    (forall t', paced_from true (t ++ t') = paced_from true t').
Proof.
  intros Hlink Hok. rewrite extract_paginate.
  exact (paginate_linked (kind_name k) (flatten k) _ _ pages None last
           (initial_params k) VNone Hlink (pages_flat_total k _ Hok) (initial_cursor k)
           fuel w).
Qed.

(** C1 (amended). Against a server with [N] pages, each of the first [N-1]
    non-empty, with a [Link] header that lists its next link first and the
    next page served at the [page_info] of that link, the last without the
    next relation, and all records well-formed, the generator of each kind
    finishes, yields the flat records of all pages' records in page order,
    issues exactly [N] requests, and pauses 0.5 s between any two
    consecutive requests. *)
Theorem pagination_yields_every_page (k : kind) (pages : list page) (final : page)
    (fuel : nat) (w : W) :
  paginated (kind_name k) (endpoint (kind_name k) w) None pages final ->
  Forall (fun p => page_records p <> []) pages ->
  Forall (fun p => next_link_first (page_link_text p)) pages ->
  Forall (fun p => Forall (fun r => record_ok k r = true) (page_records p))
    (pages ++ [final]) ->
  (List.length pages < fuel)%nat ->
  exists t w',
    extract k fuel w = (t, w', Ok Finished) /\
    Forall2 (flat_of k) (List.concat (map page_records (pages ++ [final]))) (yields t) /\
    List.length (gets t) = S (List.length pages) /\
    paced t = true.
Proof.
  intros Hpag Hne Hfirst Hok Hfuel.
  destruct (paginated_linked _ _ _ _ _ Hpag Hne Hfirst) as (last & Hlink & Hdel & Hnorel).
  apply Forall_app in Hok as [Hok Hfin]. inversion Hfin as [|? ? Hfinal _]; subst.
  replace fuel with (List.length pages + S (fuel - S (List.length pages)))%nat by lia.
  destruct (extract_linked k pages last (S (fuel - S (List.length pages))) w Hlink Hok)
    as (t & w1 & params & page_info & E & Hcur & Hy & Hg & _ & Hpace).
  destruct (paginate_delivered (kind_name k) (flatten k)
              (shop_base_url (of_option (environ w "STORE_ID")))
              (shop_headers (of_option (environ w "API_TOKEN"))) _ _ _ _ Hdel Hcur
              (records_flat_total k _ Hfinal) (fuel - S (List.length pages))%nat w1)
    as (out & w2 & F & E2).
  assert (page_step final = Break) as Hstep.
  { unfold page_step. destruct (page_records final); [reflexivity|]. now rewrite Hnorel. }
  rewrite Hstep in E2. rewrite E2 in E. cbv zeta in E. simpl in E.
  eexists. exists w2. split; [exact E|]. repeat split.
  - rewrite map_app, concat_app, yields_app. apply Forall2_app; [exact Hy|].
    simpl. rewrite yields_rows, app_nil_r. exact F.
  - rewrite gets_app. simpl. rewrite gets_rows, length_app. simpl. lia.
  - unfold paced. rewrite Hpace. simpl.
    rewrite <- (app_nil_r (map EvYield out)). now rewrite paced_rows.
Qed.

(** C6. When the pages before announce their successors and the current
    page has the next relation in its [Link] header but nothing the pattern
    can take as [page_info], the generator yields the records of that page
    and finishes: no exception, no further request, nothing printed. *)
Theorem unparseable_cursor_ends_stream (k : kind) (pages : list page) (current : page)
    (last : option string) (fuel : nat) (w : W) :
  linked (kind_name k) (endpoint (kind_name k) w) None pages last ->
  delivers (kind_name k) (endpoint (kind_name k) w) last current ->
  py_in rel_next (page_link_text current) = true ->
  re_search_page_info (page_link_text current) = None ->
  Forall (fun p => Forall (fun r => record_ok k r = true) (page_records p))
    (pages ++ [current]) ->
  (List.length pages < fuel)%nat ->
  exists t w',
    extract k fuel w = (t, w', Ok Finished) /\
    Forall2 (flat_of k) (List.concat (map page_records (pages ++ [current]))) (yields t) /\
    List.length (gets t) = S (List.length pages) /\
    prints t = [].
Proof.
  intros Hlink Hdel Hrel Hnone Hok Hfuel.
  apply Forall_app in Hok as [Hok Hfin]. inversion Hfin as [|? ? Hcurrent _]; subst.
  replace fuel with (List.length pages + S (fuel - S (List.length pages)))%nat by lia.
  destruct (extract_linked k pages last (S (fuel - S (List.length pages))) w Hlink Hok)
    as (t & w1 & params & page_info & E & Hcur & Hy & Hg & Hp & _).
  destruct (paginate_delivered (kind_name k) (flatten k)
              (shop_base_url (of_option (environ w "STORE_ID")))
              (shop_headers (of_option (environ w "API_TOKEN"))) _ _ _ _ Hdel Hcur
              (records_flat_total k _ Hcurrent) (fuel - S (List.length pages))%nat w1)
    as (out & w2 & F & E2).
  assert (page_step current = Break) as Hstep.
  { unfold page_step. destruct (page_records current); [reflexivity|].
    now rewrite Hrel, Hnone. }
  rewrite Hstep in E2. rewrite E2 in E. cbv zeta in E. simpl in E.
  eexists. exists w2. split; [exact E|]. repeat split.
  - rewrite map_app, concat_app, yields_app. apply Forall2_app; [exact Hy|].
    simpl. rewrite yields_rows, app_nil_r. exact F.
  - rewrite gets_app. simpl. rewrite gets_rows, length_app. simpl. lia.
  - rewrite prints_app, Hp. simpl. now rewrite prints_rows.
Qed.


End StreamFacts.

(** ** Scripted servers *)

Lemma scripted_delivers_first (resource : string) (first : page)
    (later : list (string * page)) (otherwise : request -> exn + response)
    (env : string -> option string) (u : string) :
  delivers (HW := scripted (paged_server resource first later otherwise) env)
    resource u None first.
Proof.
  intros req w _ Hc. exists (page_response resource (req_url req) first).
  simpl. unfold paged_server. rewrite Hc. simpl.
  repeat split. eexists. split; [reflexivity|].
  simpl. now rewrite String.eqb_refl.
Qed.

Lemma scripted_delivers_later (resource : string) (first : page)
    (later : list (string * page)) (otherwise : request -> exn + response)
    (env : string -> option string) (u c c' : string) (p : page) :
  find (fun cp => String.eqb c (fst cp)) later = Some (c', p) ->
  delivers (HW := scripted (paged_server resource first later otherwise) env)
    resource u (Some c) p.
Proof.
  intros Hfind req w _ Hc. exists (page_response resource (req_url req) p).
  simpl. unfold paged_server. rewrite Hc. simpl. rewrite Hfind.
  repeat split. eexists. split; [reflexivity|].
  simpl. now rewrite String.eqb_refl.
Qed.


(** The header of the first page of the example lists its next link
    first. *)
Lemma link_to_next_first (resource cursor : string) :
  py_in "," resource = false -> py_in "," cursor = false ->
  re_search_page_info
    ("https://demo.myshopify.com/admin/api/2024-01/" ++ resource
       ++ ".json?limit=250&page_info=" ++ cursor) <> None ->
  next_link_first (link_to resource cursor "next").
Proof.
  intros Hr Hc Hfound.
  exists ("https://demo.myshopify.com/admin/api/2024-01/" ++ resource
            ++ ".json?limit=250&page_info=" ++ cursor),
    ("; rel=" ++ dquote ++ "next" ++ dquote), EmptyString.
  split; [|split; [|split; [now left|split; [reflexivity|exact Hfound]]]].
  - unfold link_to. rewrite !append_assoc, append_nil_r. reflexivity.
  - rewrite !py_in_comma_app, Hr, Hc. reflexivity.
Qed.

Lemma pagination_yields_every_page_witness :
  exists t w',
    extract (HW := two_pages) Orders 5 0%nat = (t, w', Ok Finished) /\
    Forall2 (flat_of (HW := two_pages) Orders)
      (List.concat (map page_records ([first_of_two] ++ [second_of_two]))) (yields t) /\
    List.length (gets t) = 2%nat /\
    paced t = true.
Proof.
  apply (pagination_yields_every_page (HW := two_pages) Orders [first_of_two]
           second_of_two 5 0%nat).
  - simpl. split; [apply scripted_delivers_first|].
    exists "abc". split; [reflexivity|]. split; [|reflexivity].
    now apply (scripted_delivers_later _ _ _ _ _ _ "abc" "abc").
  - repeat constructor. discriminate.
  - repeat constructor. apply link_to_next_first; [reflexivity|reflexivity|discriminate].
  - repeat constructor.
  - simpl. lia.
Defined.

(** C1, as stated, fails where a page before the last is empty: the server
    below has two pages, the first with a next link, listed first, and the
    second without, as the claim asks; the generator stops at the empty
    first page, after one request, and the order of the second page is
    never yielded. *)
Lemma empty_page_stops_pagination :
  paginated (HW := empty_then_one) "orders"
    (endpoint (HW := empty_then_one) "orders" 0%nat) None [empty_first] second_of_two /\
  next_link_first (page_link_text empty_first) /\
  List.concat (map page_records ([empty_first] ++ [second_of_two])) = [order_1003] /\
  exists t w',
    extract (HW := empty_then_one) Orders 5 0%nat = (t, w', Ok Finished) /\
    yields t = [] /\
    ~ Forall2 (flat_of (HW := empty_then_one) Orders)
        (List.concat (map page_records ([empty_first] ++ [second_of_two]))) (yields t) /\
    List.length (gets t) = 1%nat /\
    List.length (gets t) <> List.length ([empty_first] ++ [second_of_two]).
Proof.
  split; [|split; [|split; [reflexivity|]]].
  - simpl. split; [apply scripted_delivers_first|].
    exists "abc". split; [reflexivity|]. split; [|reflexivity].
    now apply (scripted_delivers_later _ _ _ _ _ _ "abc" "abc").
  - apply link_to_next_first; [reflexivity|reflexivity|discriminate].
  - eexists. eexists. split; [reflexivity|]. repeat split.
    + simpl. intros H. inversion H.
    + simpl. discriminate.
Qed.

Lemma unparseable_cursor_ends_stream_witness :
  exists t w',
    extract (HW := one_page_no_cursor) Orders 3 0%nat = (t, w', Ok Finished) /\
    Forall2 (flat_of (HW := one_page_no_cursor) Orders)
      (List.concat (map page_records ([] ++ [page_without_cursor]))) (yields t) /\
    List.length (gets t) = 1%nat /\
    prints t = [].
Proof.
  apply (unparseable_cursor_ends_stream (HW := one_page_no_cursor) Orders []
           page_without_cursor None 3 0%nat).
  - reflexivity.
  - apply scripted_delivers_first.
  - reflexivity.
  - reflexivity.
  - repeat constructor.
  - simpl. lia.
Defined.


(** The spec's example: two orders and a next link to [abc], then one order
    and no [Link] header: three rows, two requests, one pause between
    them. *)
Example spec_example_two_pages :
  let t := trace_of (orders (HW := two_pages) 250 "any" 5 0%nat) in
  map row_id (yields t) = [Some (VInt 1001); Some (VInt 1002); Some (VInt 1003)] /\
  map cursor_of (gets t) = [None; Some (VStr "abc")] /\
  filter (fun ev => match ev with EvSleep _ => true | _ => false end) t = [EvSleep 500] /\
  paced t = true /\
  result_of (orders (HW := two_pages) 250 "any" 5 0%nat) = Ok Finished.
Proof. repeat split; reflexivity. Qed.

(** After a failed fetch of orders, [__main__] goes on to products and
    customers. *)
Example failure_leaves_later_streams :
  let out := extract_all (HW := page_then_401) 4 0%nat in
  result_of out = Ok tt /\
  map req_url (gets (trace_of out))
  = [ "https://demo.myshopify.com/admin/api/2024-01/orders.json";
      "https://demo.myshopify.com/admin/api/2024-01/orders.json";
      "https://demo.myshopify.com/admin/api/2024-01/products.json";
      "https://demo.myshopify.com/admin/api/2024-01/customers.json" ].
Proof. split; reflexivity. Qed.

(** An order whose [customer] is a text raises in the display. *)
Example order_with_text_customer_raises :
  result_of (order_flat (HW := two_pages) (VDict [("customer", VStr "x")]) 0%nat)
  = Raise (AttributeError "'str' object has no attribute 'get'").
Proof. reflexivity. Qed.

(** ** The cursor taken from a [Link] header *)

(** C2 (the code departs from it). On the header of a middle page, which
    lists the previous link before the next one, the header has the next
    relation, the pattern of the loop takes the [page_info] of the previous
    link, and the [page_info] of the next link is another one; the request
    that follows carries the previous cursor. *)
Theorem cursor_taken_from_first_link :
  py_in rel_next middle_link = true /\
  re_search_page_info middle_link = Some "PREV" /\
  next_link_page_info middle_link = Some "NEXT" /\
  map cursor_of (gets (trace_of (orders (HW := three_pages) 250 "any" 3 0%nat)))
  = [None; Some (VStr "abc"); Some (VStr "PREV")].
Proof. repeat split; reflexivity. Qed.

(** The three-page server serves its pages along their next links, none of
    them empty; the header of its middle page lists the previous link first,
    and the loop, which takes the first cursor of a header, goes back to the
    first page and never asks for the third. *)
Example previous_link_first_misleads_loop :
  paginated (HW := three_pages) "orders" (endpoint (HW := three_pages) "orders" 0%nat) None
    [first_of_two; middle_of_three] third_of_three /\
  ~ next_link_first (page_link_text middle_of_three) /\
  map cursor_of (gets (trace_of (extract (HW := three_pages) Orders 6 0%nat)))
  = [ None; Some (VStr "abc"); Some (VStr "PREV"); Some (VStr "abc"); Some (VStr "PREV");
      Some (VStr "abc") ] /\
  result_of (extract (HW := three_pages) Orders 6 0%nat) = Ok OutOfFuel /\
  existsb (fun row => if value_eq_dec (VInt 1004)
                           (match row_id row with Some v => v | None => VNone end)
                      then true else false)
    (yields (trace_of (extract (HW := three_pages) Orders 6 0%nat))) = false.
Proof.
  split; [|split; [|repeat split; reflexivity]].
  - simpl. split; [apply scripted_delivers_first|].
    exists "abc". split; [reflexivity|].
    split; [now apply (scripted_delivers_later _ _ _ _ _ _ "abc" "abc")|].
    exists "NEXT". split; [reflexivity|].
    split; [now apply (scripted_delivers_later _ _ _ _ _ _ "NEXT" "NEXT")|reflexivity].
  - intros H. apply next_link_first_cursor in H as [_ H]. discriminate H.
Qed.

(** On a header with a single link, the pattern takes its cursor. *)
Example cursor_of_single_link :
  re_search_page_info (link_to "orders" "abc" "next") = Some "abc" /\
  next_link_page_info (link_to "orders" "abc" "next") = Some "abc".
Proof. split; reflexivity. Qed.

(** ** Runs against an unchanged store *)

Lemma rows_agree_refl (d : dict) : rows_agree d d.
Proof. induction d as [|x d IH]; constructor; [split; auto|exact IH]. Qed.

Lemma ev_agree_refl (ev : event) : ev_agree ev ev.
Proof. destruct ev; simpl; auto. apply rows_agree_refl. Qed.

Lemma evs_agree_refl (t : list event) : Forall2 ev_agree t t.
Proof. induction t; constructor; [apply ev_agree_refl|assumption]. Qed.

Lemma agree_ids (t1 t2 : list event) :
  Forall2 ev_agree t1 t2 -> map row_id (yields t1) = map row_id (yields t2).
Proof.
  intros H. induction H as [|a b t1 t2 Hab _ IH]; [reflexivity|].
  destruct a, b; simpl in *; try discriminate; try exact IH.
  f_equal; [|exact IH]. unfold row_id. apply rows_agree_lookup; [exact Hab|discriminate].
Qed.

Section Steady.
Context {W : Type} {HW : World W}.
Hypothesis same_answers : forall req (w w' : W), fst (send req w) = fst (send req w').
Hypothesis same_environ : forall name (w w' : W), environ w name = environ w' name.

Lemma steady_ret {A} (a : A) : steady (W := W) (ret a).
Proof. intros w1 w2. split; [constructor|reflexivity]. Qed.

Lemma steady_lift {A} (r : result A) : steady (W := W) (lift r).
Proof. intros w1 w2. split; [constructor|reflexivity]. Qed.

Lemma steady_raise {A} (e : exn) : steady (W := W) (raise (A := A) e).
Proof. intros w1 w2. split; [constructor|reflexivity]. Qed.

Lemma steady_print (line : string) : steady (W := W) (print line).
Proof.
  intros w1 w2. unfold print. destruct (stdout_error line).
  - apply steady_raise.
  - split; [apply evs_agree_refl|reflexivity].
Qed.

Lemma steady_bind {A B} (m : prog W A) (f : A -> prog W B) :
  steady m -> (forall a, steady (f a)) -> steady (bind m f).
Proof.
  intros Hm Hf w1 w2. specialize (Hm w1 w2). unfold bind, outs_agree in *.
  destruct (m w1) as [[t1 w1'] r1]. destruct (m w2) as [[t2 w2'] r2].
  simpl in Hm. destruct Hm as [Ht Hr]. subst r2.
  destruct r1 as [a|e]; [|now split].
  specialize (Hf a w1' w2').
  destruct (f a w1') as [[t1' w1''] r1']. destruct (f a w2') as [[t2' w2''] r2'].
  simpl in *. destruct Hf as [Ht' Hr']. split; [now apply Forall2_app|exact Hr'].
Qed.

Lemma steady_try_except {A} (body : prog W A) (handler : exn -> prog W A) :
  steady body -> (forall e, steady (handler e)) -> steady (try_except body handler).
Proof.
  intros Hm Hf w1 w2. specialize (Hm w1 w2). unfold try_except, outs_agree in *.
  destruct (body w1) as [[t1 w1'] r1]. destruct (body w2) as [[t2 w2'] r2].
  simpl in Hm. destruct Hm as [Ht Hr]. subst r2.
  destruct r1 as [a|e]; [now split|].
  specialize (Hf e w1' w2').
  destruct (handler e w1') as [[t1' w1''] r1']. destruct (handler e w2') as [[t2' w2''] r2'].
  simpl in *. destruct Hf as [Ht' Hr']. split; [now apply Forall2_app|exact Hr'].
Qed.

Lemma steady_requests_get (u : string) (headers params : dict) :
  steady (requests_get u headers params).
Proof.
  intros w1 w2. unfold requests_get, outs_agree.
  pose proof (same_answers {| req_url := u; req_headers := headers; req_params := params |}
                w1 w2) as H.
  destruct (send _ w1) as [a1 w1']. destruct (send _ w2) as [a2 w2'].
  simpl in *. subst a2. split; [apply evs_agree_refl|reflexivity].
Qed.

Lemma steady_time_sleep (ms : Z) : steady (time_sleep ms).
Proof. intros w1 w2. split; [apply evs_agree_refl|reflexivity]. Qed.

Lemma steady_os_getenv (name : string) : steady (os_getenv name).
Proof.
  intros w1 w2. unfold os_getenv, outs_agree. simpl.
  split; [constructor|]. now rewrite (same_environ name w1 w2).
Qed.

(** Flattening a record and yielding the row. *)
Lemma steady_flatten_yield (k : kind) (record : value) :
  steady (row <- flatten k record ;; yield row).
Proof.
  intros w1 w2. unfold bind, yield, emit, outs_agree, flatten.
  pose proof (dict_display_agree _ record (flat_items_regular k) w1 w2) as A.
  pose proof (dict_display_silent _ record (flat_items_regular k) w1) as S1.
  pose proof (dict_display_silent _ record (flat_items_regular k) w2) as S2.
  destruct (dict_display (flat_items k) record w1) as [[t1 w1'] r1].
  destruct (dict_display (flat_items k) record w2) as [[t2 w2'] r2].
  simpl in *. subst t1 t2.
  destruct r1 as [d1|e1], r2 as [d2|e2]; try contradiction; simpl.
  - split; [|reflexivity]. constructor; [exact A|constructor].
  - subst e2. split; [constructor|reflexivity].
Qed.

Lemma steady_for_each {A} (items : list A) (body : A -> prog W unit) :
  (forall x, steady (body x)) -> steady (for_each items body).
Proof.
  intros Hb. induction items as [|x items IH]; simpl.
  - apply steady_ret.
  - apply steady_bind; [apply Hb|intros _; exact IH].
Qed.

Lemma steady_fetch_page (k : kind) (base_url : string) (headers params : dict) :
  steady (fetch_page (kind_name k) (flatten k) base_url headers params).
Proof.
  unfold fetch_page.
  apply steady_bind; [apply steady_requests_get|intros response].
  apply steady_bind; [apply steady_lift|intros _].
  apply steady_bind; [apply steady_lift|intros data].
  apply steady_bind; [apply steady_lift|intros records].
  destruct (negb (truthy records)); [apply steady_ret|].
  apply steady_bind; [apply steady_lift|intros rows].
  apply steady_bind.
  - unfold yield_rows. apply steady_for_each. intros record. apply steady_flatten_yield.
  - intros _. cbv zeta.
    destruct (py_in rel_next (link_header_of response)); [|apply steady_ret].
    destruct (re_search_page_info (link_header_of response)); [|apply steady_ret].
    apply steady_bind; [apply steady_time_sleep|intros _; apply steady_ret].
Qed.

Lemma steady_on_request_exception (resource : string) (e : exn) :
  steady (W := W) (on_request_exception resource e).
Proof.
  unfold on_request_exception. destruct (is_request_exception e).
  - apply steady_bind; [apply steady_print|intros _; apply steady_ret].
  - apply steady_raise.
Qed.

Lemma steady_paginate (k : kind) (base_url : string) (headers : dict) (fuel : nat) :
  forall params page_info,
    steady (paginate (kind_name k) (flatten k) base_url headers fuel params page_info).
Proof.
  induction fuel as [|fuel IH]; intros params page_info; cbn [paginate].
  - apply steady_ret.
  - apply steady_bind.
    + apply steady_try_except; [apply steady_fetch_page|].
      intros e. apply steady_on_request_exception.
    + intros [|cursor]; [apply steady_ret|apply IH].
Qed.

Lemma steady_extract (k : kind) (fuel : nat) : steady (extract k fuel).
Proof.
  destruct k; unfold extract, orders, products, customers;
    (apply steady_bind; [apply steady_os_getenv|intros api_token];
     apply steady_bind; [apply steady_os_getenv|intros store_id]).
  - exact (steady_paginate Orders _ _ fuel _ _).
  - exact (steady_paginate Products _ _ fuel _ _).
  - exact (steady_paginate Customers _ _ fuel _ _).
Qed.

End Steady.

(** ** Merging by primary key *)

Lemma same_id_iff (a b : dict) : same_id a b = true <-> row_id a = row_id b.
Proof.
  unfold same_id. destruct (row_id a) as [x|], (row_id b) as [y|].
  - destruct (value_eq_dec x y); split; congruence.
  - split; discriminate.
  - split; discriminate.
  - split; reflexivity.
Qed.

Lemma upsert_has_own_id (row : dict) (table : list dict) :
  has_id (row_id row) (upsert row table).
Proof.
  induction table as [|old rest IH]; simpl.
  - exists row. split; [now left|reflexivity].
  - destruct (same_id old row).
    + exists row. split; [now left|reflexivity].
    + destruct IH as (r & Hin & Hr). exists r. split; [now right|exact Hr].
Qed.

Lemma upsert_keeps_ids (i : option value) (row : dict) (table : list dict) :
  has_id i table -> has_id i (upsert row table).
Proof.
  induction table as [|old rest IH]; intros (r & Hin & Hr); simpl in *.
  - contradiction.
  - destruct (same_id old row) eqn:E.
    + destruct Hin as [<-|Hin].
      * exists row. split; [now left|]. apply same_id_iff in E. congruence.
      * exists r. split; [now right|exact Hr].
    + destruct Hin as [<-|Hin].
      * exists old. split; [now left|exact Hr].
      * destruct IH as (r' & Hin' & Hr'); [now exists r|].
        exists r'. split; [now right|exact Hr'].
Qed.

Lemma upsert_known_id (row : dict) (table : list dict) :
  has_id (row_id row) table ->
  List.length (upsert row table) = List.length table.
Proof.
  induction table as [|old rest IH]; intros (r & Hin & Hr); simpl in *.
  - contradiction.
  - destruct (same_id old row) eqn:E; [reflexivity|].
    simpl. f_equal. apply IH. destruct Hin as [<-|Hin].
    + apply same_id_iff in Hr. congruence.
    + now exists r.
Qed.

Lemma merge_load_keeps_ids (i : option value) (rows : list dict) :
  forall table, has_id i table -> has_id i (merge_load rows table).
Proof.
  induction rows as [|row rows IH]; intros table H; simpl; [exact H|].
  apply IH. now apply upsert_keeps_ids.
Qed.

Lemma merge_load_has_ids (rows : list dict) :
  forall table i, In i (map row_id rows) -> has_id i (merge_load rows table).
Proof.
  induction rows as [|row rows IH]; intros table i Hin; simpl in *; [contradiction|].
  destruct Hin as [<-|Hin].
  - apply merge_load_keeps_ids. apply upsert_has_own_id.
  - now apply IH.
Qed.

Lemma merge_load_known_ids (rows : list dict) :
  forall table,
    (forall i, In i (map row_id rows) -> has_id i table) ->
    List.length (merge_load rows table) = List.length table.
Proof.
  induction rows as [|row rows IH]; intros table H; simpl; [reflexivity|].
  rewrite IH.
  - apply upsert_known_id. apply H. now left.
  - intros i Hin. apply upsert_keeps_ids. apply H. now right.
Qed.

(** Loading again rows whose keys were loaded before adds no row. *)
Lemma merge_load_again (rows rows' table : list dict) :
  map row_id rows' = map row_id rows ->
  List.length (merge_load rows' (merge_load rows table))
  = List.length (merge_load rows table).
Proof.
  intros Hids. apply merge_load_known_ids. intros i Hin.
  rewrite Hids in Hin. now apply merge_load_has_ids.
Qed.

(** C8. Against an unchanged store (the server answers a request the same
    way whenever it is asked, and the environment is the same), a second
    extraction ends as the first and yields rows with the same keys, and
    loading them by merge on [id] into the table the first load left keeps
    the number of rows of that table. *)
Theorem reload_keeps_row_count {W : Type} {HW : World W} (k : kind) (fuel : nat)
    (w1 w2 : W) (table : list dict) :
  (forall req (w w' : W), fst (send req w) = fst (send req w')) ->
  (forall name (w w' : W), environ w name = environ w' name) ->
  result_of (extract k fuel w2) = result_of (extract k fuel w1) /\
  map row_id (yields (trace_of (extract k fuel w2)))
  = map row_id (yields (trace_of (extract k fuel w1))) /\
  List.length (merge_load (yields (trace_of (extract k fuel w2)))
                 (merge_load (yields (trace_of (extract k fuel w1))) table))
  = List.length (merge_load (yields (trace_of (extract k fuel w1))) table).
Proof.
  intros Hsend Henv.
  destruct (steady_extract Hsend Henv k fuel w2 w1) as [Ht Hr].
  pose proof (agree_ids _ _ Ht) as Hids.
  split; [exact Hr|]. split; [exact Hids|]. now apply merge_load_again.
Qed.

Lemma reload_keeps_row_count_witness :
  result_of (extract (HW := two_pages) Orders 5 3%nat)
  = result_of (extract (HW := two_pages) Orders 5 0%nat) /\
  map row_id (yields (trace_of (extract (HW := two_pages) Orders 5 3%nat)))
  = map row_id (yields (trace_of (extract (HW := two_pages) Orders 5 0%nat))) /\
  List.length (merge_load (yields (trace_of (extract (HW := two_pages) Orders 5 3%nat)))
                 (merge_load (yields (trace_of (extract (HW := two_pages) Orders 5 0%nat)))
                    []))
  = List.length (merge_load (yields (trace_of (extract (HW := two_pages) Orders 5 0%nat)))
                   []).
Proof.
  apply (reload_keeps_row_count (HW := two_pages) Orders 5 3%nat 0%nat []);
    reflexivity.
Defined.

Example reload_two_pages :
  let rows := yields (trace_of (extract (HW := two_pages) Orders 5 0%nat)) in
  let rows' := yields (trace_of (extract (HW := two_pages) Orders 5 3%nat)) in
  List.length (merge_load rows []) = 3%nat /\
  List.length (merge_load rows' (merge_load rows [])) = 3%nat /\
  merge_load rows' (merge_load rows []) = rows'.
Proof. repeat split; reflexivity. Qed.

(** ** The connectivity probe *)

Section ProbeFacts.
Context {W : Type} {HW : World W}.

(** On a [sys.stdout] that encodes every text, every [except] clause
    returns [False] and leaves the world as it is. *)
Lemma on_probe_exception_false (e : exn) (w : W) :
  (forall line, stdout_error line = None) ->
  exists t, on_probe_exception e w = (t, w, Ok false).
Proof.
  intros wide.
  destruct e as [m|status m|m|key|m|m|m|m|cls m]; unfold on_probe_exception, print;
    [ | destruct (status =? 401); [|destruct (status =? 404)] | | | | | | | ];
    rewrite !wide; eexists; reflexivity.
Qed.

(** On a [sys.stdout] that cannot encode the ballot x, every [except]
    clause raises at its first [print]. *)
Lemma on_probe_exception_raises (e : exn) (w : W) :
  (forall line, has_prefix cross_mark line = true -> stdout_error line <> None) ->
  exists msg, on_probe_exception e w = ([], w, Raise (UnicodeEncodeError msg)).
Proof.
  intros narrow.
  assert (forall detail,
             exists msg, stdout_error (cross_mark ++ detail) = Some msg) as K.
  { intros detail. pose proof (narrow (cross_mark ++ detail) eq_refl) as H.
    destruct (stdout_error (cross_mark ++ detail)) as [msg|]; [now exists msg|now elim H]. }
  destruct e as [m|status m|m|key|m|m|m|m|cls m]; unfold on_probe_exception;
    [ | destruct (status =? 401); [|destruct (status =? 404)] | | | | | | | ];
    match goal with
    | |- context [print (cross_mark ++ ?detail)] =>
        destruct (K detail) as (msg & E); exists msg; unfold bind, print; rewrite E;
        reflexivity
    end.
Qed.

(** In the module as written the first statement of the [try] raises. *)
Lemma connection_checks_name_error (w : W) :
  connection_checks probe_globals w = ([], w, Raise name_error_os).
Proof. reflexivity. Qed.

(** With [os] bound and no [API_TOKEN], slicing the token raises. *)
Lemma connection_checks_no_token (globals : list string) (w : W) :
  (forall line, stdout_error line = None) ->
  existsb (String.eqb "os") globals = true ->
  environ w "API_TOKEN" = None ->
  connection_checks globals w
  = ([EvPrint ("Testing connection to: "
                 ++ (py_str (of_option (environ w "STORE_ID")) ++ ".myshopify.com"))],
     w, Raise (TypeError "'NoneType' object is not subscriptable")).
Proof.
  intros wide Hos Htok. unfold connection_checks, global_name. rewrite Hos.
  unfold os_getenv, bind, ret, print, emit, lift. rewrite Htok, wide. reflexivity.
Qed.

(** C10 (the code departs from it). On a [sys.stdout] that cannot encode
    U+2717, the character every [except] clause prints first, the probe
    lets an exception out instead of returning [False]: whatever exception
    the body of the [try] raises, the [print] of the clause that takes it
    raises [UnicodeEncodeError], which leaves the function; as the module is
    written, this is what every run does, before anything is printed. *)
Theorem print_error_leaves_the_probe (globals : list string) (w : W) :
  (forall line, has_prefix cross_mark line = true -> stdout_error line <> None) ->
  (forall e,
      result_of (connection_checks globals w) = Raise e ->
      exists msg,
        result_of (test_shopify_connection_in globals w) = Raise (UnicodeEncodeError msg)) /\
  exists msg, test_shopify_connection w = ([], w, Raise (UnicodeEncodeError msg)).
Proof.
  intros narrow. split.
  - intros e He. unfold test_shopify_connection_in, try_except.
    destruct (connection_checks globals w) as [[t w1] r]. simpl in He. subst r.
    destruct (on_probe_exception_raises e w1 narrow) as (msg & ->). now exists msg.
  - unfold test_shopify_connection, test_shopify_connection_in, try_except.
    rewrite connection_checks_name_error.
    destruct (on_probe_exception_raises name_error_os w narrow) as (msg & ->).
    now exists msg.
Qed.

(** C9 (the code departs from it). As the module is written, the probe
    reports every run as an unexpected error, whatever the failure: the name
    [os] is not bound (and where [sys.stdout] cannot encode the line of the
    report, nothing is reported).  Were [os] bound, a missing [API_TOKEN]
    would still be reported as an unexpected error and not as a
    configuration error, since [os.getenv] returns [None] and raises no
    [KeyError]. *)
Theorem missing_credential_reported_as_unexpected (w : W) :
  test_shopify_connection w
  = match stdout_error (cross_mark ++ " Unexpected error: name 'os' is not defined") with
    | None =>
        ([EvPrint (cross_mark ++ " Unexpected error: name 'os' is not defined")], w,
         Ok false)
    | Some msg => ([], w, Raise (UnicodeEncodeError msg))
    end /\
  reported_class (prints (trace_of (test_shopify_connection w)))
  = match stdout_error (cross_mark ++ " Unexpected error: name 'os' is not defined") with
    | None => Some UnexpectedError
    | Some _ => None
    end /\
  reported_class
    (prints (trace_of (test_shopify_connection_in (HW := no_token) ["os"] 0%nat)))
  = Some UnexpectedError /\
  result_of (test_shopify_connection_in (HW := no_token) ["os"] 0%nat) = Ok false.
Proof.
  assert (test_shopify_connection w
          = match stdout_error (cross_mark ++ " Unexpected error: name 'os' is not defined")
            with
            | None =>
                ([EvPrint (cross_mark ++ " Unexpected error: name 'os' is not defined")], w,
                 Ok false)
            | Some msg => ([], w, Raise (UnicodeEncodeError msg))
            end) as E.
  { unfold test_shopify_connection, test_shopify_connection_in, try_except.
    rewrite connection_checks_name_error.
    change (on_probe_exception name_error_os w)
      with ((print (cross_mark ++ " Unexpected error: name 'os' is not defined") ;;
             ret false) w).
    unfold bind, print.
    destruct (stdout_error (cross_mark ++ " Unexpected error: name 'os' is not defined"));
      reflexivity. }
  split; [exact E|]. split; [|split; reflexivity].
  rewrite E.
  destruct (stdout_error (cross_mark ++ " Unexpected error: name 'os' is not defined"));
    reflexivity.
Qed.

(** Whatever names the module binds, a missing [API_TOKEN] is reported as an
    unexpected error, where [sys.stdout] encodes every text. *)
Lemma missing_token_never_configuration_error (globals : list string) (w : W) :
  (forall line, stdout_error line = None) ->
  environ w "API_TOKEN" = None ->
  reported_class (prints (trace_of (test_shopify_connection_in globals w)))
  = Some UnexpectedError /\
  result_of (test_shopify_connection_in globals w) = Ok false.
Proof.
  intros wide Htok. unfold test_shopify_connection_in, try_except.
  destruct (existsb (String.eqb "os") globals) eqn:Hos.
  - rewrite (connection_checks_no_token globals w wide Hos Htok).
    unfold on_probe_exception, bind, print. rewrite wide. split; reflexivity.
  - unfold connection_checks, global_name. rewrite Hos.
    unfold on_probe_exception, bind, print, raise. rewrite wide. split; reflexivity.
Qed.

End ProbeFacts.

(** Code page 1252 has no U+2717: it encodes no text that opens with it. *)
Lemma cp1252_lacks_ballot_x (line : string) :
  has_prefix cross_mark line = true -> encode_error cp1252_codec line <> None.
Proof.
  unfold has_prefix. destruct (drop_prefix cross_mark line) as [rest|] eqn:D; [|discriminate].
  intros _. apply drop_prefix_sound in D. subst line.
  unfold encode_error, utf8_chars. simpl.
  now destruct (_ (map code_point (utf8_chars_from 0 EmptyString rest))) as [|? [|? ?]].
Qed.

Lemma print_error_leaves_the_probe_witness :
  (forall e,
      result_of (connection_checks (HW := narrow_stdout) ["os"] 0%nat) = Raise e ->
      exists msg,
        result_of (test_shopify_connection_in (HW := narrow_stdout) ["os"] 0%nat)
        = Raise (UnicodeEncodeError msg)) /\
  exists msg,
    test_shopify_connection (HW := narrow_stdout) 0%nat
    = ([], 0%nat, Raise (UnicodeEncodeError msg)).
Proof.
  apply (print_error_leaves_the_probe (HW := narrow_stdout) ["os"] 0%nat).
  exact cp1252_lacks_ballot_x.
Defined.

(** The run of the module as written on a [sys.stdout] in code page 1252. *)
Example probe_on_cp1252 :
  test_shopify_connection (HW := narrow_stdout) 0%nat
  = ([], 0%nat,
     Raise (UnicodeEncodeError
              ("'charmap' codec can't encode character '\u2717' in position 0: "
                 ++ "character maps to <undefined>"))).
Proof. reflexivity. Qed.

(** With [os] bound, valid credentials and a server that answers 401, the
    body fails at its first check and the report of the failure raises. *)
Example probe_401_on_cp1252 :
  test_shopify_connection_in (HW := narrow_stdout) ["os"] 0%nat
  = ([ EvPrint "Testing connection to: demo.myshopify.com";
       EvPrint "API Token: shpat_0123...cdef (truncated for security)";
       EvPrint (newline ++ "1. Testing shop information...");
       EvGet {| req_url := "https://demo.myshopify.com/admin/api/2024-01/shop.json";
                req_headers := shop_headers (VStr "shpat_0123456789abcdef");
                req_params := [] |} ],
     0%nat,
     Raise (UnicodeEncodeError
              ("'charmap' codec can't encode character '\u2717' in position 0: "
                 ++ "character maps to <undefined>"))).
Proof. reflexivity. Qed.

(** With [os] bound, valid credentials and a server that answers every
    check, the probe returns [True]. *)
Example probe_passes :
  result_of (test_shopify_connection_in (HW := two_pages) ["os"] 0%nat) = Ok true /\
  map req_url (gets (trace_of (test_shopify_connection_in (HW := two_pages) ["os"] 0%nat)))
  = [ "https://demo.myshopify.com/admin/api/2024-01/shop.json";
      "https://demo.myshopify.com/admin/api/2024-01/orders/count.json";
      "https://demo.myshopify.com/admin/api/2024-01/products/count.json";
      "https://demo.myshopify.com/admin/api/2024-01/customers/count.json" ].
Proof. split; reflexivity. Qed.

(** With [os] bound and a server that answers 401, the probe reports an
    authentication error with the scopes. *)
Example probe_reports_401 :
  let out := test_shopify_connection_in (HW := scripted unauthorized demo_env) ["os"] 0%nat in
  result_of out = Ok false /\
  reported_class (prints (trace_of out)) = Some AuthenticationError /\
  incl scope_lines (prints (trace_of out)).
Proof.
  repeat split; try reflexivity. intros line Hin. simpl in *. tauto.
Qed.

(** * Further properties *)

(** ** The cursor pattern *)

Lemma take_cursor_splits (s : string) :
  exists post,
    s = take_cursor s ++ post /\ cursor_text (take_cursor s) = true /\ stops_cursor post.
Proof.
  induction s as [|c s (post & E & T & S)]; simpl.
  - exists EmptyString. repeat split. now left.
  - destruct (cursor_char c) eqn:C.
    + exists post. simpl. split; [now f_equal|]. split; [|exact S].
      unfold cursor_text in *. simpl. now rewrite C.
    + exists (String c s). split; [reflexivity|]. split; [reflexivity|].
      right. now exists c, s.
Qed.

(** X1. What the pattern [page_info=([^&>]+)] returns is in the header right
    after the text [page_info=]; it is not empty, holds no [&] and no [>],
    and runs up to the end of the header or to the first [&] or [>]; and no
    [page_info=] followed by a character of the class begins further left:
    of several [page_info] parameters, the first is taken. *)
Theorem cursor_match_is_leftmost (s g : string) :
  re_search_page_info s = Some g ->
  exists pre post,
    s = pre ++ "page_info=" ++ g ++ post /\
    is_empty g = false /\
    cursor_text g = true /\
    stops_cursor post /\
    forall pre' c rest,
      s = pre' ++ "page_info=" ++ String c rest -> cursor_char c = true ->
      (String.length pre <= String.length pre')%nat.
Proof.
  revert g. induction s as [|a s IH]; intros g; rewrite re_search_page_info_eq.
  - discriminate.
  - destruct (drop_prefix "page_info=" (String a s)) as [rest|] eqn:D.
    + destruct (is_empty (take_cursor rest)) eqn:G.
      * intros H. destruct (IH _ H) as (pre & post & E & Hg & Ht & Hs & Hl).
        exists (String a pre), post. split; [simpl; now f_equal|].
        repeat split; auto.
        intros pre' c r E' Hc. destruct pre' as [|b pre'].
        -- exfalso. rewrite E' in D.
           change (drop_prefix "page_info=" ("page_info=" ++ String c r) = Some rest) in D.
           rewrite drop_prefix_app in D. injection D as <-.
           simpl in G. rewrite Hc in G. discriminate.
        -- simpl in E'. injection E' as <- E'. simpl.
           apply le_n_S. exact (Hl _ _ _ E' Hc).
      * intros H. injection H as <-.
        destruct (take_cursor_splits rest) as (post & E & T & S).
        exists EmptyString, post. apply drop_prefix_sound in D.
        split; [simpl append at 1; now rewrite <- E|].
        repeat split; auto. intros. simpl. lia.
    + intros H. destruct (IH _ H) as (pre & post & E & Hg & Ht & Hs & Hl).
      exists (String a pre), post. split; [simpl; now f_equal|].
      repeat split; auto.
      intros pre' c r E' Hc. destruct pre' as [|b pre'].
      * exfalso. rewrite E' in D.
        change (drop_prefix "page_info=" ("page_info=" ++ String c r) = None) in D.
        rewrite drop_prefix_app in D. discriminate.
      * simpl in E'. injection E' as <- E'. simpl.
        apply le_n_S. exact (Hl _ _ _ E' Hc).
Qed.

(** X2. The pattern finds a cursor whenever the header holds [page_info=]
    followed by a character other than [&] and [>]; so it finds none only
    when every [page_info=] of the header is followed by [&], by [>] or by
    nothing. *)
Theorem cursor_found_when_present (pre rest : string) (c : ascii) :
  cursor_char c = true ->
  exists g, re_search_page_info (pre ++ "page_info=" ++ String c rest) = Some g.
Proof.
  intros Hc. induction pre as [|a pre IH].
  - rewrite re_search_page_info_eq.
    change (EmptyString ++ "page_info=" ++ String c rest)
      with ("page_info=" ++ String c rest).
    rewrite drop_prefix_app. cbn [take_cursor]. rewrite Hc. simpl. eauto.
  - rewrite re_search_page_info_eq.
    destruct (match drop_prefix "page_info=" (String a pre ++ "page_info=" ++ String c rest)
              with
              | Some r => if is_empty (take_cursor r) then None else Some (take_cursor r)
              | None => None
              end) as [g|].
    + eauto.
    + exact IH.
Qed.

Lemma cursor_match_is_leftmost_witness :
  exists pre post,
    middle_link = pre ++ "page_info=" ++ "PREV" ++ post /\
    is_empty "PREV" = false /\
    cursor_text "PREV" = true /\
    stops_cursor post /\
    forall pre' c rest,
      middle_link = pre' ++ "page_info=" ++ String c rest -> cursor_char c = true ->
      (String.length pre <= String.length pre')%nat.
Proof. apply (cursor_match_is_leftmost middle_link "PREV"). reflexivity. Defined.

Lemma cursor_found_when_present_witness :
  exists g,
    re_search_page_info ("<https://x/orders.json?limit=250&" ++ "page_info=" ++ String "a" "bc>")
    = Some g.
Proof. apply (cursor_found_when_present _ "bc>" "a"). reflexivity. Defined.

(** ** The displays, item by item *)

Section DisplayMore.
Context {W : Type} {HW : World W}.

Lemma py_get_attribute_error (v : value) (k : string) (default : value) (ex : exn) :
  py_get v k default = Raise ex -> exists msg, ex = AttributeError msg.
Proof. destruct v; simpl; intros H; try discriminate; injection H as <-; eauto. Qed.

Lemma field_attr (k : string) : attr_item (W := W) (field k).
Proof.
  exists (fun record => py_get record k VNone). split; [reflexivity|].
  intros record ex. apply py_get_attribute_error.
Qed.

Lemma text_attr (k : string) (default : value) : attr_item (W := W) (text k default).
Proof.
  exists (fun record =>
            match py_get record k default with
            | Ok v => Ok (VStr (py_str v))
            | Raise e => Raise e
            end).
  split.
  - intros record w. unfold text, bind, lift, ret.
    destruct (py_get record k default); reflexivity.
  - intros record ex.
    destruct (py_get record k default) eqn:E; [discriminate|].
    intros H. injection H as <-. exact (py_get_attribute_error _ _ _ _ E).
Qed.

Lemma nested_attr (p k : string) : attr_item (W := W) (nested p k).
Proof.
  exists (fun record =>
            match py_get record p VNone with
            | Ok test =>
                if truthy test then
                  match py_get record p (VDict []) with
                  | Ok parent => py_get parent k VNone
                  | Raise e => Raise e
                  end
                else Ok VNone
            | Raise e => Raise e
            end).
  split.
  - intros record w. unfold nested, bind, lift, ret.
    destruct (py_get record p VNone) as [test|e]; [|reflexivity].
    destruct (truthy test); [|reflexivity].
    destruct (py_get record p (VDict [])) as [parent|e]; [|reflexivity].
    destruct (py_get parent k VNone); reflexivity.
  - intros record ex.
    destruct (py_get record p VNone) as [test|e] eqn:E1.
    + destruct (truthy test); [|discriminate].
      destruct (py_get record p (VDict [])) as [parent|e] eqn:E2.
      * apply py_get_attribute_error.
      * intros H. injection H as <-. exact (py_get_attribute_error _ _ _ _ E2).
    + intros H. injection H as <-. exact (py_get_attribute_error _ _ _ _ E1).
Qed.

Lemma flat_items_front (k : kind) :
  flat_items k = (front_items k ++ [("extracted_at", now_stamp)])%list.
Proof. destruct k; reflexivity. Qed.

Lemma front_items_attr (k : kind) : Forall (fun it => attr_item (snd it)) (front_items k).
Proof.
  destruct k; unfold front_items; simpl;
    repeat (apply Forall_cons;
            [ simpl; first [apply field_attr | apply nested_attr | apply text_attr] | ]);
    apply Forall_nil.
Qed.

Lemma front_items_unstamped (k : kind) : ~ In "extracted_at" (map fst (front_items k)).
Proof.
  pose proof (flat_items_distinct k) as H. rewrite flat_items_front, map_app in H.
  simpl in H. apply NoDup_remove_2 in H. now rewrite app_nil_r in H.
Qed.

(** A display of items that only read the record leaves the world alone and
    gives a row or an [AttributeError], the same in every state. *)
Lemma attr_display (items : list (item W)) (record : value) :
  Forall (fun it => attr_item (snd it)) items ->
  (exists d, keys d = map fst items /\
             forall w, dict_display items record w = ([], w, Ok d)) \/
  (exists msg, forall w, dict_display items record w = ([], w, Raise (AttributeError msg))).
Proof.
  intros H. induction H as [|[k e] items (f & Hf & Hattr) _ IH].
  - left. exists []. split; reflexivity.
  - simpl in *. destruct (f record) as [v|ex] eqn:E.
    + destruct IH as [(d & Hk & Hd)|(msg & Hd)].
      * left. exists ((k, v) :: d). split; [simpl; now rewrite Hk|].
        intros w. unfold bind, ret. now rewrite Hf, E, Hd.
      * right. exists msg. intros w. unfold bind, ret. now rewrite Hf, E, Hd.
    + right. destruct (Hattr _ _ E) as (msg & ->). exists msg.
      intros w. unfold bind. now rewrite Hf, E.
Qed.

Lemma attr_display_raises (items : list (item W)) (record : value) (k : string)
    (e : value -> prog W value) (w : W) :
  Forall (fun it => attr_item (snd it)) items ->
  In (k, e) items ->
  (exists ex, result_of (e record w) = Raise ex) ->
  exists msg, dict_display items record w = ([], w, Raise (AttributeError msg)).
Proof.
  intros H Hin (ex & Hex). induction H as [|[k0 e0] items (f & Hf & Hattr) _ IH];
    [contradiction|].
  simpl in *. unfold bind, ret. rewrite Hf.
  destruct (f record) as [v|ex0] eqn:E.
  - destruct Hin as [Eq|Hin].
    + injection Eq as -> ->. rewrite Hf, E in Hex. discriminate.
    + destruct (IH Hin) as (msg & Hd). rewrite Hd. now exists msg.
  - destruct (Hattr _ _ E) as (msg & ->). now exists msg.
Qed.

Lemma dict_display_app (a b : list (item W)) (record : value) (w : W) :
  dict_display (a ++ b) record w
  = (let '(t1, w1, r1) := dict_display a record w in
     match r1 with
     | Ok d1 =>
         let '(t2, w2, r2) := dict_display b record w1 in
         ((t1 ++ t2)%list, w2,
          match r2 with Ok d2 => Ok (d1 ++ d2)%list | Raise ex => Raise ex end)
     | Raise ex => (t1, w1, Raise ex)
     end).
Proof.
  revert w. induction a as [|[k e] a IH]; intros w.
  - simpl. destruct (dict_display b record w) as [[t2 w2] [d2|ex]]; reflexivity.
  - simpl. unfold bind, ret. destruct (e record w) as [[t0 w0] [v|ex]]; [|reflexivity].
    rewrite IH. destruct (dict_display a record w0) as [[t1 w1] [d1|ex]].
    + destruct (dict_display b record w1) as [[t2 w2] [d2|ex]]; simpl;
        rewrite ?app_nil_r, ?app_assoc; reflexivity.
    + simpl. rewrite ?app_nil_r. reflexivity.
Qed.

End DisplayMore.

(** ** Flattening, beyond missing values *)

Section FlattenMore.
Context {W : Type} {HW : World W}.

Lemma lookup_app_last (k : string) (v : value) (d : dict) :
  ~ In k (keys d) -> lookup k (d ++ [(k, v)])%list = Some v.
Proof.
  induction d as [|[k' v'] d IH]; simpl; intros H.
  - now rewrite String.eqb_refl.
  - destruct (String.eqb k k') eqn:E.
    + apply String.eqb_eq in E. subst k'. exfalso. apply H. now left.
    + apply IH. intros Hin. apply H. now right.
Qed.

Lemma flatten_front (k : kind) (record : value) (w : W) :
  flatten k record w
  = (let '(t1, w1, r1) := dict_display (front_items k) record w in
     match r1 with
     | Ok d1 =>
         let '(t2, w2, r2) :=
           dict_display [("extracted_at", now_stamp)] record w1 in
         ((t1 ++ t2)%list, w2,
          match r2 with Ok d2 => Ok (d1 ++ d2)%list | Raise ex => Raise ex end)
     | Raise ex => (t1, w1, Raise ex)
     end).
Proof. unfold flatten. rewrite flat_items_front. apply dict_display_app. Qed.

Lemma stamp_display (record : value) (w : W) :
  dict_display [("extracted_at", now_stamp)] record w
  = ([], snd (clock w), Ok [("extracted_at", VStr (fst (clock w)))]).
Proof.
  simpl. unfold bind, ret, now_stamp, bind, datetime_now_isoformat, ret.
  now destruct (clock w) as [s w1].
Qed.

(** X3. Flattening a well-formed record reads the clock exactly once, after
    every other item was evaluated, and the row's [extracted_at] is that
    reading; it makes no request, yields and prints nothing. *)
Theorem flatten_stamps_the_clock (k : kind) (record : value) (w : W) :
  record_ok k record = true ->
  exists row,
    flatten k record w = ([], snd (clock w), Ok row) /\
    lookup "extracted_at" row = Some (VStr (fst (clock w))).
Proof.
  intros Hok. rewrite flatten_front.
  destruct (attr_display _ record (front_items_attr k)) as [(d & Hk & Hd)|(msg & Hd)].
  - rewrite Hd, stamp_display. eexists. split; [reflexivity|].
    apply lookup_app_last. rewrite Hk. apply front_items_unstamped.
  - exfalso. destruct (flatten_total k record Hok w) as (row & w' & E).
    rewrite flatten_front, Hd in E. discriminate.
Qed.

Lemma nested_raises (p k : string) (d : dict) (w : W) :
  parent_ok d p = false ->
  exists ex, result_of (nested p k (VDict d) w) = Raise ex.
Proof.
  unfold parent_ok, nested, bind, lift, ret. simpl.
  destruct (lookup p d) as [v|]; [|discriminate].
  destruct v; simpl; try discriminate;
    intros H; apply negb_false_iff in H; simpl in H; rewrite ?H; simpl; eauto.
Qed.

(** X4. Flattening a record that is not well-formed (not a JSON object, or,
    for an order, with a truthy [customer], [billing_address] or
    [shipping_address] that is not an object) raises [AttributeError],
    before the clock is read and without any event. *)
Theorem malformed_record_raises (k : kind) (record : value) (w : W) :
  record_ok k record = false ->
  exists msg, flatten k record w = ([], w, Raise (AttributeError msg)).
Proof.
  intros Hbad.
  assert (exists key e, In (key, e) (front_items k) /\
                        exists ex, result_of (e record w) = Raise ex)
    as (key & e & Hin & Hraise).
  { destruct record as [| | | | | |d];
      try solve [exists "id", (field "id"); split;
                 [destruct k; simpl; tauto|simpl; eauto]].
    destruct k; simpl in Hbad; try discriminate.
    destruct (parent_ok d "customer") eqn:Hc.
    - destruct (parent_ok d "billing_address") eqn:Hb.
      + simpl in Hbad. exists "shipping_address_name", (nested "shipping_address" "name").
        split; [simpl; tauto|]. now apply nested_raises.
      + exists "billing_address_name", (nested "billing_address" "name").
        split; [simpl; tauto|]. now apply nested_raises.
    - exists "customer_id", (nested "customer" "id").
      split; [simpl; tauto|]. now apply nested_raises. }
  destruct (attr_display_raises _ record key e w (front_items_attr k) Hin Hraise)
    as (msg & Hd).
  exists msg. now rewrite flatten_front, Hd.
Qed.

(** X5. In the flat record of a JSON object, a field read by
    [record.get(src)] holds the value of [src] unchanged when the record has
    it; a field read under a parent holds the parent's value of the key when
    the parent is an object that has it; a field read by
    [str(record.get(src, default))] holds the text of the value. *)
Theorem present_values_are_copied (k : kind) (d : dict) (w : W) (row : dict) :
  result_of (flatten k (VDict d) w) = Ok row ->
  (forall key src v,
      In (key, field src) (flat_items k) ->
      lookup src d = Some v -> lookup key row = Some v) /\
  (forall key parent src d' v,
      In (key, nested parent src) (flat_items k) ->
      lookup parent d = Some (VDict d') -> lookup src d' = Some v ->
      lookup key row = Some v) /\
  (forall key src default v,
      In (key, text src default) (flat_items k) ->
      lookup src d = Some v -> lookup key row = Some (VStr (py_str v))).
Proof.
  intros H. unfold flatten in H.
  destruct (dict_display (flat_items k) (VDict d) w) as [[t w'] r] eqn:E.
  simpl in H. subst r.
  pose proof (fun key e => dict_display_item _ (VDict d) (flat_items_distinct k)
                             _ _ _ _ key e E) as Item.
  repeat split.
  - intros key src v Hin Hsrc.
    destruct (Item _ _ Hin) as (x & w0 & Hl & Hv). rewrite Hl. f_equal.
    unfold field, lift in Hv. simpl in Hv. rewrite Hsrc in Hv. congruence.
  - intros key parent src d' v Hin Hpar Hsrc.
    destruct (Item _ _ Hin) as (x & w0 & Hl & Hv). rewrite Hl. f_equal.
    assert (truthy (VDict d') = true) as Ht by (destruct d'; [discriminate|reflexivity]).
    unfold nested, lift, bind, ret in Hv. simpl in Hv. rewrite Hpar in Hv.
    rewrite Ht in Hv. simpl in Hv. rewrite Hsrc in Hv. congruence.
  - intros key src default v Hin Hsrc.
    destruct (Item _ _ Hin) as (x & w0 & Hl & Hv). rewrite Hl. f_equal.
    unfold text, lift, bind, ret in Hv. simpl in Hv. rewrite Hsrc in Hv.
    simpl in Hv. congruence.
Qed.

(** X6. Whatever a customer record holds under [addresses],
    [tax_exemptions] and [default_address] (a list, an object, null, or
    nothing), its flat record holds a text under each of the three keys, and
    a text under [extracted_at]. *)
Theorem customer_text_columns (record : value) (w : W) (row : dict) :
  result_of (customer_flat record w) = Ok row ->
  exists addresses exemptions default_address stamp,
    lookup "addresses" row = Some (VStr addresses) /\
    lookup "tax_exemptions" row = Some (VStr exemptions) /\
    lookup "default_address" row = Some (VStr default_address) /\
    lookup "extracted_at" row = Some (VStr stamp).
Proof.
  intros H. unfold customer_flat in H.
  destruct (dict_display customer_flat_items record w) as [[t w'] r] eqn:E.
  simpl in H. subst r.
  pose proof (fun key e => dict_display_item _ record (flat_items_distinct Customers)
                             _ _ _ _ key e E) as Item.
  assert (forall key src default,
             In (key, text src default) customer_flat_items ->
             exists s, lookup key row = Some (VStr s)) as T.
  { intros key src default Hin. destruct (Item _ _ Hin) as (x & w0 & Hl & Hv).
    rewrite Hl. unfold text, lift, bind, ret in Hv.
    destruct (py_get record src default); simpl in Hv; [|discriminate].
    injection Hv as <-. eauto. }
  destruct (T "addresses" "addresses" (VList [])) as (a & Ha); [simpl; tauto|].
  destruct (T "tax_exemptions" "tax_exemptions" (VList [])) as (x & Hx); [simpl; tauto|].
  destruct (T "default_address" "default_address" (VDict [])) as (da & Hda);
    [simpl; tauto|].
  destruct (Item "extracted_at" now_stamp) as (s & w0 & Hl & Hv); [simpl; tauto|].
  unfold now_stamp, bind, datetime_now_isoformat, ret in Hv.
  destruct (clock w0) as [st w1]. simpl in Hv. injection Hv as <-.
  now exists a, x, da, st.
Qed.

End FlattenMore.

Lemma flatten_stamps_the_clock_witness :
  exists row,
    flatten (HW := two_pages) Orders order_1001 7%nat
    = ([], snd (clock (World := two_pages) 7%nat), Ok row) /\
    lookup "extracted_at" row = Some (VStr (fst (clock (World := two_pages) 7%nat))).
Proof.
  apply (flatten_stamps_the_clock (HW := two_pages) Orders order_1001 7%nat).
  reflexivity.
Defined.

Lemma malformed_record_raises_witness :
  exists msg,
    flatten (HW := two_pages) Orders (VDict [("billing_address", VStr "x")]) 2%nat
    = ([], 2%nat, Raise (AttributeError msg)).
Proof.
  apply (malformed_record_raises (HW := two_pages) Orders
           (VDict [("billing_address", VStr "x")]) 2%nat).
  reflexivity.
Defined.

Lemma present_values_are_copied_witness :
  lookup "name" (row_of (HW := two_pages) Orders order_1001 0%nat) = Some (VStr "#1001") /\
  lookup "customer_email" (row_of (HW := two_pages) Orders order_1001 0%nat)
  = Some (VStr "a@example.com").
Proof.
  destruct (present_values_are_copied (HW := two_pages) Orders
              [ ("id", VInt 1001); ("name", VStr "#1001");
                ("customer", VDict [("id", VInt 7); ("email", VStr "a@example.com")]) ]
              0%nat (row_of (HW := two_pages) Orders order_1001 0%nat) eq_refl)
    as (Hfield & Hnested & _).
  split.
  - apply (Hfield "name" "name"); [simpl; tauto|reflexivity].
  - apply (Hnested "customer_email" "customer" "email"
             [("id", VInt 7); ("email", VStr "a@example.com")]);
      [simpl; tauto|reflexivity|reflexivity].
Defined.

Lemma customer_text_columns_witness :
  exists addresses exemptions default_address stamp,
    lookup "addresses"
      (row_of (HW := two_pages) Customers (VDict [("addresses", VNone)]) 0%nat)
    = Some (VStr addresses) /\
    lookup "tax_exemptions"
      (row_of (HW := two_pages) Customers (VDict [("addresses", VNone)]) 0%nat)
    = Some (VStr exemptions) /\
    lookup "default_address"
      (row_of (HW := two_pages) Customers (VDict [("addresses", VNone)]) 0%nat)
    = Some (VStr default_address) /\
    lookup "extracted_at"
      (row_of (HW := two_pages) Customers (VDict [("addresses", VNone)]) 0%nat)
    = Some (VStr stamp).
Proof.
  apply (customer_text_columns (HW := two_pages) (VDict [("addresses", VNone)]) 0%nat).
  reflexivity.
Defined.

(** ** Every run of the loop, whatever the server does *)

Lemma pauses_app (a b : list event) : pauses (a ++ b) = (pauses a ++ pauses b)%list.
Proof. apply flat_map_app. Qed.

Lemma pauses_rows (rows : list dict) : pauses (map EvYield rows) = [].
Proof. induction rows as [|r rows IH]; simpl; [reflexivity|exact IH]. Qed.

Lemma dict_set_fresh (k : string) (v : value) (d : dict) :
  lookup k d = None -> dict_set k v d = (d ++ [(k, v)])%list.
Proof.
  induction d as [|[k' v'] d IH]; simpl; intros H; [reflexivity|].
  destruct (String.eqb k k'); [discriminate|]. now rewrite IH.
Qed.

Lemma dict_set_last (k : string) (v v0 : value) (d : dict) :
  lookup k d = None ->
  dict_set k v (d ++ [(k, v0)])%list = (d ++ [(k, v)])%list.
Proof.
  induction d as [|[k' v'] d IH]; simpl; intros H.
  - now rewrite String.eqb_refl.
  - destruct (String.eqb k k'); [discriminate|]. now rewrite IH.
Qed.

Section AnyServer.
Context {W : Type} {HW : World W}.
Variable resource : string.
Variable flat : value -> prog W dict.
Variable base_url : string.
Variable headers : dict.
Hypothesis flat_silent : silent flat.

Let u : string := base_url ++ "/" ++ resource ++ ".json".
Let ask (params : dict) : request :=
  {| req_url := u; req_headers := headers; req_params := params |}.

Lemma yield_rows_shape (rows : list value) :
  forall w, exists out,
    trace_of (yield_rows flat rows w) = map EvYield out /\ Forall (made_by flat) out.
Proof.
  induction rows as [|r rows IH]; intros w.
  - exists []. split; [reflexivity|constructor].
  - unfold yield_rows in *. cbn [for_each]. unfold bind at 1.
    pose proof (flat_silent r w) as S.
    unfold bind at 1. destruct (flat r w) as [[t w1] [row|e]] eqn:Ef; simpl in S; subst t.
    + unfold yield, emit. destruct (IH w1) as (out & E & M).
      destruct (for_each rows _ w1) as [[t2 w2] r2]. simpl in *. subst t2.
      exists (row :: out). split; [reflexivity|].
      constructor; [|exact M]. exists r, w. now rewrite Ef.
    + exists []. split; [reflexivity|constructor].
Qed.

(** What a turn does once it holds a response. *)
Lemma after_response_shape (response : response) (w : W) :
  exists out tail,
    trace_of
      ((lift (raise_for_status response) ;;
        data <- lift (response_json response) ;;
        records <- lift (py_get data resource (VList [])) ;;
        if negb (truthy records) then ret Break
        else
          rows <- lift (py_iter records) ;;
          yield_rows flat rows ;;
          let link_header := link_header_of response in
          if py_in rel_next link_header then
            match re_search_page_info link_header with
            | Some next_match => time_sleep 500 ;; ret (Again next_match)
            | None => ret Break
            end
          else ret Break) w)
    = (map EvYield out ++ tail)%list /\
    Forall (made_by flat) out /\
    match
      result_of
        ((lift (raise_for_status response) ;;
          data <- lift (response_json response) ;;
          records <- lift (py_get data resource (VList [])) ;;
          if negb (truthy records) then ret Break
          else
            rows <- lift (py_iter records) ;;
            yield_rows flat rows ;;
            let link_header := link_header_of response in
            if py_in rel_next link_header then
              match re_search_page_info link_header with
              | Some next_match => time_sleep 500 ;; ret (Again next_match)
              | None => ret Break
              end
            else ret Break) w)
    with
    | Ok (Again cursor) => tail = [EvSleep 500] /\ is_empty cursor = false
    | _ => tail = []
    end.
Proof.
  destruct (raise_for_status response) as [[]|e];
    [rewrite bind_lift_ok|exists [], []; repeat split; constructor].
  destruct (response_json response) as [data|e];
    [rewrite bind_lift_ok|exists [], []; repeat split; constructor].
  destruct (py_get data resource (VList [])) as [records|e];
    [rewrite bind_lift_ok|exists [], []; repeat split; constructor].
  destruct (negb (truthy records)); [exists [], []; repeat split; constructor|].
  destruct (py_iter records) as [rows|e];
    [rewrite bind_lift_ok|exists [], []; repeat split; constructor].
  destruct (yield_rows_shape rows w) as (out & E & M).
  destruct (yield_rows flat rows w) as [[t w1] [[]|e]] eqn:Y; simpl in E; subst t.
  - rewrite (bind_ok _ _ _ _ _ _ Y). cbv zeta.
    destruct (py_in rel_next (link_header_of response)).
    + destruct (re_search_page_info (link_header_of response)) as [c|] eqn:R.
      * exists out, [EvSleep 500]. split; [reflexivity|]. split; [exact M|].
        simpl. split; [reflexivity|exact (take_cursor_found _ _ R)].
      * exists out, []. split; [reflexivity|]. split; [exact M|reflexivity].
    + exists out, []. split; [reflexivity|]. split; [exact M|reflexivity].
  - rewrite (bind_raise _ _ _ _ _ _ Y). exists out, [].
    split; [simpl; now rewrite app_nil_r|]. split; [exact M|reflexivity].
Qed.

Lemma fetch_page_shape (params : dict) (w : W) :
  exists out tail,
    trace_of (fetch_page resource flat base_url headers params w)
    = (EvGet (ask params) :: map EvYield out ++ tail)%list /\
    Forall (made_by flat) out /\
    match result_of (fetch_page resource flat base_url headers params w) with
    | Ok (Again cursor) => tail = [EvSleep 500] /\ is_empty cursor = false
    | _ => tail = []
    end.
Proof.
  unfold fetch_page.
  destruct (fst (send (ask params) w)) as [e|r] eqn:Es.
  - rewrite (bind_raise _ _ _ _ _ _ (requests_get_raises resource base_url headers _ _ _ Es)).
    exists [], []. repeat split; constructor.
  - rewrite (bind_ok _ _ _ _ _ _ (requests_get_answer resource base_url headers _ _ _ Es)).
    destruct (after_response_shape r (snd (send (ask params) w)))
      as (out & tail & Ht & M & Hr).
    exists out, tail. split; [|split; [exact M|exact Hr]].
    rewrite <- Ht. reflexivity.
Qed.

(** One turn of the loop: it makes one request and then finishes (after an
    optional error line), lets an exception out that is no [requests]
    exception, or pauses and goes on with a non-empty cursor. *)
Lemma paginate_step (fuel : nat) (params : dict) (page_info : value) (w : W) :
  exists out,
    Forall (made_by flat) out /\
    ((exists tail w',
        paginate resource flat base_url headers (S fuel) params page_info w
        = ((EvGet (ask (turn_params params page_info)) :: map EvYield out ++ tail)%list,
           w', Ok Finished) /\
        (tail = [] \/ exists line, tail = [EvPrint line])) \/
    (exists e w',
        paginate resource flat base_url headers (S fuel) params page_info w
        = ((EvGet (ask (turn_params params page_info)) :: map EvYield out)%list,
           w', Raise e) /\
        is_request_exception e = false) \/
    (exists cursor w',
        is_empty cursor = false /\
        paginate resource flat base_url headers (S fuel) params page_info w
        = (let rest := paginate resource flat base_url headers fuel
                         (turn_params params page_info) (VStr cursor) w' in
           ((EvGet (ask (turn_params params page_info)) :: map EvYield out
               ++ EvSleep 500 :: trace_of rest)%list,
            world_of rest, result_of rest)))).
Proof.
  cbn [paginate]. fold (turn_params params page_info).
  set (p := turn_params params page_info).
  destruct (fetch_page_shape p w) as (out & tail & Ht & M & Hr).
  exists out. split; [exact M|].
  destruct (fetch_page resource flat base_url headers p w) as [[t w1] r] eqn:E.
  simpl in Ht, Hr. subst t.
  destruct r as [[|cursor]|e].
  - subst tail. left. exists [], w1. split; [|now left].
    rewrite (bind_ok _ _ _ _ _ _ (try_except_ok _ _ _ _ _ _ E)). simpl.
    now rewrite !app_nil_r.
  - destruct Hr as [-> Hc]. right. right. exists cursor, w1. split; [exact Hc|].
    rewrite (bind_ok _ _ _ _ _ _ (try_except_ok _ _ _ _ _ _ E)). cbv zeta.
    f_equal. f_equal. simpl. f_equal. now rewrite <- app_assoc.
  - subst tail. rewrite app_nil_r in E.
    destruct (is_request_exception e) eqn:He.
    + destruct (stdout_error ("Error fetching " ++ resource ++ ": " ++ exn_str e))
        as [msg|] eqn:Hout.
      * right. left. exists (UnicodeEncodeError msg), w1. split; [|reflexivity].
        assert (try_except (fetch_page resource flat base_url headers p)
                  (on_request_exception resource) w
                = ((EvGet (ask p) :: map EvYield out)%list, w1,
                   Raise (UnicodeEncodeError msg))) as T.
        { unfold try_except. rewrite E. unfold on_request_exception. rewrite He.
          unfold bind, print. rewrite Hout. simpl. now rewrite app_nil_r. }
        now rewrite (bind_raise _ _ _ _ _ _ T).
      * left. exists [EvPrint ("Error fetching " ++ resource ++ ": " ++ exn_str e)], w1.
        split; [|right; eauto].
        assert (try_except (fetch_page resource flat base_url headers p)
                  (on_request_exception resource) w
                = ((EvGet (ask p) :: map EvYield out
                      ++ [EvPrint ("Error fetching " ++ resource ++ ": " ++ exn_str e)])%list,
                   w1, Ok Break)) as T.
        { unfold try_except. rewrite E. unfold on_request_exception. rewrite He.
          unfold bind, print. rewrite Hout. reflexivity. }
        rewrite (bind_ok _ _ _ _ _ _ T). simpl. now rewrite !app_nil_r.
    + right. left. exists e, w1. split; [|exact He].
      assert (try_except (fetch_page resource flat base_url headers p)
                (on_request_exception resource) w
              = ((EvGet (ask p) :: map EvYield out)%list, w1, Raise e)) as T.
      { unfold try_except. rewrite E. unfold on_request_exception. rewrite He.
        simpl. now rewrite app_nil_r. }
      now rewrite (bind_raise _ _ _ _ _ _ T).
Qed.

Lemma paginate_paced (fuel : nat) :
  forall params page_info w,
    paced_run fuel (paginate resource flat base_url headers fuel params page_info w).
Proof.
  induction fuel as [|fuel IH]; intros params page_info w.
  - repeat split; constructor.
  - destruct (paginate_step fuel params page_info w)
      as (out & M & [(tail & w' & E & Htail)|[(e & w' & E & He)|(c & w' & Hc & E)]]).
    + rewrite E. unfold paced_run, paced. cbn [trace_of result_of fst snd].
      cbn [paced_from andb]. rewrite paced_rows.
      cbn [gets pauses flat_map app].
      fold (gets (map EvYield out ++ tail)). fold (pauses (map EvYield out ++ tail)).
      rewrite gets_app, pauses_app, gets_rows, pauses_rows.
      destruct Htail as [->|(line & ->)]; simpl; repeat split; auto; lia.
    + rewrite E. unfold paced_run, paced. cbn [trace_of result_of fst snd].
      cbn [paced_from andb]. rewrite <- (app_nil_r (map EvYield out)), paced_rows.
      cbn [gets pauses flat_map app].
      fold (gets (map EvYield out ++ [])). fold (pauses (map EvYield out ++ [])).
      rewrite gets_app, pauses_app, gets_rows, pauses_rows.
      simpl; repeat split; auto; lia.
    + rewrite E. cbv zeta.
      specialize (IH (turn_params params page_info) (VStr c) w').
      destruct (paginate resource flat base_url headers fuel
                  (turn_params params page_info) (VStr c) w') as [[t w2] r].
      unfold paced_run, paced in *. cbn [trace_of world_of result_of fst snd] in *.
      destruct IH as (Hp & Hms & Hn).
      cbn [paced_from andb]. rewrite paced_rows. cbn [paced_from orb]. 
      cbn [gets pauses flat_map app].
      fold (gets (map EvYield out ++ EvSleep 500 :: t)).
      fold (pauses (map EvYield out ++ EvSleep 500 :: t)).
      rewrite gets_app, pauses_app, gets_rows, pauses_rows.
      cbn [gets pauses flat_map app]. fold (gets t). fold (pauses t).
      split; [exact Hp|]. split; [now constructor|].
      destruct r as [[|]|e]; simpl; lia.
Qed.

Lemma paginate_guarded (fuel : nat) :
  forall params page_info w,
    guarded_run (paginate resource flat base_url headers fuel params page_info w).
Proof.
  induction fuel as [|fuel IH]; intros params page_info w.
  - reflexivity.
  - destruct (paginate_step fuel params page_info w)
      as (out & M & [(tail & w' & E & Htail)|[(e & w' & E & He)|(c & w' & Hc & E)]]).
    + rewrite E. unfold guarded_run. cbn [trace_of result_of fst snd].
      destruct Htail as [->|(line & ->)].
      * left. rewrite app_nil_r. simpl. apply prints_rows.
      * right. exists (EvGet (ask (turn_params params page_info)) :: map EvYield out), line.
        split; [reflexivity|]. simpl. apply prints_rows.
    + rewrite E. unfold guarded_run. cbn [trace_of result_of fst snd].
      split; [exact He|]. simpl. apply prints_rows.
    + rewrite E. cbv zeta.
      specialize (IH (turn_params params page_info) (VStr c) w').
      destruct (paginate resource flat base_url headers fuel
                  (turn_params params page_info) (VStr c) w') as [[t w2] r].
      unfold guarded_run in *. cbn [trace_of world_of result_of fst snd] in *.
      assert (prints (EvGet (ask (turn_params params page_info)) :: map EvYield out
                        ++ EvSleep 500 :: t) = prints t) as P.
      { simpl. fold (prints (map EvYield out ++ EvSleep 500 :: t)).
        now rewrite prints_app, prints_rows. }
      destruct r as [[|]|e].
      * destruct IH as [Hn|(t0 & line & -> & H0)].
        -- left. now rewrite P.
        -- right.
           exists (EvGet (ask (turn_params params page_info)) :: map EvYield out
                     ++ EvSleep 500 :: t0)%list, line.
           split.
           ++ simpl. f_equal. now rewrite <- app_assoc.
           ++ simpl. fold (prints (map EvYield out ++ EvSleep 500 :: t0)).
              now rewrite prints_app, prints_rows.
      * now rewrite P.
      * now rewrite P.
Qed.

(** Once a cursor is held, every request carries one. *)
Lemma paginate_follows (params0 : dict) (fuel : nat) :
  lookup "page_info" params0 = None ->
  forall params page_info w,
    (exists c, is_empty c = false /\
               turn_params params page_info
               = (params0 ++ [("page_info", VStr c)])%list) ->
    Forall (fun req => req_url req = u /\ req_headers req = headers /\
                       follows params0 req)
      (gets (trace_of (paginate resource flat base_url headers fuel params page_info w))).
Proof.
  intros Hfresh. induction fuel as [|fuel IH]; intros params page_info w (c0 & Hc0 & Hp).
  - constructor.
  - assert (follows params0 (ask (turn_params params page_info))) as Hfirst.
    { exists c0. split; [exact Hc0|]. simpl. exact Hp. }
    destruct (paginate_step fuel params page_info w)
      as (out & M & [(tail & w' & E & Htail)|[(e & w' & E & He)|(c & w' & Hc & E)]]).
    + rewrite E. cbn [trace_of fst gets flat_map app].
      fold (gets (map EvYield out ++ tail)). rewrite gets_app, gets_rows.
      destruct Htail as [->|(line & ->)]; simpl; repeat constructor; auto.
    + rewrite E. cbn [trace_of fst gets flat_map app].
      fold (gets (map EvYield out)). rewrite gets_rows.
      repeat constructor; auto.
    + rewrite E. cbv zeta.
      assert (exists c1, is_empty c1 = false /\
                turn_params (turn_params params page_info) (VStr c)
                = (params0 ++ [("page_info", VStr c1)])%list) as Hnext.
      { exists c. split; [exact Hc|]. unfold turn_params at 1. simpl truthy.
        rewrite Hc. simpl. rewrite Hp. now apply dict_set_last. }
      specialize (IH (turn_params params page_info) (VStr c) w' Hnext).
      destruct (paginate resource flat base_url headers fuel
                  (turn_params params page_info) (VStr c) w') as [[t w2] r].
      cbn [trace_of world_of result_of fst snd gets flat_map app] in *.
      fold (gets (map EvYield out ++ EvSleep 500 :: t)).
      rewrite gets_app, gets_rows. simpl. fold (gets t).
      constructor; [repeat split; auto|exact IH].
Qed.

Lemma paginate_addressed (params0 : dict) (fuel : nat) (w : W) :
  lookup "page_info" params0 = None ->
  addressed_run u headers params0 fuel
    (paginate resource flat base_url headers fuel params0 VNone w).
Proof.
  intros Hfresh. destruct fuel as [|fuel]; [reflexivity|].
  unfold addressed_run.
  destruct (paginate_step fuel params0 VNone w)
    as (out & M & [(tail & w' & E & Htail)|[(e & w' & E & He)|(c & w' & Hc & E)]]).
  - rewrite E. cbn [trace_of fst gets flat_map app].
    fold (gets (map EvYield out ++ tail)). rewrite gets_app, gets_rows.
    exists []. destruct Htail as [->|(line & ->)]; simpl; split; auto.
  - rewrite E. cbn [trace_of fst gets flat_map app].
    fold (gets (map EvYield out)). rewrite gets_rows. exists []. split; auto.
  - rewrite E. cbv zeta.
    assert (exists c1, is_empty c1 = false /\
              turn_params (turn_params params0 VNone) (VStr c)
              = (params0 ++ [("page_info", VStr c1)])%list) as Hnext.
    { exists c. split; [exact Hc|]. unfold turn_params. simpl truthy.
      rewrite Hc. simpl. now apply dict_set_fresh. }
    pose proof (paginate_follows params0 fuel Hfresh (turn_params params0 VNone)
                  (VStr c) w' Hnext) as F.
    destruct (paginate resource flat base_url headers fuel
                (turn_params params0 VNone) (VStr c) w') as [[t w2] r].
    cbn [trace_of world_of result_of fst snd gets flat_map app] in *.
    fold (gets (map EvYield out ++ EvSleep 500 :: t)).
    rewrite gets_app, gets_rows. simpl. fold (gets t).
    exists (gets t). split; [reflexivity|exact F].
Qed.

Lemma paginate_rows (fuel : nat) :
  forall params page_info w,
    Forall (made_by flat)
      (yields (trace_of (paginate resource flat base_url headers fuel params page_info w))).
Proof.
  induction fuel as [|fuel IH]; intros params page_info w.
  - constructor.
  - destruct (paginate_step fuel params page_info w)
      as (out & M & [(tail & w' & E & Htail)|[(e & w' & E & He)|(c & w' & Hc & E)]]).
    + rewrite E. cbn [trace_of fst yields flat_map app].
      fold (yields (map EvYield out ++ tail)). rewrite yields_app, yields_rows.
      destruct Htail as [->|(line & ->)]; simpl; now rewrite app_nil_r.
    + rewrite E. cbn [trace_of fst yields flat_map app].
      fold (yields (map EvYield out)). now rewrite yields_rows.
    + rewrite E. cbv zeta.
      specialize (IH (turn_params params page_info) (VStr c) w').
      destruct (paginate resource flat base_url headers fuel
                  (turn_params params page_info) (VStr c) w') as [[t w2] r].
      cbn [trace_of world_of result_of fst snd yields flat_map app] in *.
      fold (yields (map EvYield out ++ EvSleep 500 :: t)).
      rewrite yields_app, yields_rows. simpl. fold (yields t).
      apply Forall_app. split; assumption.
Qed.

End AnyServer.

(** ** The three generators, whatever the server does *)

Section SourceMore.
Context {W : Type} {HW : World W}.

Lemma orders_paginate (limit : Z) (status : string) (fuel : nat) (w : W) :
  orders limit status fuel w
  = paginate "orders" order_flat
      (shop_base_url (of_option (environ w "STORE_ID")))
      (shop_headers (of_option (environ w "API_TOKEN")))
      fuel [("limit", VInt limit); ("status", VStr status)] VNone w.
Proof.
  unfold orders.
  rewrite (bind_silent (os_getenv "API_TOKEN") _ w w
             (of_option (environ w "API_TOKEN")) eq_refl).
  now rewrite (bind_silent (os_getenv "STORE_ID") _ w w
                 (of_option (environ w "STORE_ID")) eq_refl).
Qed.

Lemma products_paginate (limit : Z) (fuel : nat) (w : W) :
  products limit fuel w
  = paginate "products" product_flat
      (shop_base_url (of_option (environ w "STORE_ID")))
      (shop_headers (of_option (environ w "API_TOKEN")))
      fuel [("limit", VInt limit)] VNone w.
Proof.
  unfold products.
  rewrite (bind_silent (os_getenv "API_TOKEN") _ w w
             (of_option (environ w "API_TOKEN")) eq_refl).
  now rewrite (bind_silent (os_getenv "STORE_ID") _ w w
                 (of_option (environ w "STORE_ID")) eq_refl).
Qed.

Lemma customers_paginate (limit : Z) (fuel : nat) (w : W) :
  customers limit fuel w
  = paginate "customers" customer_flat
      (shop_base_url (of_option (environ w "STORE_ID")))
      (shop_headers (of_option (environ w "API_TOKEN")))
      fuel [("limit", VInt limit)] VNone w.
Proof.
  unfold customers.
  rewrite (bind_silent (os_getenv "API_TOKEN") _ w w
             (of_option (environ w "API_TOKEN")) eq_refl).
  now rewrite (bind_silent (os_getenv "STORE_ID") _ w w
                 (of_option (environ w "STORE_ID")) eq_refl).
Qed.

Lemma flatten_silent (k : kind) : silent (flatten k).
Proof. intros record w. apply dict_display_silent. apply flat_items_regular. Qed.

(** X7. In every run of the three generators, against any server, a pause
    of 0.5 s lies between any two consecutive requests, every pause is of
    0.5 s, and the run makes one request per turn: one more than pauses
    when it ends by itself, as many as turns when the bound cuts it. *)
Theorem requests_always_paced (limit : Z) (status : string) (fuel : nat) (w : W) :
  paced_run fuel (orders limit status fuel w) /\
  paced_run fuel (products limit fuel w) /\
  paced_run fuel (customers limit fuel w).
Proof.
  rewrite orders_paginate, products_paginate, customers_paginate.
  split; [|split].
  - exact (paginate_paced "orders" order_flat _ _ (flatten_silent Orders) fuel _ _ w).
  - exact (paginate_paced "products" product_flat _ _ (flatten_silent Products) fuel _ _ w).
  - exact (paginate_paced "customers" customer_flat _ _ (flatten_silent Customers)
             fuel _ _ w).
Qed.

(** X8. Every request of a generator goes to the endpoint of its resource
    with the two headers built from the environment; the first carries the
    parameters the generator was called with ([limit], and [status] for
    orders) and no [page_info]; every later one carries the same parameters
    followed by one non-empty [page_info]. *)
Theorem requests_well_addressed (limit : Z) (status : string) (fuel : nat) (w : W) :
  addressed_run (endpoint "orders" w) (shop_headers (of_option (environ w "API_TOKEN")))
    [("limit", VInt limit); ("status", VStr status)] fuel
    (orders limit status fuel w) /\
  addressed_run (endpoint "products" w) (shop_headers (of_option (environ w "API_TOKEN")))
    [("limit", VInt limit)] fuel (products limit fuel w) /\
  addressed_run (endpoint "customers" w) (shop_headers (of_option (environ w "API_TOKEN")))
    [("limit", VInt limit)] fuel (customers limit fuel w).
Proof.
  rewrite orders_paginate, products_paginate, customers_paginate.
  split; [|split].
  - exact (paginate_addressed "orders" order_flat _ _ (flatten_silent Orders)
             [("limit", VInt limit); ("status", VStr status)] fuel w eq_refl).
  - exact (paginate_addressed "products" product_flat _ _ (flatten_silent Products)
             [("limit", VInt limit)] fuel w eq_refl).
  - exact (paginate_addressed "customers" customer_flat _ _ (flatten_silent Customers)
             [("limit", VInt limit)] fuel w eq_refl).
Qed.

(** X9. No [requests] exception ever leaves a generator: an exception that
    leaves it is of another class, and then nothing was printed.  A run
    prints at most one line, the error line, as its last event, and only
    when it finishes. *)
Theorem only_other_exceptions_escape (limit : Z) (status : string) (fuel : nat) (w : W) :
  guarded_run (orders limit status fuel w) /\
  guarded_run (products limit fuel w) /\
  guarded_run (customers limit fuel w).
Proof.
  rewrite orders_paginate, products_paginate, customers_paginate.
  split; [|split].
  - exact (paginate_guarded "orders" order_flat _ _ (flatten_silent Orders) fuel _ _ w).
  - exact (paginate_guarded "products" product_flat _ _ (flatten_silent Products)
             fuel _ _ w).
  - exact (paginate_guarded "customers" customer_flat _ _ (flatten_silent Customers)
             fuel _ _ w).
Qed.

(** X10. A page with no record ends the stream, whatever its [Link] header
    announces: the generator finishes after the request that received it,
    having yielded the records of the pages before, with no further request
    and no printed line. *)
Theorem empty_page_ends_stream (k : kind) (pages : list page) (current : page)
    (last : option string) (fuel : nat) (w : W) :
  linked (kind_name k) (endpoint (kind_name k) w) None pages last ->
  delivers (kind_name k) (endpoint (kind_name k) w) last current ->
  page_records current = [] ->
  Forall (fun p => Forall (fun r => record_ok k r = true) (page_records p)) pages ->
  (List.length pages < fuel)%nat ->
  exists t w',
    extract k fuel w = (t, w', Ok Finished) /\
    Forall2 (flat_of k) (List.concat (map page_records pages)) (yields t) /\
    List.length (gets t) = S (List.length pages) /\
    prints t = [].
Proof.
  intros Hlink Hdel Hempty Hok Hfuel.
  replace fuel with (List.length pages + S (fuel - S (List.length pages)))%nat by lia.
  destruct (extract_linked k pages last (S (fuel - S (List.length pages))) w Hlink Hok)
    as (t & w1 & params & page_info & E & Hcur & Hy & Hg & Hp & _).
  assert (Forall (flat_total (flatten k)) (page_records current)) as Htot
      by (rewrite Hempty; constructor).
  destruct (paginate_delivered (kind_name k) (flatten k)
              (shop_base_url (of_option (environ w "STORE_ID")))
              (shop_headers (of_option (environ w "API_TOKEN"))) _ _ _ _ Hdel Hcur
              Htot (fuel - S (List.length pages))%nat w1)
    as (out & w2 & F & E2).
  assert (page_step current = Break) as Hstep by (unfold page_step; now rewrite Hempty).
  rewrite Hstep in E2. rewrite E2 in E. cbv zeta in E. simpl in E.
  rewrite Hempty in F. inversion F; subst.
  eexists. exists w2. split; [exact E|]. repeat split.
  - rewrite yields_app. simpl. now rewrite app_nil_r.
  - rewrite gets_app, length_app. simpl. lia.
  - rewrite prints_app, Hp. reflexivity.
Qed.

(** X11. The loop keeps no record of the cursors it has used.  When every
    cursor it can come to holds is answered with a non-empty page that
    announces a successor (as when the links of the server come back to a
    page already seen), the generator never finishes: whatever the bound,
    it uses every turn for a request and is cut by the bound. *)
Theorem revisited_cursors_never_finish (k : kind) (held : option string -> Prop)
    (fuel : nat) (w : W) :
  never_ending k (endpoint (kind_name k) w) held ->
  held None ->
  result_of (extract k fuel w) = Ok OutOfFuel /\
  List.length (gets (trace_of (extract k fuel w))) = fuel /\
  (fuel <= List.length (yields (trace_of (extract k fuel w))))%nat.
Proof.
  intros Hnever Hnone. rewrite extract_paginate.
  assert (forall n params page_info cursor w0,
             held cursor ->
             lookup "page_info" (turn_params params page_info) = option_map VStr cursor ->
             let out := paginate (kind_name k) (flatten k)
                          (shop_base_url (of_option (environ w "STORE_ID")))
                          (shop_headers (of_option (environ w "API_TOKEN")))
                          n params page_info w0 in
             result_of out = Ok OutOfFuel /\
             List.length (gets (trace_of out)) = n /\
             (n <= List.length (yields (trace_of out)))%nat) as K.
  { induction n as [|n IH]; intros params page_info cursor w0 Hheld Hcur.
    - repeat split. simpl. lia.
    - destruct (Hnever cursor Hheld) as (p & next & Hdel & Hne & Hok & Hrel & Hnext & Hh).
      destruct (paginate_delivered (kind_name k) (flatten k)
                  (shop_base_url (of_option (environ w "STORE_ID")))
                  (shop_headers (of_option (environ w "API_TOKEN"))) _ _ _ _ Hdel Hcur
                  (records_flat_total k _ Hok) n w0)
        as (out & w1 & F & E).
      assert (page_step p = Again next) as Hstep.
      { unfold page_step. destruct (page_records p); [contradiction|].
        now rewrite Hrel, Hnext. }
      rewrite Hstep in E.
      assert (lookup "page_info"
                (turn_params (turn_params params page_info) (VStr next))
              = option_map VStr (Some next)) as Hcur'.
      { unfold turn_params at 1. simpl truthy.
        rewrite (take_cursor_found _ _ Hnext). simpl. apply lookup_dict_set. }
      specialize (IH (turn_params params page_info) (VStr next) (Some next) w1 Hh Hcur').
      cbv zeta in *. rewrite E.
      destruct (paginate (kind_name k) (flatten k)
                  (shop_base_url (of_option (environ w "STORE_ID")))
                  (shop_headers (of_option (environ w "API_TOKEN")))
                  n (turn_params params page_info) (VStr next) w1) as [[t w2] r].
      cbn [trace_of world_of result_of fst snd] in *.
      destruct IH as (Hr & Hg & Hy). split; [exact Hr|].
      assert (out <> []) as Hout.
      { intros ->. inversion F as [E0|]; subst. now apply Hne. }
      split.
      + simpl. fold (gets (map EvYield out ++ EvSleep 500 :: t)).
        rewrite gets_app, gets_rows. simpl. fold (gets t). now rewrite Hg.
      + simpl. fold (yields (map EvYield out ++ EvSleep 500 :: t)).
        rewrite yields_app, yields_rows, length_app. simpl. fold (yields t).
        destruct out; [contradiction|]. simpl. lia. }
  apply (K fuel (initial_params k) VNone None w Hnone (initial_cursor k)).
Qed.

(** X12. A successful response whose body is JSON but not an object (an
    array, a text, a number, null) makes the generator raise
    [AttributeError]: the handler of the loop does not catch it, nothing is
    printed, and the rows of the pages before were yielded. *)
Theorem body_without_get_raises (k : kind) (pages : list page) (last : option string)
    (r : response) (data : value) (fuel : nat) (w : W) :
  linked (kind_name k) (endpoint (kind_name k) w) None pages last ->
  answers (endpoint (kind_name k) w) last r ->
  raise_for_status r = Ok tt ->
  body r = Json data ->
  (forall d, data <> VDict d) ->
  Forall (fun p => Forall (fun r => record_ok k r = true) (page_records p)) pages ->
  (List.length pages < fuel)%nat ->
  exists t w',
    extract k fuel w
    = (t, w',
       Raise (AttributeError
                (squote ++ type_name data ++ squote ++ " object has no attribute 'get'"))) /\
    Forall2 (flat_of k) (List.concat (map page_records pages)) (yields t) /\
    List.length (gets t) = S (List.length pages) /\
    prints t = [].
Proof.
  intros Hlink Hans Hst Hbody Hdata Hok Hfuel.
  assert (exists f, fuel = (List.length pages + S f)%nat) as [f Hf].
  { exists (fuel - S (List.length pages))%nat. lia. }
  destruct (extract_linked k pages last (S f) w Hlink Hok)
    as (t & w1 & params & page_info & E & Hcur & Hy & Hg & Hp & _).
  set (e := AttributeError
              (squote ++ type_name data ++ squote ++ " object has no attribute 'get'")).
  assert (py_get data (kind_name k) (VList []) = Raise e) as Hget.
  { destruct data; try reflexivity. now elim (Hdata d). }
  set (req := {| req_url := endpoint (kind_name k) w;
                 req_headers := shop_headers (of_option (environ w "API_TOKEN"));
                 req_params := turn_params params page_info |}).
  pose proof (Hans req w1 eq_refl Hcur) as Hs.
  assert (paginate (kind_name k) (flatten k)
            (shop_base_url (of_option (environ w "STORE_ID")))
            (shop_headers (of_option (environ w "API_TOKEN")))
            (S f) params page_info w1
          = ([EvGet req], snd (send req w1), Raise e)) as E2.
  { cbn [paginate]. fold (turn_params params page_info).
    assert (fetch_page (kind_name k) (flatten k)
              (shop_base_url (of_option (environ w "STORE_ID")))
              (shop_headers (of_option (environ w "API_TOKEN")))
              (turn_params params page_info) w1
            = ([EvGet req], snd (send req w1), Raise e)) as Fp.
    { unfold fetch_page.
      eapply bind_then;
        [exact (requests_get_answer (kind_name k) _ _ _ _ _ Hs)| |reflexivity].
      rewrite Hst, bind_lift_ok. unfold response_json. rewrite Hbody, bind_lift_ok.
      rewrite Hget. reflexivity. }
    apply bind_raise. unfold try_except. rewrite Fp. reflexivity. }
  rewrite E2 in E. cbv zeta in E. simpl in E. rewrite <- Hf in E.
  eexists. eexists. split; [exact E|]. repeat split.
  - rewrite yields_app. simpl. now rewrite app_nil_r.
  - rewrite gets_app, length_app. simpl. lia.
  - rewrite prints_app, Hp. reflexivity.
Qed.

End SourceMore.

Lemma empty_page_ends_stream_witness :
  exists t w',
    extract (HW := empty_then_one) Orders 5 0%nat = (t, w', Ok Finished) /\
    Forall2 (flat_of (HW := empty_then_one) Orders)
      (List.concat (map page_records [])) (yields t) /\
    List.length (gets t) = 1%nat /\
    prints t = [].
Proof.
  apply (empty_page_ends_stream (HW := empty_then_one) Orders [] empty_first None 5 0%nat).
  - reflexivity.
  - apply scripted_delivers_first.
  - reflexivity.
  - constructor.
  - simpl. lia.
Defined.

Lemma three_pages_never_ending :
  never_ending (HW := three_pages) Orders (endpoint (HW := three_pages) "orders" 0%nat)
    looping_cursors.
Proof.
  intros cursor [->|[->| ->]].
  - exists first_of_two, "abc". split; [apply scripted_delivers_first|].
    split; [discriminate|]. split; [repeat constructor|].
    split; [reflexivity|]. split; [reflexivity|]. right. now left.
  - exists middle_of_three, "PREV".
    split; [now apply (scripted_delivers_later _ _ _ _ _ _ "abc" "abc")|].
    split; [discriminate|]. split; [repeat constructor|].
    split; [reflexivity|]. split; [reflexivity|]. right. now right.
  - exists first_of_two, "abc".
    split; [now apply (scripted_delivers_later _ _ _ _ _ _ "PREV" "PREV")|].
    split; [discriminate|]. split; [repeat constructor|].
    split; [reflexivity|]. split; [reflexivity|]. right. now left.
Qed.

Lemma revisited_cursors_never_finish_witness :
  result_of (extract (HW := three_pages) Orders 7 0%nat) = Ok OutOfFuel /\
  List.length (gets (trace_of (extract (HW := three_pages) Orders 7 0%nat))) = 7%nat /\
  (7 <= List.length (yields (trace_of (extract (HW := three_pages) Orders 7 0%nat))))%nat.
Proof.
  apply (revisited_cursors_never_finish (HW := three_pages) Orders looping_cursors
           7 0%nat).
  - exact three_pages_never_ending.
  - now left.
Defined.

Lemma body_without_get_raises_witness :
  exists t w',
    extract (HW := array_body) Products 3 0%nat
    = (t, w',
       Raise (AttributeError
                (squote ++ type_name (VList []) ++ squote
                   ++ " object has no attribute 'get'"))) /\
    Forall2 (flat_of (HW := array_body) Products)
      (List.concat (map page_records [])) (yields t) /\
    List.length (gets t) = 1%nat /\
    prints t = [].
Proof.
  apply (body_without_get_raises (HW := array_body) Products [] None
           {| status_code := 200; reason := "OK";
              url := endpoint (HW := array_body) "products" 0%nat;
              link := None; body := Json (VList []) |}
           (VList []) 3 0%nat).
  - reflexivity.
  - intros req w Hu _. simpl. now rewrite Hu.
  - reflexivity.
  - reflexivity.
  - discriminate.
  - constructor.
  - simpl. lia.
Defined.

(** ** Two runs against an unchanged store *)

Lemma agree_gets (t1 t2 : list event) : Forall2 ev_agree t1 t2 -> gets t1 = gets t2.
Proof.
  intros H. induction H as [|a b t1 t2 Hab _ IH]; [reflexivity|].
  destruct a, b; simpl in *; try discriminate; try exact IH.
  injection Hab as ->. now f_equal.
Qed.

Lemma agree_prints (t1 t2 : list event) : Forall2 ev_agree t1 t2 -> prints t1 = prints t2.
Proof.
  intros H. induction H as [|a b t1 t2 Hab _ IH]; [reflexivity|].
  destruct a, b; simpl in *; try discriminate; try exact IH.
  injection Hab as ->. now f_equal.
Qed.

Lemma agree_yields (t1 t2 : list event) :
  Forall2 ev_agree t1 t2 -> Forall2 rows_agree (yields t1) (yields t2).
Proof.
  intros H. induction H as [|a b t1 t2 Hab _ IH]; [constructor|].
  destruct a, b; simpl in *; try discriminate; try exact IH.
  now constructor.
Qed.

(** X13. Against an unchanged store (the server answers a request the same
    way whenever it is asked, and the environment is the same), two runs of
    a generator make the same requests, print the same lines, end the same
    way, and yield rows that agree key by key in everything but
    [extracted_at]. *)
Theorem extraction_is_repeatable {W : Type} {HW : World W} (k : kind) (fuel : nat)
    (w1 w2 : W) :
  (forall req (w w' : W), fst (send req w) = fst (send req w')) ->
  (forall name (w w' : W), environ w name = environ w' name) ->
  gets (trace_of (extract k fuel w1)) = gets (trace_of (extract k fuel w2)) /\
  prints (trace_of (extract k fuel w1)) = prints (trace_of (extract k fuel w2)) /\
  Forall2 rows_agree (yields (trace_of (extract k fuel w1)))
    (yields (trace_of (extract k fuel w2))) /\
  result_of (extract k fuel w1) = result_of (extract k fuel w2).
Proof.
  intros Hsend Henv.
  destruct (steady_extract Hsend Henv k fuel w1 w2) as [Ht Hr].
  split; [now apply agree_gets|]. split; [now apply agree_prints|].
  split; [now apply agree_yields|exact Hr].
Qed.

Lemma extraction_is_repeatable_witness :
  gets (trace_of (extract (HW := two_pages) Orders 5 0%nat))
  = gets (trace_of (extract (HW := two_pages) Orders 5 9%nat)) /\
  prints (trace_of (extract (HW := two_pages) Orders 5 0%nat))
  = prints (trace_of (extract (HW := two_pages) Orders 5 9%nat)) /\
  Forall2 rows_agree (yields (trace_of (extract (HW := two_pages) Orders 5 0%nat)))
    (yields (trace_of (extract (HW := two_pages) Orders 5 9%nat))) /\
  result_of (extract (HW := two_pages) Orders 5 0%nat)
  = result_of (extract (HW := two_pages) Orders 5 9%nat).
Proof.
  apply (extraction_is_repeatable (HW := two_pages) Orders 5 0%nat 9%nat); reflexivity.
Defined.

(** ** The handler and the script of the probe *)

Section ProbeMore.
Context {W : Type} {HW : World W}.

(** X14. On a [sys.stdout] that encodes every text, whatever exception
    reaches them, the [except] clauses of the probe make no request, leave
    the world as it is, print a report headed by exactly one class (a
    [KeyError] as a configuration error, an [HTTPError] as an authentication
    error for status 401, as a not-found error for 404 and as an HTTP error
    otherwise, another [requests] exception as a network error, anything
    else as an unexpected error), list the three scopes exactly for a 401,
    and return [False]. *)
Theorem probe_handler_reports (e : exn) (w : W) :
  (forall line, stdout_error line = None) ->
  exists t,
    on_probe_exception e w = (t, w, Ok false) /\
    gets t = [] /\
    reported_class (prints t) = Some (classify e) /\
    lists_scopes (prints t)
    = match classify e with AuthenticationError => true | _ => false end.
Proof.
  intros wide.
  destruct e as [m|status m|m|key|m|m|m|m|cls m]; unfold on_probe_exception, print;
    try (rewrite !wide; eexists; repeat split; reflexivity).
  destruct (status =? 401) eqn:E401.
  - rewrite !wide. unfold classify. rewrite E401. eexists. repeat split; reflexivity.
  - destruct (status =? 404) eqn:E404;
      rewrite !wide; unfold classify; rewrite E401, E404; eexists; repeat split; reflexivity.
Qed.

Lemma probe_answers (globals : list string) (w : W) :
  (forall line, stdout_error line = None) ->
  exists t w' b, test_shopify_connection_in globals w = (t, w', Ok b).
Proof.
  intros wide. unfold test_shopify_connection_in, try_except.
  destruct (connection_checks globals w) as [[t w1] [b|e]].
  - now exists t, w1, b.
  - destruct (on_probe_exception_false e w1 wide) as (t' & E).
    rewrite E. now exists (t ++ t')%list, w1, false.
Qed.

(** X15. On a [sys.stdout] that encodes every text, the script of the probe
    does not raise: it prints its banner and a rule of fifty [=], runs the
    probe, prints the rule again and then one verdict, the line of success
    exactly when the probe returned [True].  As the module is written, it
    prints the same five lines in every such world, ends with the verdict
    of failure, and makes no request. *)
Theorem probe_script_verdict (globals : list string) (w : W) :
  (forall line, stdout_error line = None) ->
  (exists t w' b,
      test_shopify_connection_in globals w = (t, w', Ok b) /\
      probe_main_in globals w
      = ((EvPrint "Testing Shopify API Connection..." :: EvPrint (py_mul "=" 50) :: t
            ++ [EvPrint (py_mul "=" 50); EvPrint (verdict b)])%list,
         w', Ok tt)) /\
  probe_main w
  = ([ EvPrint "Testing Shopify API Connection...";
       EvPrint (py_mul "=" 50);
       EvPrint (cross_mark ++ " Unexpected error: name 'os' is not defined");
       EvPrint (py_mul "=" 50);
       EvPrint (verdict false) ], w, Ok tt).
Proof.
  intros wide.
  assert (forall g t w' b,
             test_shopify_connection_in g w = (t, w', Ok b) ->
             probe_main_in g w
             = ((EvPrint "Testing Shopify API Connection..." :: EvPrint (py_mul "=" 50) :: t
                   ++ [EvPrint (py_mul "=" 50); EvPrint (verdict b)])%list,
                w', Ok tt)) as K.
  { intros g t w' b E. unfold probe_main_in.
    eapply bind_then; [apply print_taken, wide| |reflexivity].
    eapply bind_then; [apply print_taken, wide| |reflexivity].
    eapply bind_then; [exact E| |reflexivity].
    eapply bind_then; [apply print_taken, wide| |reflexivity].
    destruct b; apply print_taken, wide. }
  split.
  - destruct (probe_answers globals w wide) as (t & w' & b & E).
    exists t, w', b. split; [exact E|]. now apply K.
  - unfold probe_main.
    apply (K probe_globals
             [EvPrint (cross_mark ++ " Unexpected error: name 'os' is not defined")]
             w false).
    unfold test_shopify_connection_in, try_except.
    rewrite connection_checks_name_error.
    change (on_probe_exception name_error_os w)
      with ((print (cross_mark ++ " Unexpected error: name 'os' is not defined") ;;
             ret false) w).
    unfold bind. now rewrite (print_taken _ _ (wide _)).
Qed.

End ProbeMore.

Lemma probe_handler_reports_witness :
  exists t,
    on_probe_exception (HW := two_pages) (HTTPError 401 "401 Client Error") 0%nat
    = (t, 0%nat, Ok false) /\
    gets t = [] /\
    reported_class (prints t) = Some AuthenticationError /\
    lists_scopes (prints t) = true.
Proof.
  apply (probe_handler_reports (HW := two_pages) (HTTPError 401 "401 Client Error") 0%nat).
  reflexivity.
Defined.

Lemma probe_script_verdict_witness :
  (exists t w' b,
      test_shopify_connection_in (HW := two_pages) ["os"] 0%nat = (t, w', Ok b) /\
      probe_main_in (HW := two_pages) ["os"] 0%nat
      = ((EvPrint "Testing Shopify API Connection..." :: EvPrint (py_mul "=" 50) :: t
            ++ [EvPrint (py_mul "=" 50); EvPrint (verdict b)])%list,
         w', Ok tt)) /\
  probe_main (HW := two_pages) 0%nat
  = ([ EvPrint "Testing Shopify API Connection...";
       EvPrint (py_mul "=" 50);
       EvPrint (cross_mark ++ " Unexpected error: name 'os' is not defined");
       EvPrint (py_mul "=" 50);
       EvPrint (verdict false) ], 0%nat, Ok tt).
Proof.
  apply (probe_script_verdict (HW := two_pages) ["os"] 0%nat). reflexivity.
Defined.

(** ** What the generators yield and ask, whatever the server does *)

Section RowsMore.
Context {W : Type} {HW : World W}.

Lemma columns_keys (k : kind) : map fst (flat_items (W := W) k) = columns k.
Proof. destruct k; reflexivity. Qed.

Lemma made_row (k : kind) (row : dict) :
  made_by (flatten k) row ->
  keys row = columns k /\ exists stamp, lookup "extracted_at" row = Some (VStr stamp).
Proof.
  intros (record & w & H). rewrite flatten_front in H.
  destruct (attr_display _ record (front_items_attr k)) as [(d & Hk & Hd)|(msg & Hd)];
    rewrite Hd in H; [|discriminate].
  rewrite stamp_display in H. simpl in H. injection H as <-. split.
  - rewrite <- columns_keys, flat_items_front. unfold keys in *.
    now rewrite !map_app, Hk.
  - eexists. apply lookup_app_last. rewrite Hk. apply front_items_unstamped.
Qed.

Lemma made_rows (k : kind) (rows : list dict) :
  Forall (made_by (flatten k)) rows ->
  Forall (fun row => keys row = columns k /\
                     exists stamp, lookup "extracted_at" row = Some (VStr stamp)) rows.
Proof.
  intros H. induction H as [|row rows Hrow _ IH]; constructor; [|exact IH].
  now apply made_row.
Qed.

(** X16. Every row a generator yields, against any server and whatever the
    records hold, has exactly the columns of its kind, in the order of the
    display, and a text under [extracted_at]. *)
Theorem yielded_rows_have_fixed_columns (limit : Z) (status : string) (fuel : nat) (w : W) :
  Forall (fun row => keys row = columns Orders /\
                     exists stamp, lookup "extracted_at" row = Some (VStr stamp))
    (yields (trace_of (orders limit status fuel w))) /\
  Forall (fun row => keys row = columns Products /\
                     exists stamp, lookup "extracted_at" row = Some (VStr stamp))
    (yields (trace_of (products limit fuel w))) /\
  Forall (fun row => keys row = columns Customers /\
                     exists stamp, lookup "extracted_at" row = Some (VStr stamp))
    (yields (trace_of (customers limit fuel w))).
Proof.
  rewrite orders_paginate, products_paginate, customers_paginate.
  split; [|split].
  - apply (made_rows Orders).
    exact (paginate_rows "orders" order_flat _ _ (flatten_silent Orders) fuel _ _ w).
  - apply (made_rows Products).
    exact (paginate_rows "products" product_flat _ _ (flatten_silent Products) fuel _ _ w).
  - apply (made_rows Customers).
    exact (paginate_rows "customers" customer_flat _ _ (flatten_silent Customers)
             fuel _ _ w).
Qed.

(** X17. The generators do not check their credentials: with [STORE_ID] and
    [API_TOKEN] unset, [orders] still makes its first request, to the host
    [None.myshopify.com], handing [requests.get] the value [None] for the
    header of the access token. *)
Theorem unset_credentials_still_request (limit : Z) (status : string) (fuel : nat)
    (w : W) :
  environ w "STORE_ID" = None ->
  environ w "API_TOKEN" = None ->
  exists rest,
    gets (trace_of (orders limit status (S fuel) w))
    = {| req_url := "https://None.myshopify.com/admin/api/2024-01/orders.json";
         req_headers := [ ("X-Shopify-Access-Token", VNone);
                          ("Content-Type", VStr "application/json") ];
         req_params := [("limit", VInt limit); ("status", VStr status)] |} :: rest.
Proof.
  intros Hstore Htoken. rewrite orders_paginate.
  destruct (paginate_addressed "orders" order_flat
              (shop_base_url (of_option (environ w "STORE_ID")))
              (shop_headers (of_option (environ w "API_TOKEN")))
              (flatten_silent Orders)
              [("limit", VInt limit); ("status", VStr status)] (S fuel) w eq_refl)
    as (rest & E & _).
  exists rest. rewrite E, Hstore, Htoken. reflexivity.
Qed.

End RowsMore.

Lemma unset_credentials_still_request_witness :
  exists rest,
    gets (trace_of (orders (HW := no_credentials) 250 "any" 3 0%nat))
    = {| req_url := "https://None.myshopify.com/admin/api/2024-01/orders.json";
         req_headers := [ ("X-Shopify-Access-Token", VNone);
                          ("Content-Type", VStr "application/json") ];
         req_params := [("limit", VInt 250); ("status", VStr "any")] |} :: rest.
Proof.
  apply (unset_credentials_still_request (HW := no_credentials) 250 "any" 2 0%nat);
    reflexivity.
Defined.
(** ** What the probe has done when it returns [True] *)

Section ProbeChecks.
Context {W : Type} {HW : World W}.

Lemma on_probe_exception_not_true (e : exn) (w : W) :
  result_of (on_probe_exception e w) <> Ok true.
Proof.
  destruct e as [m|status m|m|key|m|m|m|m|cls m]; unfold on_probe_exception;
    [ | destruct (status =? 401); [|destruct (status =? 404)] | | | | | | | ];
    unfold bind, print, emit, raise, ret;
    repeat (match goal with
            | |- context [stdout_error ?l] => destruct (stdout_error l)
            end; cbn [result_of snd]);
    cbn; discriminate.
Qed.

Lemma print_ok_inv (line : string) (w w' : W) (t : list event) (a : unit) :
  print line w = (t, w', Ok a) -> t = [EvPrint line] /\ w' = w.
Proof.
  unfold print. destruct (stdout_error line); unfold raise, emit; intros H;
    inversion H; subst; auto.
Qed.

Lemma lift_ok_inv {A} (r : result A) (w w' : W) (t : list event) (a : A) :
  lift r w = (t, w', Ok a) -> t = [] /\ w' = w /\ r = Ok a.
Proof. unfold lift. intros H. inversion H; subst; auto. Qed.

Lemma ret_ok_inv {A} (a b : A) (w w' : W) (t : list event) :
  ret a w = (t, w', Ok b) -> t = [] /\ w' = w /\ b = a.
Proof. unfold ret. intros H. inversion H; subst; auto. Qed.

Lemma checked_get_ok (u : string) (headers : dict) (w w' : W) (t : list event)
    (r : response) :
  checked_get u headers w = (t, w', Ok r) ->
  let req := {| req_url := u; req_headers := headers; req_params := [] |} in
  t = [EvGet req] /\ w' = snd (send req w) /\
  fst (send req w) = inr r /\ raise_for_status r = Ok tt.
Proof.
  unfold checked_get. intros H.
  apply bind_ok_inv in H as (t1 & w1 & a & t2 & E1 & H & ->).
  apply bind_ok_inv in H as (t3 & w3 & [] & t4 & E2 & H & ->).
  unfold requests_get in E1. destruct (send _ w) as [ans w0] eqn:Es.
  apply lift_ok_inv in E2 as (-> & -> & E2).
  apply ret_ok_inv in H as (-> & -> & ->).
  destruct ans as [e|r0]; [discriminate|].
  injection E1 as <- <- <-.
  cbv zeta. simpl. repeat split; auto.
Qed.

Lemma global_name_ok_inv (globals : list string) (name : string) (w w' : W)
    (t : list event) (a : unit) :
  global_name globals name w = (t, w', Ok a) ->
  t = [] /\ w' = w /\ existsb (String.eqb name) globals = true.
Proof.
  unfold global_name. destruct (existsb (String.eqb name) globals);
    unfold ret, raise; intros H; inversion H; subst; auto.
Qed.

Lemma response_passes (r : response) (data x : value) (k : string) (default : value) :
  raise_for_status r = Ok tt ->
  response_json r = Ok data ->
  py_get data k default = Ok x ->
  passes r.
Proof.
  intros Hs Hj Hg. split; [exact Hs|].
  unfold response_json in Hj. destruct (body r) as [v|msg]; [|discriminate].
  injection Hj as ->. destruct data; try discriminate. now exists d.
Qed.

Lemma sample_order_quiet (orders_data : value) (w w' : W) (t : list event) (a : unit) :
  sample_order orders_data w = (t, w', Ok a) -> gets t = [] /\ w' = w.
Proof.
  unfold sample_order. intros H. repeat (let E := fresh "E" in
          apply bind_ok_inv in H as (? & ? & ? & ? & E & H & ->);
          first [ apply checked_get_ok in E as (-> & -> & ? & ?)
                | apply print_ok_inv in E as (-> & ->)
                | apply lift_ok_inv in E as (-> & -> & ?)
                | apply global_name_ok_inv in E as (-> & -> & ?)
                | idtac ]).
  apply print_ok_inv in H as (-> & ->). split; reflexivity.
Qed.

(** When the body of the [try] returns, it returns [True] after every
    check. *)
Lemma connection_checks_true (globals : list string) (w w' : W) (t : list event) (b : bool) :
  connection_checks globals w = (t, w', Ok b) ->
  b = true /\
  existsb (String.eqb "os") globals = true /\
  exists token,
    environ w "API_TOKEN" = Some token /\
    let ask path :=
      check_request (VStr token)
        (shop_base_url (of_option (environ w "STORE_ID")) ++ path) in
    (gets t = map ask check_paths \/ gets t = map ask (check_paths ++ [sample_path])) /\
    all_pass (gets t) w.
Proof.
  unfold connection_checks. intros H.
  repeat (let E := fresh "E" in
          apply bind_ok_inv in H as (? & ? & ? & ? & E & H & ->);
          first [ apply checked_get_ok in E as (-> & -> & ? & ?)
                | apply print_ok_inv in E as (-> & ->)
                | apply lift_ok_inv in E as (-> & -> & ?)
                | apply global_name_ok_inv in E as (-> & -> & ?)
                | idtac ]).
  apply ret_ok_inv in H as (-> & -> & ->).
  split; [reflexivity|]. split; [assumption|].
  repeat match goal with
         | H : Ok _ = Ok _ |- _ => injection H as <-
         end.
  destruct (environ w "API_TOKEN") as [token|] eqn:Htok; [|discriminate].
  exists token. split; [reflexivity|]. cbv zeta.
  assert (forall w4,
             (if x34
              then
                print (newline ++ "5. Testing sample order retrieval...") ;;
                response <-
                  checked_get
                    (("https://"
                        ++ (py_str (of_option (environ w "STORE_ID")) ++ ".myshopify.com")
                        ++ "/admin/api/2024-01") ++ "/orders.json?limit=1")
                    (shop_headers (of_option (Some token))) ;;
                orders_data <- lift (response_json response) ;;
                listed <- lift (py_get orders_data "orders" VNone) ;;
                (if truthy listed then sample_order orders_data else ret tt)
              else ret tt) w4 = (x, x0, Ok x35) ->
             gets x = [] \/
             (gets x
              = [check_request (VStr token)
                   (shop_base_url (of_option (environ w "STORE_ID")) ++ sample_path)] /\
              exists r,
                fst (send (check_request (VStr token)
                             (shop_base_url (of_option (environ w "STORE_ID"))
                                ++ sample_path)) w4) = inr r /\ passes r)) as K.
  { intros w4 H. destruct x34.
    - right. repeat (let E := fresh "E" in
          apply bind_ok_inv in H as (? & ? & ? & ? & E & H & ->);
          first [ apply checked_get_ok in E as (-> & -> & ? & ?)
                | apply print_ok_inv in E as (-> & ->)
                | apply lift_ok_inv in E as (-> & -> & ?)
                | apply global_name_ok_inv in E as (-> & -> & ?)
                | idtac ]).
      match type of H with
      | (if truthy ?l then _ else _) _ = (?tail, _, _) =>
          assert (gets tail = []) as Hq
            by (destruct (truthy l);
                [ now apply sample_order_quiet in H
                | now apply ret_ok_inv in H as (-> & _) ])
      end.
      split.
      + rewrite !gets_app, Hq. reflexivity.
      + eexists. split; [eassumption|]. eapply response_passes; eassumption.
    - left. now apply ret_ok_inv in H as (-> & _). }
  apply K in E. clear K.
  repeat (rewrite gets_app; cbn [gets flat_map app]). rewrite app_nil_r.
  assert (forall r data x k default (P : Prop),
             raise_for_status r = Ok tt -> response_json r = Ok data ->
             py_get data k default = Ok x -> P ->
             (exists r', @inr exn response r = inr r' /\ passes r') /\ P) as Step.
  { intros r data y k default P Hs Hj Hg HP. split; [|exact HP].
    exists r. split; [reflexivity|]. exact (response_passes _ _ _ _ _ Hs Hj Hg). }
  destruct E as [->|(-> & r5 & Hr5 & Hp5)].
  - split; [left; reflexivity|]. cbn [all_pass app].
    rewrite H6, H13, H17, H21. eauto 10.
  - split; [right; reflexivity|]. cbn [all_pass app].
    rewrite H6, H13, H17, H21.
    change (fst (send (check_request (VStr token)
                         (shop_base_url (of_option (environ w "STORE_ID"))
                            ++ sample_path)) ?w4))
      with (fst (send (check_request (VStr token)
                         (shop_base_url (of_option (environ w "STORE_ID"))
                            ++ sample_path)) w4)) in Hr5.
    eauto 12.
Qed.
(** X18. When the probe returns [True], the module binds [os], [API_TOKEN]
    is set, the requests of the run are the four checks in order, followed
    by the request of the sample order or by nothing, each to the base URL of
    the shop with the token header and no parameter, and each of them was
    answered without error status by a JSON object.  No [except] clause
    returns [True]. *)
Theorem probe_true_after_every_check (globals : list string) (w w' : W) (t : list event) :
  test_shopify_connection_in globals w = (t, w', Ok true) ->
  existsb (String.eqb "os") globals = true /\
  exists token,
    environ w "API_TOKEN" = Some token /\
    let ask path :=
      check_request (VStr token)
        (shop_base_url (of_option (environ w "STORE_ID")) ++ path) in
    (gets t = map ask check_paths \/ gets t = map ask (check_paths ++ [sample_path])) /\
    all_pass (gets t) w.
Proof.
  unfold test_shopify_connection_in, try_except.
  destruct (connection_checks globals w) as [[t1 w1] [b|e]] eqn:E; intros H.
  - injection H as <- <- ->. exact (proj2 (connection_checks_true _ _ _ _ _ E)).
  - exfalso. apply (on_probe_exception_not_true e w1).
    destruct (on_probe_exception e w1) as [[t2 w2] r]. now injection H.
Qed.

End ProbeChecks.

Lemma probe_true_after_every_check_witness :
  existsb (String.eqb "os") ["os"] = true /\
  exists token,
    environ (World := counting_shop) 0%nat "API_TOKEN" = Some token /\
    let ask path :=
      check_request (VStr token)
        (shop_base_url (HW := counting_shop)
           (of_option (environ (World := counting_shop) 0%nat "STORE_ID")) ++ path) in
    (gets (trace_of (test_shopify_connection_in (HW := counting_shop) ["os"] 0%nat))
     = map ask check_paths \/
     gets (trace_of (test_shopify_connection_in (HW := counting_shop) ["os"] 0%nat))
     = map ask (check_paths ++ [sample_path])) /\
    all_pass (HW := counting_shop)
      (gets (trace_of (test_shopify_connection_in (HW := counting_shop) ["os"] 0%nat)))
      0%nat.
Proof.
  apply (probe_true_after_every_check (HW := counting_shop) ["os"] 0%nat 0%nat
           (trace_of (test_shopify_connection_in (HW := counting_shop) ["os"] 0%nat))).
  reflexivity.
Defined.

(** Against that server the probe asks for the sample order too. *)
Example probe_asks_sample_order :
  result_of (test_shopify_connection_in (HW := counting_shop) ["os"] 0%nat) = Ok true /\
  map req_url
    (gets (trace_of (test_shopify_connection_in (HW := counting_shop) ["os"] 0%nat)))
  = [ "https://demo.myshopify.com/admin/api/2024-01/shop.json";
      "https://demo.myshopify.com/admin/api/2024-01/orders/count.json";
      "https://demo.myshopify.com/admin/api/2024-01/products/count.json";
      "https://demo.myshopify.com/admin/api/2024-01/customers/count.json";
      "https://demo.myshopify.com/admin/api/2024-01/orders.json?limit=1" ] /\
  prints (trace_of (test_shopify_connection_in (HW := counting_shop) ["os"] 0%nat))
  = [ "Testing connection to: demo.myshopify.com";
      "API Token: shpat_0123...cdef (truncated for security)";
      newline ++ "1. Testing shop information...";
      check_mark ++ " Shop name: Demo";
      check_mark ++ " Shop domain: N/A";
      check_mark ++ " Shop email: N/A";
      newline ++ "2. Testing orders access...";
      check_mark ++ " Total orders: 2";
      newline ++ "3. Testing products access...";
      check_mark ++ " Total products: 2";
      newline ++ "4. Testing customers access...";
      check_mark ++ " Total customers: 2";
      newline ++ "5. Testing sample order retrieval...";
      check_mark ++ " Sample order ID: 1001";
      check_mark ++ " Sample order number: None";
      check_mark ++ " Sample order total: None";
      newline ++ check_mark
        ++ " All tests passed! Your Shopify API connection is working correctly.";
      check_mark
        ++ " You can now run the full pipeline with: python shopify_pipeline_pipeline.py" ].
Proof. repeat split; reflexivity. Qed.
